(** * ryOS "AI weather report": scoring and forecasting engine

    A shallow embedding of the scoring logic of
    [scripts/calculate-weather.py], of the weekly activity counters of
    [scripts/fetch-changelogs.py] and [scripts/backfill-history.py], of
    the rolling mood history of [scripts/backfill-history.py], of the
    mood update of [scripts/analyze-sentiment.py] and of the aggregation
    of stories of [scripts/fetch-hackernews.py].  Network access, HTML
    scraping, the TextBlob analyser, regular expressions and [strptime]
    are parameters of the functions that call them.

    Numbers.  Python's [int] and [float] values are embedded as exact
    rationals ([Q]); arithmetic is therefore exact and results are compared
    with [==].  [round] and the [.2f] format round the exact value to the
    nearest decimal, a tie going to the even neighbour.

    Dictionaries.  Dictionaries loaded from JSON are embedded as records
    whose optional keys are [option] fields, and dictionaries keyed by an
    organisation, a signal or a state name as [gmap string _].
    Dictionaries whose iteration order is observable are association
    lists.

    Exceptions.  A function that can raise returns a [Py.result]: divisions
    raise [ZeroDivisionError] on a zero divisor, subscripts raise
    [KeyError] or [IndexError], [float] raises [ValueError]. *)

From Stdlib Require Import ZArith QArith Qfield Qround Qminmax Qabs Lia Lqa.
From Stdlib Require Import List String Ascii Sorted Permutation.
From Stdlib Require Import DecimalString DecimalPos DecimalN.
From stdpp Require Import gmap strings.

#[local] Open Scope string_scope.
#[local] Open Scope Q_scope.

#[local] Instance Q_inhabited : Inhabited Q := populate 0.

(** ** Python built-ins used by the scripts *)

Module Py.

(** Exceptions, and the outcome of a call that may raise one. *)
Inductive exn := ZeroDivisionError | ValueError | IndexError | KeyError.

Inductive result (A : Type) : Type :=
  | Ok (a : A)
  | Raise (e : exn).

Arguments Ok {A} a.
Arguments Raise {A} e.

#[global] Instance result_ret : MRet result := fun A a => Ok a.

#[global] Instance result_bind : MBind result :=
  fun A B f m => match m with Ok a => f a | Raise e => Raise e end.

#[global] Instance result_fmap : FMap result :=
  fun A B f m => match m with Ok a => Ok (f a) | Raise e => Raise e end.

(** A [for] loop that updates an accumulator and may raise. *)
Fixpoint for_each {A B} (body : A -> B -> result A) (l : list B) (acc : A)
  : result A :=
  match l with
  | [] => Ok acc
  | x :: r => acc' ← body acc x; for_each body r acc'
  end.

(** A list comprehension whose element expression may raise. *)
Fixpoint comprehension {A B} (f : A -> result B) (l : list A)
  : result (list B) :=
  match l with
  | [] => Ok []
  | x :: r => y ← f x; ys ← comprehension f r; Ok (y :: ys)
  end.

(** [a > b] and [a < b] on numbers. *)
Definition gt (a b : Q) : bool :=
  match Qcompare a b with Gt => true | _ => false end.

Definition lt (a b : Q) : bool :=
  match Qcompare a b with Lt => true | _ => false end.

(** [a >= b]. *)
Definition ge (a b : Q) : bool := negb (lt a b).

(** [a == b] on numbers. *)
Definition eq (a b : Q) : bool := Qeq_bool a b.

(** [max(a, b)] keeps its first argument unless the second is strictly
    larger; [min(a, b)] unless the second is strictly smaller. *)
Definition max (a b : Q) : Q := if gt b a then b else a.
Definition min (a b : Q) : Q := if lt b a then b else a.

(** [a / b]. *)
Definition div (a b : Q) : result Q :=
  if eq b 0 then Raise ZeroDivisionError else Ok (a / b).

(** [d[k]] on a dictionary. *)
Definition getitem {V} (d : gmap string V) (k : string) : result V :=
  match d !! k with
  | Some v => Ok v
  | None => Raise KeyError
  end.

(** [sum(l)]: left-to-right accumulation starting from [0]. *)
Definition sum (l : list Q) : Q := fold_left Qplus l 0.

(** [len(l)] as a number. *)
Definition len {A} (l : list A) : Q := inject_Z (Z.of_nat (List.length l)).

(** [l[:n]] and [l[-n:]] for a positive literal [n]. *)
Definition slice_to {A} (n : nat) (l : list A) : list A := firstn n l.
Definition slice_last {A} (n : nat) (l : list A) : list A :=
  skipn (List.length l - n) l.

(** [l[-1]]. *)
Definition last_item {A} (l : list A) : result A :=
  List.last (map Ok l) (Raise IndexError).

(** Rounding to the nearest integer, ties to the even neighbour. *)
Definition round_half_even (q : Q) : Z :=
  let f := Qfloor q in
  match Qcompare (q - inject_Z f) (1 # 2) with
  | Lt => f
  | Gt => (f + 1)%Z
  | Eq => if Z.even f then f else (f + 1)%Z
  end.

(** [round(q, 2)] and [round(q, 3)]. *)
Definition round2 (q : Q) : Q := round_half_even (q * 100) # 100.
Definition round3 (q : Q) : Q := round_half_even (q * 1000) # 1000.

(** Decimal digits of a natural number, most significant first. *)
Definition digits (n : N) : string := NilZero.string_of_uint (N.to_uint n).

Definition digit (n : N) : ascii :=
  match n with
  | 0%N => "0" | 1%N => "1" | 2%N => "2" | 3%N => "3" | 4%N => "4"
  | 5%N => "5" | 6%N => "6" | 7%N => "7" | 8%N => "8" | _ => "9"
  end%char.

(** The unsigned part of [f"{q:.2f}"]: [|q|] rounded to hundredths. *)
Definition format_2f_abs (q : Q) : string :=
  let n := Z.to_N (round_half_even (Qabs q * 100)) in
  digits (n / 100)
    ++ String "."%char
         (String (digit ((n mod 100) / 10))
            (String (digit (n mod 10)) EmptyString)).

(** [f"{q:.2f}"]. *)
Definition format_2f (q : Q) : string :=
  if lt q 0 then String "-"%char (format_2f_abs q) else format_2f_abs q.

(** [s.startswith(c)] for a one-character literal, and [s[1:]]. *)
Definition startswith (c : ascii) (s : string) : bool :=
  match s with
  | String c' _ => Ascii.eqb c c'
  | EmptyString => false
  end.

Definition tail (s : string) : string :=
  match s with
  | String _ r => r
  | EmptyString => EmptyString
  end.

(** [float(s)] on plain decimal literals: an optional sign, digits, and an
    optional fractional part, with at least one digit in all.  Exponents,
    [inf], [nan], underscores and surrounding blanks, which no string
    built by the scripts contains, are not covered. *)
Definition digit_of_ascii (c : ascii) : option N :=
  let n := N_of_ascii c in
  if ((48 <=? n) && (n <=? 57))%N then Some (n - 48)%N else None.

Fixpoint parse_frac (s : string) (seen : bool) (num : N) (den : positive)
  : result Q :=
  match s with
  | EmptyString => if seen then Ok (Z.of_N num # den) else Raise ValueError
  | String c r =>
      match digit_of_ascii c with
      | Some d => parse_frac r true (10 * num + d)%N (10 * den)%positive
      | None => Raise ValueError
      end
  end.

Fixpoint parse_int (s : string) (seen : bool) (num : N) : result Q :=
  match s with
  | EmptyString => if seen then Ok (Z.of_N num # 1) else Raise ValueError
  | String c r =>
      if Ascii.eqb c "."%char then parse_frac r seen num 1
      else
        match digit_of_ascii c with
        | Some d => parse_int r true (10 * num + d)%N
        | None => Raise ValueError
        end
  end.

Definition float_of_string (s : string) : result Q :=
  match s with
  | String c r =>
      if Ascii.eqb c "-"%char then Qopp <$> parse_int r false 0
      else if Ascii.eqb c "+"%char then parse_int r false 0
      else parse_int s false 0
  | EmptyString => Raise ValueError
  end.

(** [max(l)] on a list. *)
Definition max_list (l : list Q) : result Q :=
  match l with
  | [] => Raise ValueError
  | x :: r => Ok (fold_left max r x)
  end.

(** Truth value of a list or of a string: non-empty. *)
Definition truthy {A} (l : list A) : bool :=
  match l with [] => false | _ :: _ => true end.

Definition truthy_str (s : string) : bool :=
  match s with EmptyString => false | String _ _ => true end.

(** [sep.join(l)]. *)
Definition join (sep : string) (l : list string) : string := String.concat sep l.

End Py.

(** ** scripts/calculate-weather.py *)

Module CalculateWeather.

Definition WEATHER_THRESHOLDS : gmap string Q :=
  list_to_map
    [ ("sunny", 0.6); ("partly_cloudy", 0.3); ("cloudy", 0.0);
      ("rainy", -0.3); ("stormy", -1.0) ].

Record weather_info := {
  icon : string;
  emoji : string;
  label : string;
  description : string;
}.

#[local] Instance weather_info_inhabited : Inhabited weather_info :=
  populate {| icon := EmptyString; emoji := EmptyString;
              label := EmptyString; description := EmptyString |}.

Definition WEATHER_INFO : gmap string weather_info :=
  list_to_map
    [ ("sunny", {| icon := "sunny"; emoji := "sunny"; label := "Sunny";
                   description := "Bright outlook with strong signals" |});
      ("partly_cloudy", {| icon := "cloudy"; emoji := "partly_cloudy";
                           label := "Partly Cloudy";
                           description := "Mixed signals, some uncertainty" |});
      ("cloudy", {| icon := "cloudy"; emoji := "cloudy"; label := "Cloudy";
                    description := "Below average performance" |});
      ("rainy", {| icon := "stormy"; emoji := "rainy"; label := "Rainy";
                   description := "Concerning trends emerging" |});
      ("stormy", {| icon := "stormy"; emoji := "stormy"; label := "Stormy";
                    description := "Turbulent times ahead" |});
      ("foggy", {| icon := "foggy"; emoji := "foggy"; label := "Foggy";
                   description := "Insufficient data available" |}) ].

(** [WEIGHTS], in the order [WEIGHTS.items()] yields it. *)
Definition WEIGHTS : list (string * Q) :=
  [ ("sentiment", 0.25); ("shipping", 0.25); ("market", 0.25);
    ("competitive", 0.25) ].

(** [COMPANY_STOCK_MAP]; a private organisation is mapped to [None]. *)
Definition COMPANY_STOCK_MAP : gmap string (option string) :=
  list_to_map
    [ ("anthropic", None); ("openai", Some "MSFT"); ("google", Some "GOOGL");
      ("meta", Some "META") ].

(** *** The documents read by [load_json]

    A document that could not be loaded is [None].  A key that may be
    missing is an [option] field; a document with every field [None] is the
    empty dictionary. *)

Record mood_sentiment := { ms_score : option Q; ms_label : option string }.

Record mood_doc := {
  md_lastUpdated : option string;
  md_sentiment : option mood_sentiment;
}.

Record buzz_company := {
  bc_total_points : option Q;
  bc_sentiment : option Q;
}.

Record buzz_doc := {
  bd_lastUpdated : option string;
  bd_companies : option (gmap string buzz_company);
}.

Record pulse_company := { pc_activity : option (list Q) }.

Record pulse_doc := {
  pd_lastUpdated : option string;
  pd_companies : option (gmap string pulse_company);
}.

Record stock := { st_ticker : string; st_history : option (list Q) }.

Record stocks_doc := {
  sd_lastUpdated : option string;
  sd_stocks : option (list stock);
}.

(** The empty dictionary [{}] used as a [.get] default. *)
Definition no_buzz : buzz_company :=
  {| bc_total_points := None; bc_sentiment := None |}.
Definition no_pulse : pulse_company := {| pc_activity := None |}.

(** [if doc] on a loaded document. *)
Definition buzz_truthy (d : option buzz_doc) : bool :=
  match d with
  | Some d => bool_decide (is_Some (bd_lastUpdated d)) || bool_decide (is_Some (bd_companies d))
  | None => false
  end.

Definition pulse_truthy (d : option pulse_doc) : bool :=
  match d with
  | Some d => bool_decide (is_Some (pd_lastUpdated d)) || bool_decide (is_Some (pd_companies d))
  | None => false
  end.

(** [normalize_score(value, min_val, max_val)]. *)
Definition normalize_score (value min_val max_val : Q) : Py.result Q :=
  if Py.eq max_val min_val then Py.Ok 0.5
  else
    r ← Py.div (value - min_val) (max_val - min_val);
    Py.Ok (Py.max 0 (Py.min 1 r)).

(** [sum(scores) / len(scores) if scores else None]. *)
Definition mean_or_none (scores : list Q) : Py.result (option Q) :=
  if Py.truthy scores
  then m ← Py.div (Py.sum scores) (Py.len scores); Py.Ok (Some m)
  else Py.Ok None.

(** [calculate_sentiment_score(mood_data, buzz_data, company_id)]. *)
Definition calculate_sentiment_score
  (mood_data : option mood_doc) (buzz_data : option buzz_doc)
  (company_id : string) : Py.result (option Q) :=
  let scores : list Q := [] in
  let scores :=
    match mood_data ≫= md_sentiment with
    | Some sentiment =>
        let raw_score := default 0 (ms_score sentiment) in
        (scores ++ [(raw_score + 1) / 2])%list
    | None => scores
    end in
  let scores :=
    match buzz_data ≫= bd_companies with
    | Some companies =>
        let company_buzz := default no_buzz (companies !! company_id) in
        let hn_sentiment := default 0 (bc_sentiment company_buzz) in
        (scores ++ [(hn_sentiment + 1) / 2])%list
    | None => scores
    end in
  mean_or_none scores.

(** [calculate_shipping_score(pulse_data, company_id)]. *)
Definition calculate_shipping_score
  (pulse_data : option pulse_doc) (company_id : string)
  : Py.result (option Q) :=
  match pulse_data ≫= pd_companies with
  | None => Py.Ok None
  | Some companies =>
      let company_pulse := default no_pulse (companies !! company_id) in
      let activity := default [] (pc_activity company_pulse) in
      if negb (Py.truthy activity) then Py.Ok None
      else
        let recent_activity :=
          if (7 <=? List.length activity)%nat then Py.slice_to 7 activity
          else activity in
        avg_recent ←
          (if Py.truthy recent_activity
           then Py.div (Py.sum recent_activity) (Py.len recent_activity)
           else Py.Ok 0);
        r ← Py.div avg_recent 3.0;
        Py.Ok (Some (Py.min 1.0 r))
  end.

(** [calculate_market_score(stocks_data, company_id)]. *)
Definition calculate_market_score
  (stocks_data : option stocks_doc) (company_id : string)
  : Py.result (option Q) :=
  match stocks_data ≫= sd_stocks with
  | None => Py.Ok None
  | Some stocks =>
      match mjoin (COMPANY_STOCK_MAP !! company_id) with
      | None => Py.Ok None
      | Some ticker =>
          if negb (Py.truthy_str ticker) then Py.Ok None
          else
            match List.find (fun s => String.eqb (st_ticker s) ticker) stocks with
            | None => Py.Ok None
            | Some stock =>
                let history := default [] (st_history stock) in
                if (List.length history <? 10)%nat then Py.Ok None
                else
                  recent_price ←
                    (if Py.truthy history then Py.last_item history
                     else Py.Ok 0);
                  avg_30d ←
                    (if Py.truthy history
                     then Py.div (Py.sum (Py.slice_last 30 history))
                                 (Py.min (Py.len history) 30)
                     else Py.Ok 0);
                  if Py.eq avg_30d 0 then Py.Ok (Some 0.5)
                  else
                    momentum ← Py.div recent_price avg_30d;
                    r ← Py.div (momentum - 0.8) 0.4;
                    Py.Ok (Some (Py.max 0 (Py.min 1 r)))
            end
      end
  end.

(** The value that [calculate_market_score] binds to [avg_30d] for a
    non-empty history, as a number. *)
Definition avg_30d_of (history : list Q) : Q :=
  Py.sum (Py.slice_last 30 history) / Py.min (Py.len history) 30.

(** [calculate_competitive_score(buzz_data, pulse_data, company_id,
    all_companies)]. *)
Definition calculate_competitive_score
  (buzz_data : option buzz_doc) (pulse_data : option pulse_doc)
  (company_id : string) (all_companies : list string)
  : Py.result (option Q) :=
  if negb (buzz_truthy buzz_data) || negb (pulse_truthy pulse_data)
  then Py.Ok None
  else
    let buzz_companies := default ∅ (buzz_data ≫= bd_companies) in
    let pulse_companies := default ∅ (pulse_data ≫= pd_companies) in
    let points_of c :=
      default 0 (bc_total_points (default no_buzz (buzz_companies !! c))) in
    let activity_of c :=
      Py.sum (Py.slice_to 7
                (default [] (pc_activity (default no_pulse (pulse_companies !! c))))) in
    let scores : list Q := [] in
    let company_points := points_of company_id in
    let all_points := map points_of all_companies in
    max_points ←
      (if Py.truthy all_points then Py.max_list all_points else Py.Ok 1);
    scores ←
      (if Py.gt max_points 0
       then r ← Py.div company_points max_points; Py.Ok (scores ++ [r])%list
       else Py.Ok scores);
    let company_activity := activity_of company_id in
    let all_activity := map activity_of all_companies in
    max_activity ←
      (if Py.truthy all_activity then Py.max_list all_activity else Py.Ok 1);
    scores ←
      (if Py.gt max_activity 0
       then r ← Py.div company_activity max_activity; Py.Ok (scores ++ [r])%list
       else Py.Ok scores);
    mean_or_none scores.

(** [calculate_vs_peers(value, all_values)]. *)
Definition calculate_vs_peers
  (value : option Q) (all_values : list (option Q))
  : Py.result (option string) :=
  match value with
  | None => Py.Ok None
  | Some value =>
      if negb (Py.truthy all_values) then Py.Ok None
      else
        let valid_values := omap id all_values in
        if negb (Py.truthy valid_values) then Py.Ok None
        else
          avg ← Py.div (Py.sum valid_values) (Py.len valid_values);
          let diff := value - avg in
          Py.Ok (Some (if Py.ge diff 0 then String "+"%char (Py.format_2f diff)
                       else Py.format_2f diff))
  end.

(** [determine_weather(score)]. *)
Definition determine_weather (score : option Q) : string :=
  match score with
  | None => "foggy"
  | Some score =>
      let adjusted_score := score * 2 - 1 in
      if Py.gt adjusted_score (WEATHER_THRESHOLDS !!! "sunny") then "sunny"
      else if Py.gt adjusted_score (WEATHER_THRESHOLDS !!! "partly_cloudy")
      then "partly_cloudy"
      else if Py.gt adjusted_score (WEATHER_THRESHOLDS !!! "cloudy") then "cloudy"
      else if Py.gt adjusted_score (WEATHER_THRESHOLDS !!! "rainy") then "rainy"
      else "stormy"
  end.

(** One entry of the [signals] dictionary of [main]. *)
Record signal_data := { value : option Q; vs_peers : option string }.

(** The two tests of the loop of [generate_summary] on one [vs_peers]
    entry; [float] is called only behind the tests that precede it. *)
Definition is_strength (vs_peers : string) : Py.result bool :=
  if Py.truthy_str vs_peers && Py.startswith "+" vs_peers
  then x ← Py.float_of_string (Py.tail vs_peers); Py.Ok (Py.gt x 0.1)
  else Py.Ok false.

Definition is_weakness (vs_peers : string) : Py.result bool :=
  if Py.truthy_str vs_peers && Py.startswith "-" vs_peers
  then x ← Py.float_of_string (Py.tail vs_peers); Py.Ok (Py.lt x (-0.1))
  else Py.Ok false.

(** The body of the loop of [generate_summary], acting on the pair
    [(strengths, weaknesses)]. *)
Definition summary_step (acc : list string * list string)
  (item : string * signal_data) : Py.result (list string * list string) :=
  let '(strengths, weaknesses) := acc in
  let '(signal_name, signal_data) := item in
  let vs_peers := default EmptyString (vs_peers signal_data) in
  s ← is_strength vs_peers;
  if s : bool then Py.Ok ((strengths ++ [signal_name])%list, weaknesses)
  else
    w ← is_weakness vs_peers;
    if w : bool then Py.Ok (strengths, (weaknesses ++ [signal_name])%list)
    else Py.Ok (strengths, weaknesses).

(** The sentence chosen from the two lists. *)
Definition summary_text (strengths weaknesses : list string)
  (weather : string) : string :=
  (if Py.truthy strengths && negb (Py.truthy weaknesses)
   then "Outperforming on " ++ Py.join ", " strengths
   else if Py.truthy weaknesses && negb (Py.truthy strengths)
   then "Challenges in " ++ Py.join ", " weaknesses
   else if Py.truthy strengths && Py.truthy weaknesses
   then "Strong " ++ Py.join ", " strengths ++ "; watching "
          ++ Py.join ", " weaknesses
   else
     match WEATHER_INFO !! weather with
     | Some info => description info
     | None => "Performance tracking"
     end)%string.

(** [generate_summary(signals, weather, company_id)]. *)
Definition generate_summary (signals : list (string * signal_data))
  (weather company_id : string) : Py.result string :=
  '(strengths, weaknesses) ← Py.for_each summary_step signals ([], []);
  Py.Ok (summary_text strengths weaknesses weather).

(** *** [main]

    The roster and the signal names are the literals of [main]. *)
Definition all_companies : list string :=
  ["anthropic"; "openai"; "google"; "meta"].

Definition signal_names : list string :=
  ["sentiment"; "shipping"; "market"; "competitive"].

(** First pass: [all_scores[company][signal]] for the whole roster.
    [mood_data] maps an organisation to what [load_json] returned for its
    mood file. *)
Definition company_scores
  (mood_data : gmap string (option mood_doc)) (pulse_data : option pulse_doc)
  (stocks_data : option stocks_doc) (buzz_data : option buzz_doc)
  (company : string) : Py.result (gmap string (option Q)) :=
  sentiment ←
    calculate_sentiment_score (mjoin (mood_data !! company)) buzz_data company;
  shipping ← calculate_shipping_score pulse_data company;
  market ← calculate_market_score stocks_data company;
  competitive ←
    calculate_competitive_score buzz_data pulse_data company all_companies;
  Py.Ok (<["competitive" := competitive]>
         (<["market" := market]>
          (<["shipping" := shipping]>
           (<["sentiment" := sentiment]> ∅)))).

Definition first_pass
  (mood_data : gmap string (option mood_doc)) (pulse_data : option pulse_doc)
  (stocks_data : option stocks_doc) (buzz_data : option buzz_doc)
  : Py.result (gmap string (gmap string (option Q))) :=
  Py.for_each
    (fun all_scores company =>
       row ← company_scores mood_data pulse_data stocks_data buzz_data company;
       Py.Ok (<[company := row]> all_scores))
    all_companies ∅.

(** [all_scores[company][signal_name]]. *)
Definition score_of (all_scores : gmap string (gmap string (option Q)))
  (company signal_name : string) : Py.result (option Q) :=
  row ← Py.getitem all_scores company;
  Py.getitem row signal_name.

(** What the first pass leaves behind: a score, present or absent, for
    every signal of every organisation of the roster. *)
Definition complete (all_scores : gmap string (gmap string (option Q)))
  : Prop :=
  forall company signal_name,
    In company all_companies -> In signal_name signal_names ->
    exists value, score_of all_scores company signal_name = Py.Ok value.

(** The [signals] entry of one signal of one organisation. *)
Definition signal_entry (all_scores : gmap string (gmap string (option Q)))
  (company signal_name : string) : Py.result (string * signal_data) :=
  value ← score_of all_scores company signal_name;
  all_values ←
    Py.comprehension (fun c => score_of all_scores c signal_name) all_companies;
  vs_peers ← calculate_vs_peers value all_values;
  Py.Ok (signal_name,
         {| value := Py.round2 <$> value; vs_peers := vs_peers |}).

(** The [signals] dictionary of one organisation, in insertion order. *)
Definition signals_of (all_scores : gmap string (gmap string (option Q)))
  (company : string) : Py.result (list (string * signal_data)) :=
  Py.comprehension (signal_entry all_scores company) signal_names.

(** A [signals] entry as the second pass builds it: its peer delta is a
    result of [calculate_vs_peers]. *)
Definition built_delta (entry : signal_data) : Prop :=
  exists value all_values,
    calculate_vs_peers value all_values = Py.Ok (vs_peers entry).

(** The body of the composite loop on one item of [weights.items()],
    acting on the pair [(weighted_sum, total_weight)]. *)
Definition composite_step (scores : gmap string (option Q))
  (acc : Q * Q) (item : string * Q) : Py.result (Q * Q) :=
  let '(weighted_sum, total_weight) := acc in
  let '(signal_name, weight) := item in
  value ← Py.getitem scores signal_name;
  match value with
  | Some value => Py.Ok (weighted_sum + value * weight, total_weight + weight)
  | None => Py.Ok (weighted_sum, total_weight)
  end.

(** The composite loop: the pair it ends with. *)
Definition composite_loop (weights : list (string * Q))
  (scores : gmap string (option Q)) : Py.result (Q * Q) :=
  Py.for_each (composite_step scores) weights (0, 0).

(** [weighted_sum / total_weight if total_weight > 0 else None]. *)
Definition composite_of (weights : list (string * Q))
  (scores : gmap string (option Q)) : Py.result (option Q) :=
  '(weighted_sum, total_weight) ← composite_loop weights scores;
  if Py.gt total_weight 0
  then c ← Py.div weighted_sum total_weight; Py.Ok (Some c)
  else Py.Ok None.

Definition composite_score (all_scores : gmap string (gmap string (option Q)))
  (company : string) : Py.result (option Q) :=
  scores ← Py.getitem all_scores company;
  composite_of WEIGHTS scores.

(** One entry of the [forecast] dictionary. *)
Record forecast_entry := {
  fc_weather : string;
  fc_weather_info : weather_info;
  fc_score : option Q;
  fc_signals : list (string * signal_data);
  fc_summary : string;
}.

(** Second pass of [main] for one organisation. *)
Definition forecast_of (all_scores : gmap string (gmap string (option Q)))
  (company : string) : Py.result forecast_entry :=
  signals ← signals_of all_scores company;
  composite_score ← composite_score all_scores company;
  let weather := determine_weather composite_score in
  summary ← generate_summary signals weather company;
  Py.Ok {| fc_weather := weather;
           fc_weather_info :=
             default (WEATHER_INFO !!! "foggy") (WEATHER_INFO !! weather);
           fc_score := Py.round2 <$> composite_score;
           fc_signals := signals;
           fc_summary := summary |}.

(** [main]: the [forecast] dictionary, in roster order. *)
Definition main
  (mood_data : gmap string (option mood_doc)) (pulse_data : option pulse_doc)
  (stocks_data : option stocks_doc) (buzz_data : option buzz_doc)
  : Py.result (list (string * forecast_entry)) :=
  all_scores ← first_pass mood_data pulse_data stocks_data buzz_data;
  Py.comprehension
    (fun company => f ← forecast_of all_scores company; Py.Ok (company, f))
    all_companies.

End CalculateWeather.

(** ** Dates

    A [datetime] is a count of microseconds on the time line;
    [timedelta(days = n)] is [n] days of microseconds. *)

Module Datetime.

Definition datetime := Z.

Definition timedelta_days (n : Z) : Z := (n * 86400000000)%Z.

(** [lo <= d <= hi] and [lo <= d < hi]. *)
Definition between (lo d hi : datetime) : bool := ((lo <=? d) && (d <=? hi))%Z.
Definition within (lo d hi : datetime) : bool := ((lo <=? d) && (d <? hi))%Z.

End Datetime.

(** ** scripts/fetch-changelogs.py *)

Module FetchChangelogs.

Record release := { date : string; type : string; title : string }.

Section Activity.

(** [datetime.strptime(s, "%Y-%m-%d")]; [None] stands for [ValueError]. *)
Variable strptime_ymd : string -> option Datetime.datetime.

(** The inner loop of [calculate_activity]: the releases dated in
    [[week_start, week_end)]. *)
Definition count_week (now : Datetime.datetime) (releases : list release)
  (week : nat) : Z :=
  let week_start := (now - Datetime.timedelta_days ((Z.of_nat week + 1) * 7))%Z in
  let week_end := (now - Datetime.timedelta_days (Z.of_nat week * 7))%Z in
  fold_left
    (fun count release =>
       if Py.truthy_str (date release) then
         match strptime_ymd (date release) with
         | Some release_date =>
             if Datetime.within week_start release_date week_end
             then (count + 1)%Z else count
         | None => count
         end
       else count)
    releases 0%Z.

(** [calculate_activity(releases)], with [now] the value of
    [datetime.utcnow()]; [activity.insert(0, count)] puts each older week
    in front. *)
Definition calculate_activity (now : Datetime.datetime)
  (releases : list release) : list Z :=
  fold_left (fun activity week => count_week now releases week :: activity)
            (seq 0 14) [].

End Activity.

End FetchChangelogs.

(** ** scripts/backfill-history.py *)

Module BackfillHistory.

(** A scraped release; only the [datetime] key is read here. *)
Record release := { r_title : string; r_datetime : option Datetime.datetime }.

Definition count_week (today : Datetime.datetime) (releases : list release)
  (week : nat) : Z :=
  let week_end := (today - Datetime.timedelta_days (Z.of_nat week * 7))%Z in
  let week_start := (week_end - Datetime.timedelta_days 7)%Z in
  fold_left
    (fun count release =>
       match r_datetime release with
       | Some d =>
           if Datetime.within week_start d week_end then (count + 1)%Z else count
       | None => count
       end)
    releases 0%Z.

(** [calculate_real_activity(releases, weeks)], with [today] the value of
    [datetime.now()]; [range(weeks - 1, -1, -1)] runs from the oldest week
    to the current one. *)
Definition calculate_real_activity (today : Datetime.datetime)
  (releases : list release) (weeks : nat) : list Z :=
  fold_left
    (fun activity week => (activity ++ [count_week today releases week])%list)
    (rev (seq 0 weeks)) [].

(** A post; [p_datetime] is the [datetime] key ([None] when the post is
    undated), [p_sentiment] the [sentiment] key. *)
Record post := {
  p_title : string;
  p_datetime : option Datetime.datetime;
  p_sentiment : option Q;
}.

(** [sum(p.get("sentiment", 0) for p in ps) / len(ps)]. *)
Definition mean_sentiment (ps : list post) : Py.result Q :=
  Py.div (Py.sum (map (fun p => default 0 (p_sentiment p)) ps)) (Py.len ps).

(** [list.sort(key = lambda x: x["datetime"])]: a stable sort. *)
Definition key (p : post) : Z := default 0%Z (p_datetime p).

Fixpoint insert_by_date (p : post) (l : list post) : list post :=
  match l with
  | [] => [p]
  | q :: r => if (key p <=? key q)%Z then p :: q :: r else q :: insert_by_date p r
  end.

Definition sort_by_date (l : list post) : list post :=
  fold_right insert_by_date [] l.

(** The posts of the window that ends [day_offset] days before [today]. *)
Definition window_posts (today : Datetime.datetime) (dated_posts : list post)
  (day_offset : nat) : list post :=
  let target_date := (today - Datetime.timedelta_days (Z.of_nat day_offset))%Z in
  let window_start := (target_date - Datetime.timedelta_days 7)%Z in
  List.filter
    (fun p =>
       match p_datetime p with
       | Some d => Datetime.between window_start d target_date
       | None => false
       end)
    dated_posts.

(** One iteration of the loop of [build_mood_history]: the value appended
    to [history]. *)
Definition day_value (today : Datetime.datetime) (dated_posts : list post)
  (history : list Q) (day_offset : nat) : Py.result Q :=
  let window_posts := window_posts today dated_posts day_offset in
  avg_sentiment ←
    (if Py.truthy window_posts then mean_sentiment window_posts
     else if Py.truthy history then Py.last_item history
     else mean_sentiment dated_posts);
  Py.Ok (Py.round3 avg_sentiment).

(** [build_mood_history(posts, days)], with [today] the value of
    [datetime.now()]. *)
Definition build_mood_history (today : Datetime.datetime) (posts : list post)
  (days : nat) : Py.result (list Q) :=
  if negb (Py.truthy posts) then Py.Ok []
  else
    let dated_posts :=
      List.filter (fun p => bool_decide (is_Some (p_datetime p))) posts in
    if negb (Py.truthy dated_posts) then
      avg ← mean_sentiment posts;
      Py.Ok (repeat (Py.round3 avg) (Nat.min 7 days))
    else
      let dated_posts := sort_by_date dated_posts in
      Py.for_each
        (fun history day_offset =>
           v ← day_value today dated_posts history day_offset;
           Py.Ok (history ++ [v])%list)
        (rev (seq 0 days)) [].

End BackfillHistory.

(** ** scripts/analyze-sentiment.py *)

Module AnalyzeSentiment.

(** [get_mood_label(score)]. *)
Definition get_mood_label (score : Q) : string :=
  if Py.gt score 0.1 then "confident"
  else if Py.lt score (-0.1) then "defensive"
  else "cautious".

(** A post of a mood file, and the file itself.  A key that may be
    missing is an [option] field. *)
Record post := {
  post_title : option string;
  post_summary : option string;
  post_sentiment : option Q;
}.

Record mood_file := {
  mf_posts : option (list post);
  mf_sentiment : option CalculateWeather.mood_sentiment;
  mf_history : option (list Q);
}.

Section Update.

(** [analyze_sentiment(text)], the polarity computed by TextBlob, and
    [text.strip()]. *)
Variable analyze_sentiment : string -> Q.
Variable strip : string -> string.

(** [f"{post.get('title', '')} {post.get('summary', '')}"]. *)
Definition post_text (p : post) : string :=
  default EmptyString (post_title p)
    ++ String " "%char (default EmptyString (post_summary p)).

(** The body of the loop over the posts: the post as it is left in the
    file, and the score appended to [scores], if any. *)
Definition analyze_post (p : post) : post * option Q :=
  let text := post_text p in
  if Py.truthy_str (strip text) then
    let score := analyze_sentiment text in
    ({| post_title := post_title p;
        post_summary := post_summary p;
        post_sentiment := Some (Py.round3 score) |}, Some score)
  else (p, None).

(** [update_mood_file(filepath)] on the content [data] of the file: the
    content written back, or [None] when the function returns before
    writing.  An exception would be caught by the function, which then
    writes nothing. *)
Definition update_mood_file (data : mood_file) : Py.result (option mood_file) :=
  if negb (Py.truthy (default [] (mf_posts data))) then Py.Ok None
  else
    let analysed := map analyze_post (default [] (mf_posts data)) in
    let posts := map fst analysed in
    let scores := omap snd analysed in
    if Py.truthy scores then
      avg_score ← Py.div (Py.sum scores) (Py.len scores);
      let history :=
        (default [] (mf_history data) ++ [Py.round3 avg_score])%list in
      Py.Ok (Some {| mf_posts := Some posts;
                     mf_sentiment :=
                       Some {| CalculateWeather.ms_score :=
                                 Some (Py.round3 avg_score);
                               CalculateWeather.ms_label :=
                                 Some (get_mood_label avg_score) |};
                     mf_history := Some (Py.slice_last 30 history) |})
    else
      Py.Ok (Some {| mf_posts := Some posts;
                     mf_sentiment := mf_sentiment data;
                     mf_history := mf_history data |}).

End Update.

(** The mood document that [calculate-weather.py] loads from a mood
    file. *)
Definition as_mood_doc (data : mood_file) : CalculateWeather.mood_doc :=
  {| CalculateWeather.md_lastUpdated := None;
     CalculateWeather.md_sentiment := mf_sentiment data |}.

End AnalyzeSentiment.

(** ** scripts/fetch-hackernews.py *)

Module FetchHackernews.

Definition POSITIVE_WORDS : list string :=
  [ "amazing"; "awesome"; "best"; "brilliant"; "breakthrough"; "excellent";
    "fantastic"; "great"; "impressive"; "incredible"; "innovative"; "love";
    "revolutionary"; "superb"; "wonderful"; "exciting"; "powerful"; "fast";
    "better"; "improved"; "success"; "winning"; "leading"; "advanced" ].

Definition NEGATIVE_WORDS : list string :=
  [ "bad"; "broken"; "bug"; "crash"; "disappointing"; "fail"; "failure";
    "hate"; "horrible"; "issue"; "leak"; "lawsuit"; "problem"; "scam";
    "slow"; "terrible"; "unsafe"; "vulnerability"; "warning"; "worse";
    "concern"; "dangerous"; "risk"; "scary"; "worried"; "layoff"; "fired" ].

(** A story object of the search API.  [None] stands for a missing key or
    a [null] value. *)
Record story := {
  objectID : option string;
  story_title : option string;
  points : option Q;
  num_comments : option Q;
}.

(** [word in vocabulary], and [sum(1 for x in l if test(x))]. *)
Definition word_in (vocabulary : list string) (word : string) : bool :=
  existsb (String.eqb word) vocabulary.

Definition count_if {A} (test : A -> bool) (l : list A) : Q :=
  Py.sum (map (fun _ => 1) (List.filter test l)).

Section Sentiment.

(** [re.findall(r'\b\w+\b', title.lower())]. *)
Variable words_of : string -> list string.

(** [calculate_title_sentiment(title)]. *)
Definition calculate_title_sentiment (title : option string) : Py.result Q :=
  if negb (Py.truthy_str (default EmptyString title)) then Py.Ok 0.0
  else
    let words := words_of (default EmptyString title) in
    let positive_count := count_if (word_in POSITIVE_WORDS) words in
    let negative_count := count_if (word_in NEGATIVE_WORDS) words in
    let total := positive_count + negative_count in
    if Py.eq total 0 then Py.Ok 0.0
    else Py.div (positive_count - negative_count) total.

(** [s.get("points", 0) or 0]. *)
Definition points_of (s : story) : Q := default 0 (points s).
Definition comments_of (s : story) : Q := default 0 (num_comments s).

(** The body of the inner loop of [fetch_company_data]: [all_stories], a
    dictionary keyed by [objectID], in insertion order. *)
Definition add_story (all_stories : list (string * story)) (s : story)
  : list (string * story) :=
  let story_id := default EmptyString (objectID s) in
  if Py.truthy_str story_id
     && negb (existsb (String.eqb story_id) (map fst all_stories))
  then (all_stories ++ [(story_id, s)])%list
  else all_stories.

(** The two loops, over what [fetch_hn_search] returned for each search
    term in turn. *)
Definition collect_stories (fetched : list (list story))
  : list (string * story) :=
  fold_left (fun all_stories stories => fold_left add_story stories all_stories)
            fetched [].

(** [sorted(l, key = points, reverse = True)]: a stable sort, largest
    first. *)
Fixpoint insert_by_points (s : story) (l : list story) : list story :=
  match l with
  | [] => [s]
  | q :: r =>
      if Py.ge (points_of s) (points_of q) then s :: q :: r
      else q :: insert_by_points s r
  end.

Definition sort_by_points (l : list story) : list story :=
  fold_right insert_by_points [] l.

(** What [fetch_company_data] returns; [top_stories] holds the five
    stories before they are reduced to their four printed fields. *)
Record company_data := {
  stories_7d : Q;
  total_points : Q;
  total_comments : Q;
  frontpage_hits : Q;
  sentiment : Q;
  top_stories : list story;
}.

(** [fetch_company_data(company_id, search_terms)], with [fetched] the
    lists that [fetch_hn_search] returned, one per search term. *)
Definition fetch_company_data (fetched : list (list story))
  : Py.result company_data :=
  let all_stories := collect_stories fetched in
  let stories_list := map snd all_stories in
  let total_points := Py.sum (map points_of stories_list) in
  let total_comments := Py.sum (map comments_of stories_list) in
  let frontpage_hits :=
    count_if (fun s => Py.ge (points_of s) 100) stories_list in
  sentiments ←
    Py.comprehension (fun s => calculate_title_sentiment (story_title s))
                     stories_list;
  avg_sentiment ←
    (if Py.truthy sentiments
     then Py.div (Py.sum sentiments) (Py.len sentiments)
     else Py.Ok 0.0);
  let top_stories := Py.slice_to 5 (sort_by_points stories_list) in
  Py.Ok {| stories_7d := Py.len stories_list;
           total_points := total_points;
           total_comments := total_comments;
           frontpage_hits := frontpage_hits;
           sentiment := Py.round3 avg_sentiment;
           top_stories := top_stories |}.

End Sentiment.

End FetchHackernews.

(** ** The quantities of the specification

    Definitions that follow the words of the specification, against which
    the scripts are compared. *)

Module Spec.

(** The present signals of a score dictionary, each with its weight, and
    their weight-normalised average. *)
Definition present_signals (weights : list (string * Q))
  (scores : gmap string (option Q)) : list (Q * Q) :=
  omap (fun '(signal_name, weight) =>
          (fun value => (value, weight)) <$> mjoin (scores !! signal_name))
       weights.

Definition weighted_average (present : list (Q * Q)) : Q :=
  Py.sum (map (fun '(value, weight) => value * weight) present)
  / Py.sum (map snd present).

(** The sources of the sentiment score that exist for an organisation:
    the polarity of its own blog, and its polarity on the discussion
    forum. *)
Definition blog_polarity (mood_data : option CalculateWeather.mood_doc)
  : option Q :=
  (mood_data ≫= CalculateWeather.md_sentiment) ≫= CalculateWeather.ms_score.

Definition forum_polarity (buzz_data : option CalculateWeather.buzz_doc)
  (company_id : string) : option Q :=
  ((buzz_data ≫= CalculateWeather.bd_companies)
     ≫= (fun companies => companies !! company_id))
    ≫= CalculateWeather.bc_sentiment.

(** The rescaling of a polarity from [-1, 1] to [0, 1]. *)
Definition rescale (polarity : Q) : Q := (polarity + 1) / 2.

(** The mean of a list of values, absent when the list is empty. *)
Definition mean (values : list Q) : option Q :=
  match values with
  | [] => None
  | _ :: _ => Some (Py.sum values / Py.len values)
  end.

(** The weekly activity entries that a shipping score is said to read:
    the last seven of an oldest-first series, or all of a shorter one;
    and the score said to result. *)
Definition most_recent_weeks (activity : list Q) : list Q :=
  Py.slice_last 7 activity.

Definition shipping_score (activity : list Q) : option Q :=
  (fun average => Py.min 1 (average / 3)) <$> mean (most_recent_weeks activity).

(** The ticker tracked for an organisation, if any; and its price samples:
    the closes stored for that ticker, none when the organisation is
    untracked or nothing is stored for it. *)
Definition tracked_ticker (company_id : string) : option string :=
  mjoin (CalculateWeather.COMPANY_STOCK_MAP !! company_id).

Definition price_samples (stocks_data : option CalculateWeather.stocks_doc)
  (company_id : string) : list Q :=
  match tracked_ticker company_id, stocks_data ≫= CalculateWeather.sd_stocks with
  | Some ticker, Some stocks =>
      match List.find
              (fun s => String.eqb (CalculateWeather.st_ticker s) ticker) stocks
      with
      | Some stock => default [] (CalculateWeather.st_history stock)
      | None => []
      end
  | _, _ => []
  end.

(** Momentum: the latest close divided by the mean of the trailing
    [min(30, N)] closes. *)
Definition latest_close (closes : list Q) : Q := List.last closes 0.

Definition trailing_mean (closes : list Q) : Q :=
  let n := Nat.min 30 (List.length closes) in
  Py.sum (skipn (List.length closes - n) closes) / inject_Z (Z.of_nat n).

Definition momentum (closes : list Q) : Q :=
  latest_close closes / trailing_mean closes.


(** The weekly activity series stored for an organisation (none stored:
    the empty series), and its point total on the discussion forum (none
    stored: zero). *)
Definition weekly_activity (pulse_data : option CalculateWeather.pulse_doc)
  (company_id : string) : list Q :=
  default []
    (CalculateWeather.pc_activity
       (default CalculateWeather.no_pulse
          (default ∅ (pulse_data ≫= CalculateWeather.pd_companies)
             !! company_id))).

Definition forum_points (buzz_data : option CalculateWeather.buzz_doc)
  (company_id : string) : Q :=
  default 0
    (CalculateWeather.bc_total_points
       (default CalculateWeather.no_buzz
          (default ∅ (buzz_data ≫= CalculateWeather.bd_companies)
             !! company_id))).

End Spec.

(** ** Time windows over dated items

    The notions in which the properties of the weekly counters are
    stated: the items dated in week [w] before a moment (week 0 is the
    seven days that end at the moment), the items dated in the last [n]
    weeks, and the number of items that pass a test. *)

Module Windows.

Section Dated.

Context {R : Type}.
Variable dated : R -> option Datetime.datetime.
Variable now : Datetime.datetime.

Definition in_week (week : nat) (r : R) : bool :=
  match dated r with
  | Some d =>
      Datetime.within
        (now - Datetime.timedelta_days ((Z.of_nat week + 1) * 7))%Z d
        (now - Datetime.timedelta_days (Z.of_nat week * 7))%Z
  | None => false
  end.

Definition in_last_weeks (n : nat) (r : R) : bool :=
  match dated r with
  | Some d =>
      Datetime.within (now - Datetime.timedelta_days (Z.of_nat n * 7))%Z d now
  | None => false
  end.

End Dated.

Definition tally {R} (test : R -> bool) (l : list R) : Z :=
  Z.of_nat (List.length (List.filter test l)).

(** The total of a series of counts. *)
Definition total (counts : list Z) : Z := fold_right Z.add 0%Z counts.

(** The date that [calculate_activity] reads from a release of
    [fetch-changelogs.py]: none for an empty or unparsable [date]. *)
Definition changelog_date (strptime_ymd : string -> option Datetime.datetime)
  (r : FetchChangelogs.release) : option Datetime.datetime :=
  if Py.truthy_str (FetchChangelogs.date r)
  then strptime_ymd (FetchChangelogs.date r) else None.

End Windows.

(** ** Sample inputs *)

Module Samples.

Definition scores_of (sentiment shipping market competitive : option Q)
  : gmap string (option Q) :=
  list_to_map
    [ ("sentiment", sentiment); ("shipping", shipping); ("market", market);
      ("competitive", competitive) ].

(** A roster with a full, a partial, a single-signal and an empty row. *)
Definition roster_scores : gmap string (gmap string (option Q)) :=
  list_to_map
    [ ("anthropic", scores_of (Some 0.8) (Some 0.4) None (Some 0.6));
      ("openai", scores_of (Some 0.5) (Some 0.5) None (Some 0.5));
      ("google", scores_of None None (Some 0.9) None);
      ("meta", scores_of None None None None) ].

(** A buzz document that lists one organisation only. *)
Definition buzz_openai_only : CalculateWeather.buzz_doc :=
  {| CalculateWeather.bd_lastUpdated := Some "2025-01-01T00:00:00Z";
     CalculateWeather.bd_companies :=
       Some {[ "openai" :=
                 {| CalculateWeather.bc_total_points := Some 120;
                    CalculateWeather.bc_sentiment := Some 0.2 |} ]} |}.

(** The moment of the run. *)
Definition today : Datetime.datetime := Datetime.timedelta_days 20000.

(** Three dated releases in each of the last seven weeks before [today],
    none earlier. *)
Definition recent_releases : list BackfillHistory.release :=
  flat_map
    (fun week =>
       map (fun day =>
              {| BackfillHistory.r_title := "release";
                 BackfillHistory.r_datetime :=
                   Some (today - Datetime.timedelta_days (7 * Z.of_nat week + day))%Z |})
           [1; 2; 3]%Z)
    (seq 0 7).

(** The pulse document that stores a weekly series for one organisation. *)
Definition pulse_of (company_id : string) (activity : list Z)
  : CalculateWeather.pulse_doc :=
  {| CalculateWeather.pd_lastUpdated := Some "2025-01-01T00:00:00Z";
     CalculateWeather.pd_companies :=
       Some {[ company_id :=
                 {| CalculateWeather.pc_activity := Some (map inject_Z activity) |} ]} |}.

(** A pressure document with one ticker. *)
Definition stocks_of (ticker : string) (closes : list Q)
  : CalculateWeather.stocks_doc :=
  {| CalculateWeather.sd_lastUpdated := Some "2025-01-01T00:00:00Z";
     CalculateWeather.sd_stocks :=
       Some [ {| CalculateWeather.st_ticker := ticker;
                 CalculateWeather.st_history := Some closes |} ] |}.

(** Ten closes whose latest is less than half their mean, and ten flat
    zero closes. *)
Definition falling_closes : list Q := (repeat 22 9 ++ [10])%list.

(** Three dated posts, 3, 4 and 20 days before [today], and an undated
    one. *)
Definition posts : list BackfillHistory.post :=
  [ {| BackfillHistory.p_title := "launch";
       BackfillHistory.p_datetime := Some (today - Datetime.timedelta_days 3)%Z;
       BackfillHistory.p_sentiment := Some 0.4 |};
    {| BackfillHistory.p_title := "notes";
       BackfillHistory.p_datetime := None;
       BackfillHistory.p_sentiment := Some 0.9 |};
    {| BackfillHistory.p_title := "update";
       BackfillHistory.p_datetime := Some (today - Datetime.timedelta_days 20)%Z;
       BackfillHistory.p_sentiment := Some (-0.2) |};
    {| BackfillHistory.p_title := "preview";
       BackfillHistory.p_datetime := Some (today - Datetime.timedelta_days 4)%Z;
       BackfillHistory.p_sentiment := Some 0.12 |} ].

(** The mood files of a run in which one organisation has a blog
    sentiment, and a weekly series. *)
Definition mood_files : gmap string (option CalculateWeather.mood_doc) :=
  {[ "anthropic" :=
       Some {| CalculateWeather.md_lastUpdated := Some "2025-01-01T00:00:00Z";
               CalculateWeather.md_sentiment :=
                 Some {| CalculateWeather.ms_score := Some 0.3;
                         CalculateWeather.ms_label := Some "confident" |} |} ]}.

Definition weekly_counts : list Z := [0; 2; 5; 1; 0; 3; 4; 9]%Z.




(** A mood file with two posts, one of them without any text, and a
    history of two points. *)
Definition mood_file : AnalyzeSentiment.mood_file :=
  {| AnalyzeSentiment.mf_posts :=
       Some [ {| AnalyzeSentiment.post_title := Some "A safer model";
                 AnalyzeSentiment.post_summary := Some "Better and faster";
                 AnalyzeSentiment.post_sentiment := None |};
              {| AnalyzeSentiment.post_title := None;
                 AnalyzeSentiment.post_summary := None;
                 AnalyzeSentiment.post_sentiment := None |} ];
     AnalyzeSentiment.mf_sentiment := None;
     AnalyzeSentiment.mf_history := Some [0.1; -0.05] |}.

(** A stand-in for [str.strip] on the texts of [mood_file]: the text of a
    post without title and summary is one blank. *)
Definition strip_sample (s : string) : string :=
  if String.eqb s " " then EmptyString else s.

(** What two searches returned: a story found by both, a story without
    points, and a story without an identifier; and a stand-in for the
    splitting of a title into words. *)
Definition fetched_stories : list (list FetchHackernews.story) :=
  [ [ {| FetchHackernews.objectID := Some "101";
         FetchHackernews.story_title := Some "A great and fast model";
         FetchHackernews.points := Some 250;
         FetchHackernews.num_comments := Some 40 |};
      {| FetchHackernews.objectID := Some "102";
         FetchHackernews.story_title := Some "Outage";
         FetchHackernews.points := None;
         FetchHackernews.num_comments := None |} ];
    [ {| FetchHackernews.objectID := Some "101";
         FetchHackernews.story_title := Some "A great and fast model";
         FetchHackernews.points := Some 250;
         FetchHackernews.num_comments := Some 40 |};
      {| FetchHackernews.objectID := None;
         FetchHackernews.story_title := None;
         FetchHackernews.points := Some 3;
         FetchHackernews.num_comments := Some 1 |} ] ].

Definition words_sample (title : string) : list string :=
  if String.eqb title "Outage" then ["outage"]
  else ["a"; "great"; "and"; "fast"; "model"].

End Samples.

(** * Properties *)

(** ** Facts about the Python built-ins *)

Module PyFacts.

Lemma gt_true (a b : Q) : Py.gt a b = true <-> b < a.
Proof.
  unfold Py.gt. rewrite (Qgt_alt a b).
  destruct (Qcompare a b); split; congruence.
Qed.

Lemma lt_true (a b : Q) : Py.lt a b = true <-> a < b.
Proof.
  unfold Py.lt. rewrite (Qlt_alt a b).
  destruct (Qcompare a b); split; congruence.
Qed.

Lemma gt_false (a b : Q) : Py.gt a b = false <-> a <= b.
Proof.
  rewrite <- not_true_iff_false, gt_true. split; intros H.
  - apply Qnot_lt_le, H.
  - apply Qle_not_lt, H.
Qed.

Lemma lt_false (a b : Q) : Py.lt a b = false <-> b <= a.
Proof.
  rewrite <- not_true_iff_false, lt_true. split; intros H.
  - apply Qnot_lt_le, H.
  - apply Qle_not_lt, H.
Qed.

Lemma ge_true (a b : Q) : Py.ge a b = true <-> b <= a.
Proof. unfold Py.ge. rewrite negb_true_iff. apply lt_false. Qed.

Lemma eq_true (a b : Q) : Py.eq a b = true <-> a == b.
Proof. apply Qeq_bool_iff. Qed.

Lemma eq_false (a b : Q) : Py.eq a b = false <-> ~ a == b.
Proof. rewrite <- not_true_iff_false, eq_true. tauto. Qed.

(** A division by a non-zero number returns the quotient. *)
Lemma div_ok (a b : Q) : ~ b == 0 -> Py.div a b = Py.Ok (a / b).
Proof.
  intros Hb. unfold Py.div.
  destruct (Py.eq b 0) eqn:E; [apply eq_true in E; contradiction|reflexivity].
Qed.

Lemma div_pos (a b : Q) : 0 < b -> Py.div a b = Py.Ok (a / b).
Proof. intros Hb. apply div_ok. intros E. rewrite E in Hb. lra. Qed.

Lemma len_pos {A} (x : A) (l : list A) : 0 < Py.len (x :: l).
Proof.
  unfold Py.len. change 0 with (inject_Z 0). rewrite <- Zlt_Qlt.
  simpl List.length. lia.
Qed.

(** [sum] with an initial accumulator. *)
Lemma fold_plus_acc (l : list Q) (a : Q) :
  fold_left Qplus l a == a + Py.sum l.
Proof.
  unfold Py.sum. revert a.
  induction l as [|x l IH]; intros a; simpl.
  - lra.
  - rewrite (IH (a + x)), (IH (0 + x)). lra.
Qed.

Lemma sum_cons (x : Q) (l : list Q) : Py.sum (x :: l) == x + Py.sum l.
Proof. unfold Py.sum at 1. simpl. rewrite fold_plus_acc. lra. Qed.

Lemma sum_nil : Py.sum [] = 0.
Proof. reflexivity. Qed.



(** [l[-1]] on a non-empty list. *)
Lemma last_item_ok {A} (l : list A) (d : A) :
  l <> [] -> Py.last_item l = Py.Ok (List.last l d).
Proof.
  unfold Py.last_item. induction l as [|x l IH]; intros Hl; [contradiction|].
  destruct l as [|y l]; [reflexivity|].
  change (List.last (map Py.Ok (x :: y :: l)) (Py.Raise Py.IndexError))
    with (List.last (map Py.Ok (y :: l)) (@Py.Raise A Py.IndexError)).
  rewrite IH by discriminate. reflexivity.
Qed.

End PyFacts.

(** ** Formatting and parsing of decimals *)

Module FormatFacts.

(** Rounding, and so formatting, does not depend on the fraction that
    represents a number. *)
Lemma round_half_even_comp (p q : Q) :
  p == q -> Py.round_half_even p = Py.round_half_even q.
Proof.
  intros E. unfold Py.round_half_even.
  rewrite (Qfloor_comp p q E).
  assert (Ec : Qcompare (p - inject_Z (Qfloor q)) (1 # 2)
               = Qcompare (q - inject_Z (Qfloor q)) (1 # 2))
    by (apply Qcompare_comp; [rewrite E|]; reflexivity).
  rewrite Ec. reflexivity.
Qed.

Lemma lt_comp (p q r : Q) : p == q -> Py.lt p r = Py.lt q r.
Proof.
  intros E. unfold Py.lt.
  rewrite (Qcompare_comp p q E r r (Qeq_refl r)). reflexivity.
Qed.

Lemma format_2f_abs_comp (p q : Q) :
  p == q -> Py.format_2f_abs p = Py.format_2f_abs q.
Proof.
  intros E. unfold Py.format_2f_abs.
  rewrite (round_half_even_comp (Qabs p * 100) (Qabs q * 100))
    by (rewrite E; reflexivity).
  reflexivity.
Qed.

Lemma format_2f_comp (p q : Q) : p == q -> Py.format_2f p = Py.format_2f q.
Proof.
  intros E. unfold Py.format_2f.
  rewrite (lt_comp p q 0 E), (format_2f_abs_comp p q E). reflexivity.
Qed.

Lemma round3_comp (p q : Q) : p == q -> Py.round3 p = Py.round3 q.
Proof.
  intros E. unfold Py.round3.
  rewrite (round_half_even_comp (p * 1000) (q * 1000))
    by (rewrite E; reflexivity).
  reflexivity.
Qed.

(** A zero difference is printed as ["0.00"]. *)
Lemma format_2f_zero (q : Q) : q == 0 -> Py.format_2f q = "0.00".
Proof. intros E. rewrite (format_2f_comp q 0 E). reflexivity. Qed.

(** *** Parsing what was formatted *)

Lemma parse_frac_nonneg (s : string) seen num den (r : Q) :
  Py.parse_frac s seen num den = Py.Ok r -> 0 <= r.
Proof.
  revert seen num den. induction s as [|c s IH]; intros seen num den; simpl.
  - destruct seen; [|discriminate]. intros [= <-].
    unfold Qle. simpl. lia.
  - destruct (Py.digit_of_ascii c); [apply IH|discriminate].
Qed.

Lemma parse_int_nonneg (s : string) seen num (r : Q) :
  Py.parse_int s seen num = Py.Ok r -> 0 <= r.
Proof.
  revert seen num. induction s as [|c s IH]; intros seen num; simpl.
  - destruct seen; [|discriminate]. intros [= <-].
    unfold Qle. simpl. lia.
  - destruct (Ascii.eqb c "."); [apply parse_frac_nonneg|].
    destruct (Py.digit_of_ascii c); [apply IH|discriminate].
Qed.

(** The first character of the digits of a number is no sign. *)
Lemma digits_head (n : N) :
  exists c r,
    Py.digits n = String c r
    /\ Ascii.eqb c "-" = false /\ Ascii.eqb c "+" = false.
Proof.
  unfold Py.digits.
  destruct (N.to_uint n); do 2 eexists; (split; [reflexivity|]);
    split; reflexivity.
Qed.

(** *** The value read back *)

Lemma parse_int_digit (c : ascii) (d : N) (s : string) seen num :
  Py.digit_of_ascii c = Some d ->
  Ascii.eqb c "." = false ->
  Py.parse_int (String c s) seen num = Py.parse_int s true (10 * num + d)%N.
Proof. intros Hd Hdot. cbn [Py.parse_int]. rewrite Hdot, Hd. reflexivity. Qed.

Lemma parse_frac_digit (c : ascii) (d : N) (s : string) seen num den :
  Py.digit_of_ascii c = Some d ->
  Py.parse_frac (String c s) seen num den
  = Py.parse_frac s true (10 * num + d)%N (10 * den)%positive.
Proof. intros Hd. cbn [Py.parse_frac]. rewrite Hd. reflexivity. Qed.

Ltac digit_step k :=
  cbn [NilEmpty.string_of_uint];
  match goal with
  | |- context [String ?c ?s +:+ ?rest] =>
      change (String c s +:+ rest) with (String c (s +:+ rest));
      rewrite (parse_int_digit c k) by reflexivity
  end.

(** Reading digits after a non-zero prefix. *)
Lemma parse_int_acc (u : Decimal.uint) (rest : string) (acc : positive) :
  Py.parse_int (NilEmpty.string_of_uint u ++ rest) true (Npos acc)
  = Py.parse_int rest true (Npos (Pos.of_uint_acc u acc)).
Proof.
  revert acc.
  induction u as [|u IH|u IH|u IH|u IH|u IH|u IH|u IH|u IH|u IH|u IH];
    intros acc; [reflexivity|..]; cbn [Pos.of_uint_acc].
  - digit_step 0%N. rewrite <- IH. f_equal.
  - digit_step 1%N. rewrite <- IH. f_equal; lia.
  - digit_step 2%N. rewrite <- IH. f_equal; lia.
  - digit_step 3%N. rewrite <- IH. f_equal; lia.
  - digit_step 4%N. rewrite <- IH. f_equal; lia.
  - digit_step 5%N. rewrite <- IH. f_equal; lia.
  - digit_step 6%N. rewrite <- IH. f_equal; lia.
  - digit_step 7%N. rewrite <- IH. f_equal; lia.
  - digit_step 8%N. rewrite <- IH. f_equal; lia.
  - digit_step 9%N. rewrite <- IH. f_equal; lia.
Qed.

(** Reading the digits of a number gives the number. *)
Lemma parse_int_uint (u : Decimal.uint) (rest : string) seen :
  Py.parse_int (NilEmpty.string_of_uint u ++ rest) seen 0
  = Py.parse_int rest (match u with Decimal.Nil => seen | _ => true end)
      (N.of_uint u).
Proof.
  revert seen.
  induction u as [|u IH|u IH|u IH|u IH|u IH|u IH|u IH|u IH|u IH|u IH];
    intros seen; [reflexivity|..].
  - digit_step 0%N. change (10 * 0 + 0)%N with 0%N. rewrite IH.
    destruct u; reflexivity.
  - digit_step 1%N. apply (parse_int_acc u rest 1).
  - digit_step 2%N. apply (parse_int_acc u rest 2).
  - digit_step 3%N. apply (parse_int_acc u rest 3).
  - digit_step 4%N. apply (parse_int_acc u rest 4).
  - digit_step 5%N. apply (parse_int_acc u rest 5).
  - digit_step 6%N. apply (parse_int_acc u rest 6).
  - digit_step 7%N. apply (parse_int_acc u rest 7).
  - digit_step 8%N. apply (parse_int_acc u rest 8).
  - digit_step 9%N. apply (parse_int_acc u rest 9).
Qed.

Lemma parse_int_of_digits (n : N) (rest : string) :
  Py.parse_int (Py.digits n ++ rest) false 0 = Py.parse_int rest true n.
Proof.
  unfold Py.digits.
  pose proof (DecimalN.Unsigned.of_to n) as Hn.
  destruct (N.to_uint n) as [|u|u|u|u|u|u|u|u|u|u] eqn:E.
  - destruct n as [|p]; [discriminate E|].
    exfalso. exact (DecimalPos.Unsigned.to_uint_nonnil p E).
  - rewrite <- Hn. apply (parse_int_uint (Decimal.D0 u) rest false).
  - rewrite <- Hn. apply (parse_int_uint (Decimal.D1 u) rest false).
  - rewrite <- Hn. apply (parse_int_uint (Decimal.D2 u) rest false).
  - rewrite <- Hn. apply (parse_int_uint (Decimal.D3 u) rest false).
  - rewrite <- Hn. apply (parse_int_uint (Decimal.D4 u) rest false).
  - rewrite <- Hn. apply (parse_int_uint (Decimal.D5 u) rest false).
  - rewrite <- Hn. apply (parse_int_uint (Decimal.D6 u) rest false).
  - rewrite <- Hn. apply (parse_int_uint (Decimal.D7 u) rest false).
  - rewrite <- Hn. apply (parse_int_uint (Decimal.D8 u) rest false).
  - rewrite <- Hn. apply (parse_int_uint (Decimal.D9 u) rest false).
Qed.

Lemma digit_value (n : N) :
  (n < 10)%N -> Py.digit_of_ascii (Py.digit n) = Some n.
Proof.
  intros Hn. destruct n as [|p]; [reflexivity|].
  do 4 (try destruct p as [p|p|]); first [reflexivity|lia].
Qed.

Lemma round_half_even_nonneg (x : Q) :
  0 <= x -> (0 <= Py.round_half_even x)%Z.
Proof.
  intros Hx. unfold Py.round_half_even.
  assert (Hf : (0 <= Qfloor x)%Z)
    by (rewrite <- (Qfloor_Z 0); apply Qfloor_resp_le, Hx).
  destruct (Qcompare _ _); [destruct (Z.even _)|..]; lia.
Qed.

(** Rounding does not pass an integer bound. *)
Lemma round_half_even_le (x : Q) (k : Z) :
  x <= inject_Z k -> (Py.round_half_even x <= k)%Z.
Proof.
  intros Hx. unfold Py.round_half_even.
  assert (Hf : (Qfloor x <= k)%Z)
    by (rewrite <- (Qfloor_Z k); apply Qfloor_resp_le, Hx).
  destruct (Z.eq_dec (Qfloor x) k) as [E|E].
  - assert (Hc : Qcompare (x - inject_Z (Qfloor x)) (1 # 2) = Lt).
    { rewrite <- Qlt_alt, E. lra. }
    rewrite Hc. lia.
  - destruct (Qcompare _ _); [destruct (Z.even _)|..]; lia.
Qed.

(** The unsigned part of a formatted number reads back as the magnitude
    rounded to hundredths. *)
Lemma float_of_format_2f_abs_value (q : Q) :
  Py.float_of_string (Py.format_2f_abs q) = Py.Ok (Py.round2 (Qabs q)).
Proof.
  unfold Py.format_2f_abs, Py.round2. cbv zeta.
  assert (Hz : (0 <= Py.round_half_even (Qabs q * 100))%Z).
  { apply round_half_even_nonneg.
    pose proof (Qabs_nonneg q). nra. }
  set (z := Py.round_half_even (Qabs q * 100)) in *.
  set (n := Z.to_N z).
  set (d1 := (n mod 100 / 10)%N). set (d2 := (n mod 10)%N).
  set (tail := String "."%char
                 (String (Py.digit d1) (String (Py.digit d2) EmptyString))).
  assert (Hhead : Py.float_of_string (Py.digits (n / 100) ++ tail)
                  = Py.parse_int (Py.digits (n / 100) ++ tail) false 0).
  { destruct (digits_head (n / 100)) as (c & s & Hd & Hminus & Hplus).
    rewrite Hd. change (String c s +:+ tail) with (String c (s +:+ tail)).
    unfold Py.float_of_string. rewrite Hminus, Hplus. reflexivity. }
  rewrite Hhead, parse_int_of_digits. unfold tail.
  change (Py.parse_int (String "." ?r) true ?a) with (Py.parse_frac r true a 1).
  assert (Hd1 : (d1 < 10)%N).
  { unfold d1. apply N.Div0.div_lt_upper_bound.
    change (10 * 10)%N with 100%N. apply N.mod_lt. discriminate. }
  assert (Hd2 : (d2 < 10)%N) by (apply N.mod_lt; discriminate).
  rewrite (parse_frac_digit _ d1) by (apply digit_value, Hd1).
  rewrite (parse_frac_digit _ d2) by (apply digit_value, Hd2).
  cbn [Py.parse_frac]. do 2 f_equal.
  assert (Hn : (10 * (10 * (n / 100) + d1) + d2)%N = n).
  { unfold d1, d2.
    pose proof (N.div_mod n 100 ltac:(discriminate)) as H100.
    pose proof (N.div_mod (n mod 100) 10 ltac:(discriminate)) as H10.
    assert (Hmod : ((n mod 100) mod 10 = n mod 10)%N).
    { change 100%N with (10 * 10)%N. rewrite N.Div0.mod_mul_r.
      rewrite (N.mul_comm 10 ((n / 10) mod 10)), N.Div0.mod_add.
      apply N.Div0.mod_mod. }
    rewrite Hmod in H10. lia. }
  rewrite Hn. unfold n. apply Z2N.id, Hz.
Qed.

(** The unsigned part of a formatted number reads back as a non-negative
    number. *)
Lemma float_of_format_2f_abs (q : Q) :
  exists r, Py.float_of_string (Py.format_2f_abs q) = Py.Ok r /\ 0 <= r.
Proof.
  exists (Py.round2 (Qabs q)). split; [apply float_of_format_2f_abs_value|].
  unfold Py.round2, Qle. cbn [Qnum Qden].
  pose proof (round_half_even_nonneg (Qabs q * 100)) as Hz.
  pose proof (Qabs_nonneg q). assert (0 <= Qabs q * 100) by nra.
  specialize (Hz H0). lia.
Qed.

End FormatFacts.

(** ** The weather classifier *)

Module ClassifierFacts.

Import CalculateWeather.

Lemma threshold_sunny : WEATHER_THRESHOLDS !!! "sunny" = 0.6.
Proof. reflexivity. Qed.

Lemma threshold_partly_cloudy : WEATHER_THRESHOLDS !!! "partly_cloudy" = 0.3.
Proof. reflexivity. Qed.

Lemma threshold_cloudy : WEATHER_THRESHOLDS !!! "cloudy" = 0.0.
Proof. reflexivity. Qed.

Lemma threshold_rainy : WEATHER_THRESHOLDS !!! "rainy" = -0.3.
Proof. reflexivity. Qed.

(** The state of a present composite is decided by the band of the
    adjusted score, each band open below and closed above. *)
Lemma determine_weather_bands (score : Q) :
  let adjusted := score * 2 - 1 in
  (0.6 < adjusted -> determine_weather (Some score) = "sunny")
  /\ (0.3 < adjusted <= 0.6 -> determine_weather (Some score) = "partly_cloudy")
  /\ (0.0 < adjusted <= 0.3 -> determine_weather (Some score) = "cloudy")
  /\ (-0.3 < adjusted <= 0.0 -> determine_weather (Some score) = "rainy")
  /\ (adjusted <= -0.3 -> determine_weather (Some score) = "stormy").
Proof.
  cbv zeta. unfold determine_weather.
  rewrite threshold_sunny, threshold_partly_cloudy, threshold_cloudy,
    threshold_rainy.
  set (a := score * 2 - 1).
  destruct (Py.gt a 0.6) eqn:E1;
    [apply PyFacts.gt_true in E1 | apply PyFacts.gt_false in E1];
  (destruct (Py.gt a 0.3) eqn:E2;
    [apply PyFacts.gt_true in E2 | apply PyFacts.gt_false in E2]);
  (destruct (Py.gt a 0.0) eqn:E3;
    [apply PyFacts.gt_true in E3 | apply PyFacts.gt_false in E3]);
  (destruct (Py.gt a (-0.3)) eqn:E4;
    [apply PyFacts.gt_true in E4 | apply PyFacts.gt_false in E4]);
  repeat split; intros; try reflexivity; exfalso; lra.
Qed.

(** A present composite is never classified [foggy]. *)
Lemma determine_weather_present (score : Q) :
  determine_weather (Some score) <> "foggy".
Proof.
  unfold determine_weather.
  repeat match goal with |- context [if ?b then _ else _] => destruct b end;
    discriminate.
Qed.

(** C2 as stated fails: composite 0.5 is not classified [cloudy]. *)
Lemma boundary_half_is_not_cloudy :
  ~ (determine_weather (Some 1.0) = "sunny"
     /\ determine_weather (Some 0.5) = "cloudy"
     /\ determine_weather (Some 0.0) = "stormy").
Proof. intros (_ & H & _). vm_compute in H. discriminate H. Qed.

(** C2, amended: composite 1.0 is [sunny], composite 0.0 is [stormy], and
    composite 0.5, whose adjusted score is exactly 0.0, fails the strict
    test against the [cloudy] threshold and is [rainy]. *)
Theorem classifier_boundaries :
  determine_weather (Some 1.0) = "sunny"
  /\ 0.5 * 2 - 1 == 0.0
  /\ determine_weather (Some 0.5) = "rainy"
  /\ determine_weather (Some 0.0) = "stormy".
Proof. repeat split. Qed.

End ClassifierFacts.

(** ** The composite score *)

Module CompositeFacts.

Import CalculateWeather.

Lemma for_each_app {A B} (body : A -> B -> Py.result A) (l1 l2 : list B)
  (acc : A) :
  Py.for_each body (l1 ++ l2) acc
  = Py.for_each body l1 acc ≫= Py.for_each body l2.
Proof.
  revert acc. induction l1 as [|x l1 IH]; intros acc; simpl; [reflexivity|].
  destruct (body acc x); simpl; [apply IH|reflexivity].
Qed.

(** Over a dictionary that has every key of the weight table, the loop
    ends, having added to each accumulator the contribution of the present
    signals only. *)
Lemma loop_accumulates (scores : gmap string (option Q)) weights a b :
  (forall k, In k (map fst weights) -> is_Some (scores !! k)) ->
  let present := Spec.present_signals weights scores in
  exists x y,
    Py.for_each (composite_step scores) weights (a, b) = Py.Ok (x, y)
    /\ x == a + Py.sum (map (fun '(v, w) => v * w) present)
    /\ y == b + Py.sum (map snd present).
Proof.
  revert a b. induction weights as [|[k w] ws IH]; intros a b Hkeys; cbn zeta.
  - exists a, b. split; [reflexivity|].
    change (Spec.present_signals [] scores) with (@nil (Q * Q)).
    cbn [map]. rewrite PyFacts.sum_nil. split; lra.
  - destruct (Hkeys k) as [o Ho]; [left; reflexivity|].
    assert (Hkeys' : forall k', In k' (map fst ws) -> is_Some (scores !! k'))
      by (intros k' Hk'; apply Hkeys; right; exact Hk').
    cbn [Py.for_each composite_step]. unfold Py.getitem. rewrite Ho.
    unfold Spec.present_signals. cbn [omap list_omap]. rewrite Ho.
    destruct o as [v|]; cbn [mbind Py.result_bind mjoin option_join fmap
                              option_fmap option_map].
    + destruct (IH (a + v * w) (b + w) Hkeys') as (x & y & Hrun & Hx & Hy).
      exists x, y. split; [exact Hrun|].
      cbn [map snd]. rewrite !PyFacts.sum_cons.
      unfold Spec.present_signals in Hx, Hy. split; lra.
    + apply (IH a b Hkeys').
Qed.

(** A step for an absent signal leaves the accumulators as they are. *)
Lemma loop_skips_absent (scores : gmap string (option Q)) ws1 k w ws2 acc :
  scores !! k = Some None ->
  Py.for_each (composite_step scores) (ws1 ++ (k, w) :: ws2) acc
  = Py.for_each (composite_step scores) (ws1 ++ ws2) acc.
Proof.
  intros Hk. rewrite !for_each_app.
  destruct (Py.for_each (composite_step scores) ws1 acc) as [[x y]|e];
    [|reflexivity].
  cbn [mbind Py.result_bind Py.for_each composite_step].
  unfold Py.getitem at 1. rewrite Hk. reflexivity.
Qed.

(** The total weight of the present signals is positive as soon as one
    signal of a table of positive weights is present. *)
Lemma present_weight_positive (scores : gmap string (option Q)) weights :
  Forall (fun e => 0 < snd e) weights ->
  (exists k v, In k (map fst weights) /\ scores !! k = Some (Some v)) ->
  0 < Py.sum (map snd (Spec.present_signals weights scores)).
Proof.
  intros Hpos (k & v & Hin & Hk).
  assert (Hnn : forall ws, Forall (fun e : string * Q => 0 < snd e) ws ->
            0 <= Py.sum (map snd (Spec.present_signals ws scores))).
  { induction ws as [|[k' w'] ws IH]; intros Hf.
    - change (Spec.present_signals [] scores) with (@nil (Q * Q)).
      cbn [map]. rewrite PyFacts.sum_nil. lra.
    - inversion Hf as [|? ? Hw Hf']; subst. specialize (IH Hf').
      unfold Spec.present_signals in *. cbn [omap list_omap].
      destruct (mjoin (scores !! k')); cbn [fmap option_fmap option_map];
        [|exact IH].
      cbn [map snd]. rewrite PyFacts.sum_cons. simpl in Hw. lra. }
  induction weights as [|[k' w'] ws IH]; [destruct Hin|].
  inversion Hpos as [|? ? Hw Hf']; subst. simpl in Hw.
  unfold Spec.present_signals in *. cbn [omap list_omap].
  destruct Hin as [Heq|Hin].
  - simpl in Heq. subst k'. rewrite Hk.
    cbn [mjoin option_join fmap option_fmap option_map map snd].
    rewrite PyFacts.sum_cons.
    specialize (Hnn ws Hf'). unfold Spec.present_signals in Hnn. lra.
  - specialize (IH Hf' Hin).
    destruct (mjoin (scores !! k')); cbn [fmap option_fmap option_map];
      [|exact IH].
    cbn [map snd]. rewrite PyFacts.sum_cons. lra.
Qed.

Lemma weights_positive : Forall (fun e : string * Q => 0 < snd e) WEIGHTS.
Proof. repeat constructor. Qed.

(** C6.  For an organisation with a score, present or absent, for each of
    the four signals and at least one of them present, the composite is
    the sum of score times weight over the present signals divided by the
    sum of their weights; and a weight table with one more signal, whose
    score is absent, gives the same composite. *)
Theorem composite_weighted_mean
  (all_scores : gmap string (gmap string (option Q))) (company : string)
  (scores : gmap string (option Q)) :
  all_scores !! company = Some scores ->
  (forall signal_name, In signal_name signal_names ->
                       is_Some (scores !! signal_name)) ->
  (exists signal_name value,
      In signal_name signal_names
      /\ scores !! signal_name = Some (Some value)) ->
  (exists c,
      composite_score all_scores company = Py.Ok (Some c)
      /\ c == Spec.weighted_average (Spec.present_signals WEIGHTS scores))
  /\ (forall ws1 ws2 k w,
        WEIGHTS = (ws1 ++ ws2)%list ->
        scores !! k = Some None ->
        composite_of (ws1 ++ (k, w) :: ws2) scores
        = composite_score all_scores company).
Proof.
  intros Hrow Hkeys Hpresent.
  assert (Hscore : composite_score all_scores company = composite_of WEIGHTS scores).
  { unfold composite_score, Py.getitem. rewrite Hrow. reflexivity. }
  rewrite Hscore. split.
  - destruct (loop_accumulates scores WEIGHTS 0 0 Hkeys)
      as (weighted_sum & total_weight & Hrun & Hsum & Hweight).
    pose proof (present_weight_positive scores WEIGHTS weights_positive Hpresent)
      as Hpos.
    unfold composite_of, composite_loop. rewrite Hrun.
    cbn [mbind Py.result_bind].
    assert (Hgt : Py.gt total_weight 0 = true).
    { apply PyFacts.gt_true. rewrite Hweight. lra. }
    rewrite Hgt, PyFacts.div_pos by (rewrite Hweight; lra).
    eexists. split; [reflexivity|].
    unfold Spec.weighted_average. rewrite Hsum, Hweight.
    apply Qdiv_comp; lra.
  - intros ws1 ws2 k w Hws Hk.
    unfold composite_of, composite_loop.
    rewrite (loop_skips_absent scores ws1 k w ws2 (0, 0) Hk), <- Hws.
    reflexivity.
Qed.

Lemma composite_weighted_mean_witness :
  exists c,
    composite_score Samples.roster_scores "anthropic" = Py.Ok (Some c)
    /\ c == Spec.weighted_average
              (Spec.present_signals WEIGHTS
                 (Samples.scores_of (Some 0.8) (Some 0.4) None (Some 0.6))).
Proof.
  refine (proj1 (composite_weighted_mean Samples.roster_scores "anthropic"
                   (Samples.scores_of (Some 0.8) (Some 0.4) None (Some 0.6))
                   eq_refl _ _)).
  - intros signal_name [<-|[<-|[<-|[<-|[]]]]]; eexists; reflexivity.
  - exists "shipping", 0.4. split; [right; left; reflexivity|reflexivity].
Defined.

End CompositeFacts.

(** ** The second pass of [main] *)

Module ForecastFacts.

Import CalculateWeather.

(** A comprehension whose element expression never raises returns the list
    of its values. *)
Lemma comprehension_ok {A B} (f : A -> Py.result B) (l : list A) :
  (forall x, In x l -> exists y, f x = Py.Ok y) ->
  exists ys, Py.comprehension f l = Py.Ok ys
             /\ Forall2 (fun x y => f x = Py.Ok y) l ys.
Proof.
  induction l as [|x l IH]; intros Hl.
  - exists []. split; [reflexivity|constructor].
  - destruct (Hl x) as [y Hy]; [left; reflexivity|].
    destruct IH as (ys & Hys & Hall); [intros x' Hx'; apply Hl; right; exact Hx'|].
    exists (y :: ys). split; [|constructor; assumption].
    cbn [Py.comprehension]. rewrite Hy. cbn [mbind Py.result_bind].
    rewrite Hys. reflexivity.
Qed.

(** The peer values of a signal, read from a complete snapshot. *)
Lemma all_values_ok (all_scores : gmap string (gmap string (option Q)))
  (signal_name : string) :
  complete all_scores -> In signal_name signal_names ->
  exists all_values,
    Py.comprehension (fun c => score_of all_scores c signal_name) all_companies
    = Py.Ok all_values
    /\ Forall2 (fun c v => score_of all_scores c signal_name = Py.Ok v)
               all_companies all_values.
Proof.
  intros Hcomplete Hs. apply comprehension_ok.
  intros c Hc. apply Hcomplete; assumption.
Qed.

(** The [signals] entry of an absent signal has no value and no peer
    delta. *)
Lemma signal_entry_absent (all_scores : gmap string (gmap string (option Q)))
  (company signal_name : string) :
  complete all_scores -> In signal_name signal_names ->
  score_of all_scores company signal_name = Py.Ok None ->
  signal_entry all_scores company signal_name
  = Py.Ok (signal_name, {| value := None; vs_peers := None |}).
Proof.
  intros Hcomplete Hs Hnone. unfold signal_entry. rewrite Hnone.
  destruct (all_values_ok all_scores signal_name Hcomplete Hs)
    as (all_values & Hvalues & _).
  cbn [mbind Py.result_bind]. rewrite Hvalues. reflexivity.
Qed.

(** C7.  When the four signals of an organisation are all absent, its
    composite is absent and its forecast state is [foggy], which is not
    [stormy]; a present composite is never [foggy]. *)
Theorem all_absent_is_foggy
  (all_scores : gmap string (gmap string (option Q))) (company : string) :
  complete all_scores ->
  (forall signal_name,
      In signal_name signal_names ->
      score_of all_scores company signal_name = Py.Ok None) ->
  composite_score all_scores company = Py.Ok None
  /\ (exists entry,
        forecast_of all_scores company = Py.Ok entry
        /\ fc_weather entry = "foggy" /\ fc_score entry = None)
  /\ "foggy" <> "stormy"
  /\ (forall score, determine_weather (Some score) <> "foggy").
Proof.
  intros Hcomplete Habsent.
  assert (Hc : composite_score all_scores company = Py.Ok None).
  { pose proof (Habsent "sentiment" ltac:(simpl; tauto)) as H1.
    pose proof (Habsent "shipping" ltac:(simpl; tauto)) as H2.
    pose proof (Habsent "market" ltac:(simpl; tauto)) as H3.
    pose proof (Habsent "competitive" ltac:(simpl; tauto)) as H4.
    unfold score_of, composite_score in *.
    destruct (Py.getitem all_scores company) as [scores|e];
      [|discriminate H1].
    cbn [mbind Py.result_bind] in *.
    unfold composite_of, composite_loop, WEIGHTS.
    cbn [Py.for_each composite_step].
    rewrite H1; cbn [mbind Py.result_bind Py.for_each composite_step].
    rewrite H2; cbn [mbind Py.result_bind Py.for_each composite_step].
    rewrite H3; cbn [mbind Py.result_bind Py.for_each composite_step].
    rewrite H4. reflexivity. }
  split; [exact Hc|]. split; [|split].
  - unfold forecast_of, signals_of, signal_names.
    cbn [Py.comprehension].
    rewrite !signal_entry_absent
      by (try assumption; try apply Habsent; simpl; tauto).
    cbn [mbind Py.result_bind]. rewrite Hc.
    eexists. split; [reflexivity|]. split; reflexivity.
  - discriminate.
  - apply ClassifierFacts.determine_weather_present.
Qed.

(** The sample snapshot is complete. *)
Lemma sample_roster_complete : complete Samples.roster_scores.
Proof.
  intros company signal_name Hc Hs.
  destruct Hc as [<-|[<-|[<-|[<-|[]]]]];
    destruct Hs as [<-|[<-|[<-|[<-|[]]]]]; eexists; reflexivity.
Qed.

Lemma all_absent_is_foggy_witness :
  composite_score Samples.roster_scores "meta" = Py.Ok None
  /\ (exists entry,
        forecast_of Samples.roster_scores "meta" = Py.Ok entry
        /\ fc_weather entry = "foggy" /\ fc_score entry = None)
  /\ "foggy" <> "stormy"
  /\ (forall score, determine_weather (Some score) <> "foggy").
Proof.
  apply (all_absent_is_foggy Samples.roster_scores "meta").
  - exact sample_roster_complete.
  - intros signal_name [<-|[<-|[<-|[<-|[]]]]]; reflexivity.
Defined.

(** The row built for one organisation holds the four signals. *)
Lemma company_scores_row mood_data pulse_data stocks_data buzz_data company row :
  company_scores mood_data pulse_data stocks_data buzz_data company = Py.Ok row ->
  forall signal_name, In signal_name signal_names ->
                      exists value, Py.getitem row signal_name = Py.Ok value.
Proof.
  unfold company_scores.
  destruct (calculate_sentiment_score _ _ _); [|discriminate].
  destruct (calculate_shipping_score _ _); [|discriminate].
  destruct (calculate_market_score _ _); [|discriminate].
  destruct (calculate_competitive_score _ _ _ _); [|discriminate].
  cbn [mbind Py.result_bind]. intros [= <-] signal_name Hs.
  unfold Py.getitem.
  destruct Hs as [<-|[<-|[<-|[<-|[]]]]]; simplify_map_eq; eexists; reflexivity.
Qed.

(** The snapshot built by the first pass is complete. *)
Lemma first_pass_complete mood_data pulse_data stocks_data buzz_data all_scores :
  first_pass mood_data pulse_data stocks_data buzz_data = Py.Ok all_scores ->
  complete all_scores.
Proof.
  unfold first_pass, all_companies. cbn [Py.for_each].
  destruct (company_scores _ _ _ _ "anthropic") as [r1|] eqn:E1; [|discriminate].
  destruct (company_scores _ _ _ _ "openai") as [r2|] eqn:E2; [|discriminate].
  destruct (company_scores _ _ _ _ "google") as [r3|] eqn:E3; [|discriminate].
  destruct (company_scores _ _ _ _ "meta") as [r4|] eqn:E4; [|discriminate].
  cbn [mbind Py.result_bind]. intros [= <-] company signal_name Hc Hs.
  unfold score_of.
  assert (Hrow : exists row,
             Py.getitem
               (<["meta":=r4]>
                  (<["google":=r3]> (<["openai":=r2]> (<["anthropic":=r1]> ∅))))
               company = Py.Ok row
             /\ company_scores mood_data pulse_data stocks_data buzz_data company
                = Py.Ok row).
  { unfold Py.getitem.
    destruct Hc as [<-|[<-|[<-|[<-|[]]]]]; simplify_map_eq; eauto. }
  destruct Hrow as (row & -> & Hrow). cbn [mbind Py.result_bind].
  exact (company_scores_row _ _ _ _ _ _ Hrow signal_name Hs).
Qed.

(** *** Peer deltas *)

(** The peer delta of a present value among peer values that contain at
    least one present value is present. *)
Lemma vs_peers_of_present (v : Q) (all_values : list (option Q)) (w : Q)
  (valid : list Q) :
  omap id all_values = w :: valid ->
  exists delta,
    calculate_vs_peers (Some v) all_values = Py.Ok (Some delta)
    /\ delta
       = (let diff := v - Py.sum (w :: valid) / Py.len (w :: valid) in
          if Py.ge diff 0 then String "+"%char (Py.format_2f diff)
          else Py.format_2f diff).
Proof.
  intros Hvalid. unfold calculate_vs_peers.
  destruct all_values as [|o all_values]; [discriminate Hvalid|].
  cbn [Py.truthy negb]. rewrite Hvalid. cbn [Py.truthy negb].
  rewrite (PyFacts.div_pos _ _ (PyFacts.len_pos w valid)).
  cbn [mbind Py.result_bind]. eexists. split; reflexivity.
Qed.

(** In a comprehension over the roster, the own value of a roster member
    is among the values. *)
Lemma own_value_listed {A B} (f : A -> Py.result B) (l : list A) (ys : list B)
  (x : A) (y : B) :
  Forall2 (fun x y => f x = Py.Ok y) l ys -> In x l -> f x = Py.Ok y -> In y ys.
Proof.
  induction 1 as [|x' y' l ys Hxy _ IH]; intros Hin Hx; [destruct Hin|].
  destruct Hin as [->|Hin].
  - left. congruence.
  - right. apply IH; assumption.
Qed.

Lemma omap_present (all_values : list (option Q)) (v : Q) :
  In (Some v) all_values -> exists w valid, omap id all_values = w :: valid.
Proof.
  induction all_values as [|o l IH]; intros Hin; [destruct Hin|].
  cbn [omap list_omap]. destruct o as [w|].
  - cbn [id]. eauto.
  - destruct Hin as [Hin|Hin]; [discriminate Hin|]. apply IH, Hin.
Qed.

(** C10.  In the second pass, the peer delta of a present score is
    present, the mean being taken over the present values of the whole
    roster, the organisation's own included; when no other organisation
    has a present value the delta is ["+0.00"]. *)
Theorem vs_peers_present
  (all_scores : gmap string (gmap string (option Q)))
  (company signal_name : string) (v : Q) :
  complete all_scores ->
  In company all_companies -> In signal_name signal_names ->
  score_of all_scores company signal_name = Py.Ok (Some v) ->
  exists entry,
    signal_entry all_scores company signal_name = Py.Ok (signal_name, entry)
    /\ (exists delta, vs_peers entry = Some delta)
    /\ ((forall c, In c all_companies -> c <> company ->
                   score_of all_scores c signal_name = Py.Ok None) ->
        vs_peers entry = Some "+0.00").
Proof.
  intros Hcomplete Hc Hs Hv.
  destruct (all_values_ok all_scores signal_name Hcomplete Hs)
    as (all_values & Hvalues & Hall).
  pose proof (own_value_listed _ _ _ _ _ Hall Hc Hv) as Hown.
  destruct (omap_present all_values v Hown) as (w & valid & Hvalid).
  destruct (vs_peers_of_present v all_values w valid Hvalid)
    as (delta & Hdelta & Hshape).
  unfold signal_entry. rewrite Hv. cbn [mbind Py.result_bind].
  rewrite Hvalues. cbn [mbind Py.result_bind]. rewrite Hdelta.
  cbn [mbind Py.result_bind]. eexists. split; [reflexivity|].
  cbn [vs_peers]. split; [eauto|].
  intros Halone.
  assert (Hsingle : omap id all_values = [v]).
  { unfold all_companies in Hall, Hc, Halone.
    repeat match goal with
           | H : Forall2 _ (_ :: _) _ |- _ =>
               apply Forall2_cons_inv_l in H as (? & ? & ? & H & ->)
           | H : Forall2 _ [] _ |- _ => apply Forall2_nil_inv_l in H as ->
           end.
    destruct Hc as [<-|[<-|[<-|[<-|[]]]]];
      repeat match goal with
             | H : score_of all_scores ?c signal_name = Py.Ok ?x |- _ =>
                 first
                   [ rewrite Hv in H; injection H as <-
                   | rewrite Halone in H by (simpl; intuition congruence);
                     injection H as <- ]
             end; reflexivity. }
  rewrite Hsingle in Hvalid. injection Hvalid as <- <-.
  subst delta. cbv zeta.
  assert (Hzero : v - Py.sum [v] / Py.len [v] == 0).
  { unfold Py.sum, Py.len. cbn [fold_left List.length].
    change (inject_Z (Z.of_nat 1)) with 1. field. }
  assert (Hge : Py.ge (v - Py.sum [v] / Py.len [v]) 0 = true)
    by (apply PyFacts.ge_true; rewrite Hzero; lra).
  rewrite Hge, (FormatFacts.format_2f_zero _ Hzero). reflexivity.
Qed.

Lemma vs_peers_present_witness :
  exists entry,
    signal_entry Samples.roster_scores "google" "market" = Py.Ok ("market", entry)
    /\ vs_peers entry = Some "+0.00".
Proof.
  destruct (vs_peers_present Samples.roster_scores "google" "market" 0.9)
    as (entry & Hentry & _ & Halone).
  - exact sample_roster_complete.
  - simpl. tauto.
  - simpl. tauto.
  - reflexivity.
  - exists entry. split; [exact Hentry|]. apply Halone.
    intros c [<-|[<-|[<-|[<-|[]]]]] Hne; try reflexivity.
    contradiction Hne. reflexivity.
Defined.

End ForecastFacts.

(** ** The per-signal scorers *)

Module ScorerFacts.

Import CalculateWeather.

(** *** Sentiment score *)

(** C3 as stated fails: the organisation has neither a blog sentiment nor
    an entry in the buzz document, and still receives a score. *)
Lemma sentiment_defaults_without_sources :
  ~ (Spec.blog_polarity None = None ->
     Spec.forum_polarity (Some Samples.buzz_openai_only) "anthropic" = None ->
     calculate_sentiment_score None (Some Samples.buzz_openai_only) "anthropic"
     = Py.Ok None).
Proof. intros H. specialize (H eq_refl eq_refl). discriminate H. Qed.

(** The neutral value that the organisation receives there. *)
Lemma sentiment_defaults_to_neutral :
  exists s,
    calculate_sentiment_score None (Some Samples.buzz_openai_only) "anthropic"
    = Py.Ok (Some s) /\ s == 0.5.
Proof. eexists. split; reflexivity. Qed.

(** C3, amended.  The blog source counts when the mood document has a
    [sentiment] entry and the forum source when the buzz document has a
    [companies] table; a polarity missing inside such a section counts as
    0.  The score is the mean of the rescaled polarities of the sources
    that count, and absent exactly when none does. *)
Theorem sentiment_score_sources
  (mood_data : option mood_doc) (buzz_data : option buzz_doc)
  (company_id : string) :
  let blog :=
    (fun sentiment => default 0 (ms_score sentiment))
      <$> (mood_data ≫= md_sentiment) in
  let forum :=
    (fun companies => default 0 ((companies !! company_id) ≫= bc_sentiment))
      <$> (buzz_data ≫= bd_companies) in
  match blog, forum with
  | Some b, Some f =>
      exists s, calculate_sentiment_score mood_data buzz_data company_id
                = Py.Ok (Some s)
                /\ s == (Spec.rescale b + Spec.rescale f) / 2
  | Some b, None =>
      exists s, calculate_sentiment_score mood_data buzz_data company_id
                = Py.Ok (Some s)
                /\ s == Spec.rescale b
  | None, Some f =>
      exists s, calculate_sentiment_score mood_data buzz_data company_id
                = Py.Ok (Some s)
                /\ s == Spec.rescale f
  | None, None =>
      calculate_sentiment_score mood_data buzz_data company_id = Py.Ok None
  end.
Proof.
  unfold calculate_sentiment_score.
  destruct (mood_data ≫= md_sentiment) as [sentiment|];
    destruct (buzz_data ≫= bd_companies) as [companies|];
    cbn [fmap option_fmap option_map app mean_or_none Py.truthy];
    try reflexivity;
    rewrite (PyFacts.div_pos _ _ (PyFacts.len_pos _ _));
    (eexists; split; [reflexivity|]);
    unfold Spec.rescale, Py.sum, Py.len; cbn [fold_left List.length];
    try change (inject_Z (Z.of_nat 2)) with 2;
    try change (inject_Z (Z.of_nat 1)) with 1.
  - destruct (companies !! company_id) as [company_buzz|];
      cbn [default from_option id mbind option_bind no_buzz bc_sentiment];
      field.
  - field.
  - destruct (companies !! company_id) as [company_buzz|];
      cbn [default from_option id mbind option_bind no_buzz bc_sentiment];
      field.
Qed.

(** *** Shipping score *)

(** Both producers of the weekly series emit it oldest week first: entry
    [i] counts the week that lies [n - 1 - i] weeks back. *)
Lemma fold_append_map {A B} (f : A -> B) (l : list A) (acc : list B) :
  fold_left (fun activity week => (activity ++ [f week])%list) l acc
  = (acc ++ map f l)%list.
Proof.
  revert acc. induction l as [|x l IH]; intros acc; simpl.
  - symmetry. apply app_nil_r.
  - rewrite IH, <- app_assoc. reflexivity.
Qed.

Lemma fold_cons_map {A B} (f : A -> B) (l : list A) (acc : list B) :
  fold_left (fun activity week => f week :: activity) l acc
  = (map f (rev l) ++ acc)%list.
Proof.
  revert acc. induction l as [|x l IH]; intros acc; simpl.
  - reflexivity.
  - rewrite IH, map_app, <- app_assoc. reflexivity.
Qed.

Lemma calculate_real_activity_oldest_first today releases weeks :
  BackfillHistory.calculate_real_activity today releases weeks
  = map (BackfillHistory.count_week today releases) (rev (seq 0 weeks)).
Proof.
  unfold BackfillHistory.calculate_real_activity.
  exact (fold_append_map (BackfillHistory.count_week today releases) _ []).
Qed.

Lemma calculate_activity_oldest_first strptime_ymd now releases :
  FetchChangelogs.calculate_activity strptime_ymd now releases
  = map (FetchChangelogs.count_week strptime_ymd now releases) (rev (seq 0 14)).
Proof.
  unfold FetchChangelogs.calculate_activity.
  rewrite fold_cons_map. apply app_nil_r.
Qed.

(** What the shipping score reads from a stored series: its first seven
    entries, which are the oldest seven. *)
Lemma shipping_score_reads_first_seven
  (pulse_data : pulse_doc) (companies : gmap string pulse_company)
  (company_id : string) (company_pulse : pulse_company) (activity : list Q) :
  pd_companies pulse_data = Some companies ->
  companies !! company_id = Some company_pulse ->
  pc_activity company_pulse = Some activity ->
  (7 <= List.length activity)%nat ->
  calculate_shipping_score (Some pulse_data) company_id
  = Py.Ok (Some (Py.min 1.0 (Py.sum (firstn 7 activity) / 7 / 3.0))).
Proof.
  intros Hc Hp Ha Hlen. unfold calculate_shipping_score.
  cbn [mbind option_bind]. rewrite Hc, Hp.
  cbn [default from_option id]. rewrite Ha. cbn [from_option id].
  destruct activity as [|x activity]; [simpl in Hlen; lia|].
  cbn [Py.truthy negb].
  destruct (Nat.leb_spec 7 (List.length (x :: activity))) as [_|Hlt]; [|lia].
  unfold Py.slice_to.
  assert (Hl : List.length (firstn 7 (x :: activity)) = 7%nat)
    by (rewrite length_firstn; lia).
  set (recent := firstn 7 (x :: activity)) in *.
  assert (Ht : Py.truthy recent = true)
    by (destruct recent; [discriminate Hl|reflexivity]).
  assert (Hn : Py.len recent = 7) by (unfold Py.len; rewrite Hl; reflexivity).
  rewrite Ht, Hn. reflexivity.
Qed.

(** C4, evaluated.  Three releases in each of the last seven weeks and
    none before: the stored series ends with seven 3s, the scorer reads the
    seven 0s in front and returns 0, where the most recent seven entries
    average 3 and saturate the score at 1. *)
Theorem shipping_score_reads_oldest_weeks :
  let activity :=
    BackfillHistory.calculate_real_activity
      Samples.today Samples.recent_releases 14 in
  activity = [0; 0; 0; 0; 0; 0; 0; 3; 3; 3; 3; 3; 3; 3]%Z
  /\ (exists s,
        calculate_shipping_score (Some (Samples.pulse_of "openai" activity)) "openai"
        = Py.Ok (Some s) /\ s == 0)
  /\ (exists s, Spec.shipping_score (map inject_Z activity) = Some s /\ s == 1).
Proof.
  cbv zeta. split; [reflexivity|]. split.
  - eexists. split; [vm_compute; reflexivity|reflexivity].
  - eexists. split; [vm_compute; reflexivity|reflexivity].
Qed.

(** *** Market score *)

(** Every ticker of [COMPANY_STOCK_MAP] is a non-empty string. *)
Lemma tracked_ticker_truthy (company_id ticker : string) :
  Spec.tracked_ticker company_id = Some ticker -> Py.truthy_str ticker = true.
Proof.
  unfold Spec.tracked_ticker.
  destruct (COMPANY_STOCK_MAP !! company_id) as [o|] eqn:E; [|discriminate].
  cbn [mjoin option_join]. intros ->.
  apply elem_of_list_to_map_2 in E.
  repeat (apply elem_of_cons in E as [E|E];
          [injection E as _ E; try discriminate E; subst ticker; reflexivity|]).
  apply elem_of_nil in E. destruct E.
Qed.

Lemma len_Z {A} (l : list A) : Py.len l = inject_Z (Z.of_nat (List.length l)).
Proof. reflexivity. Qed.

Lemma min_len_30 (closes : list Q) :
  Py.min (Py.len closes) 30
  == inject_Z (Z.of_nat (Nat.min 30 (List.length closes))).
Proof.
  unfold Py.min. rewrite len_Z.
  destruct (Py.lt 30 (inject_Z (Z.of_nat (List.length closes)))) eqn:E.
  - apply PyFacts.lt_true in E. change 30 with (inject_Z 30) in E.
    rewrite <- Zlt_Qlt in E. rewrite Nat.min_l by lia. reflexivity.
  - apply PyFacts.lt_false in E. change 30 with (inject_Z 30) in E.
    rewrite <- Zle_Qle in E. rewrite Nat.min_r by lia. reflexivity.
Qed.


Lemma min_len_30_pos (closes : list Q) :
  (10 <= List.length closes)%nat -> 0 < Py.min (Py.len closes) 30.
Proof.
  intros Hlen. rewrite min_len_30. change 0 with (inject_Z 0).
  rewrite <- Zlt_Qlt. lia.
Qed.

(** The scorer on an organisation without ticker or with fewer than ten
    samples. *)
Lemma market_score_absent stocks_data company_id :
  Spec.tracked_ticker company_id = None
  \/ (List.length (Spec.price_samples stocks_data company_id) < 10)%nat ->
  calculate_market_score stocks_data company_id = Py.Ok None.
Proof.
  unfold calculate_market_score, Spec.price_samples.
  destruct (stocks_data ≫= sd_stocks) as [stocks|]; [|reflexivity].
  fold (Spec.tracked_ticker company_id).
  destruct (Spec.tracked_ticker company_id) as [ticker|] eqn:Et;
    [|reflexivity].
  rewrite (tracked_ticker_truthy _ _ Et). cbn [negb].
  destruct (find _ stocks) as [stock|]; [|reflexivity].
  intros [H|H]; [discriminate H|].
  apply Nat.ltb_lt in H. rewrite H. reflexivity.
Qed.

(** The scorer on an organisation with ten samples or more. *)
Lemma market_score_tracked stocks_data company_id :
  let closes := Spec.price_samples stocks_data company_id in
  (10 <= List.length closes)%nat ->
  calculate_market_score stocks_data company_id
  = if Py.eq (avg_30d_of closes) 0 then Py.Ok (Some 0.5)
    else
      momentum ← Py.div (Spec.latest_close closes) (avg_30d_of closes);
      Py.Ok (Some (Py.max 0 (Py.min 1 ((momentum - 0.8) / 0.4)))).
Proof.
  unfold calculate_market_score, Spec.price_samples. cbv zeta.
  fold (Spec.tracked_ticker company_id).
  destruct (Spec.tracked_ticker company_id) as [ticker|] eqn:Et;
    [|simpl; lia].
  destruct (stocks_data ≫= sd_stocks) as [stocks|]; [|simpl; lia].
  rewrite (tracked_ticker_truthy _ _ Et). cbn [negb].
  destruct (find _ stocks) as [stock|]; [|simpl; lia].
  generalize (default [] (st_history stock)). intros history Hlen.
  destruct (Nat.ltb_spec (List.length history) 10) as [Hlt|_]; [lia|].
  assert (Hne : history <> []) by (intros E; rewrite E in Hlen; simpl in Hlen; lia).
  assert (Ht : Py.truthy history = true)
    by (destruct history; [exfalso; apply Hne; reflexivity|reflexivity]).
  rewrite Ht, (PyFacts.last_item_ok history 0 Hne).
  rewrite (PyFacts.div_pos _ _ (min_len_30_pos history Hlen)).
  cbn [mbind Py.result_bind]. fold (avg_30d_of history).
  destruct (Py.eq (avg_30d_of history) 0); [reflexivity|].
  unfold Spec.latest_close.
  destruct (Py.div (List.last history 0) (avg_30d_of history)); [|reflexivity].
  cbn [mbind Py.result_bind]. reflexivity.
Qed.








End ScorerFacts.

(** ** The summary generator *)

Module SummaryFacts.

Import CalculateWeather.

(** A peer delta built by [calculate_vs_peers] is never taken for a
    weakness: the test strips the sign before it compares with [-0.1]. *)
Lemma weakness_never_detected (value : option Q) (all_values : list (option Q))
  (delta : string) :
  calculate_vs_peers value all_values = Py.Ok (Some delta) ->
  is_weakness delta = Py.Ok false.
Proof.
  unfold calculate_vs_peers.
  destruct value as [v|]; [|discriminate].
  destruct (negb (Py.truthy all_values)); [discriminate|].
  destruct (negb (Py.truthy (omap id all_values))); [discriminate|].
  destruct (Py.div _ _) as [avg|]; [|discriminate].
  cbn [mbind Py.result_bind]. intros [= <-].
  unfold Py.ge, Py.format_2f.
  destruct (Py.lt (v - avg) 0); cbn [negb]; [|reflexivity].
  unfold is_weakness. cbn [Py.truthy_str Py.startswith Py.tail].
  destruct (FormatFacts.float_of_format_2f_abs (v - avg)) as (r & -> & Hr).
  cbn [andb Ascii.eqb Bool.eqb mbind Py.result_bind].
  assert (Hlt : Py.lt r (-0.1) = false) by (apply PyFacts.lt_false; lra).
  rewrite Hlt. reflexivity.
Qed.

(** The strength test does not raise on such a delta. *)
Lemma strength_test_total (value : option Q) (all_values : list (option Q))
  (delta : string) :
  calculate_vs_peers value all_values = Py.Ok (Some delta) ->
  exists b, is_strength delta = Py.Ok b.
Proof.
  unfold calculate_vs_peers.
  destruct value as [v|]; [|discriminate].
  destruct (negb (Py.truthy all_values)); [discriminate|].
  destruct (negb (Py.truthy (omap id all_values))); [discriminate|].
  destruct (Py.div _ _) as [avg|]; [|discriminate].
  cbn [mbind Py.result_bind]. intros [= <-].
  unfold Py.ge, Py.format_2f.
  destruct (Py.lt (v - avg) 0); cbn [negb]; [eexists; reflexivity|].
  unfold is_strength. cbn [Py.truthy_str Py.startswith Py.tail].
  destruct (FormatFacts.float_of_format_2f_abs (v - avg)) as (r & -> & Hr).
  eexists. reflexivity.
Qed.

(** *** The two tests on a delta string *)

(** On the string built for a difference [diff], the strength test
    compares the magnitude rounded to hundredths with 0.1, and the
    weakness test fails. *)
Lemma delta_tests (diff : Q) :
  let delta :=
    if Py.ge diff 0 then String "+"%char (Py.format_2f diff)
    else Py.format_2f diff in
  is_strength delta
  = Py.Ok (Py.ge diff 0 && Py.gt (Py.round2 (Qabs diff)) 0.1)
  /\ is_weakness delta = Py.Ok false.
Proof.
  cbv zeta. unfold Py.ge, Py.format_2f.
  destruct (Py.lt diff 0); cbn [negb andb].
  - unfold is_strength, is_weakness.
    cbn [Py.truthy_str Py.startswith Py.tail Ascii.eqb Bool.eqb andb].
    rewrite FormatFacts.float_of_format_2f_abs_value.
    cbn [mbind Py.result_bind]. split; [reflexivity|].
    assert (Hlt : Py.lt (Py.round2 (Qabs diff)) (-0.1) = false).
    { apply PyFacts.lt_false.
      destruct (FormatFacts.float_of_format_2f_abs diff) as (r & Hr & Hnn).
      rewrite FormatFacts.float_of_format_2f_abs_value in Hr.
      injection Hr as <-. lra. }
    rewrite Hlt. reflexivity.
  - unfold is_strength, is_weakness.
    cbn [Py.truthy_str Py.startswith Py.tail Ascii.eqb Bool.eqb andb].
    rewrite FormatFacts.float_of_format_2f_abs_value.
    split; reflexivity.
Qed.

(** A difference within [[-0.10, +0.10]] is neither a strength nor a
    weakness. *)
Lemma neutral_within_tenth (diff : Q) :
  -0.1 <= diff <= 0.1 ->
  let delta :=
    if Py.ge diff 0 then String "+"%char (Py.format_2f diff)
    else Py.format_2f diff in
  is_strength delta = Py.Ok false /\ is_weakness delta = Py.Ok false.
Proof.
  intros Hband. cbv zeta.
  destruct (delta_tests diff) as [Hs Hw]. cbv zeta in Hs, Hw.
  split; [|exact Hw]. rewrite Hs.
  assert (Hgt : Py.gt (Py.round2 (Qabs diff)) 0.1 = false).
  { apply PyFacts.gt_false. unfold Py.round2.
    assert (Hz : (Py.round_half_even (Qabs diff * 100) <= 10)%Z).
    { apply FormatFacts.round_half_even_le.
      assert (Habs : Qabs diff <= 0.1) by (apply Qabs_Qle_condition; exact Hband).
      change (inject_Z 10) with 10. lra. }
    unfold Qle. cbn [Qnum Qden]. lia. }
  rewrite Hgt, andb_false_r. reflexivity.
Qed.

(** *** Signals built by the second pass *)

Lemma comprehension_inv {A B} (f : A -> Py.result B) (l : list A) (ys : list B) :
  Py.comprehension f l = Py.Ok ys ->
  Forall2 (fun x y => f x = Py.Ok y) l ys.
Proof.
  revert ys. induction l as [|x l IH]; intros ys; cbn [Py.comprehension].
  - intros [= <-]. constructor.
  - destruct (f x) as [y|] eqn:Ey; [|discriminate].
    cbn [mbind Py.result_bind].
    destruct (Py.comprehension f l) as [ys'|]; [|discriminate].
    cbn [mbind Py.result_bind]. intros [= <-].
    constructor; [exact Ey|apply IH; reflexivity].
Qed.

Lemma signal_entry_built all_scores company signal_name name entry :
  signal_entry all_scores company signal_name = Py.Ok (name, entry) ->
  built_delta entry.
Proof.
  unfold signal_entry.
  destruct (score_of all_scores company signal_name) as [value|]; [|discriminate].
  cbn [mbind Py.result_bind].
  destruct (Py.comprehension _ all_companies) as [all_values|]; [|discriminate].
  cbn [mbind Py.result_bind].
  destruct (calculate_vs_peers value all_values) as [delta|] eqn:E;
    [|discriminate].
  cbn [mbind Py.result_bind]. intros [= _ <-].
  exists value, all_values. exact E.
Qed.

Lemma signals_built all_scores company signals :
  signals_of all_scores company = Py.Ok signals ->
  Forall (fun item => built_delta (snd item)) signals.
Proof.
  intros Hrun. apply comprehension_inv in Hrun.
  induction Hrun as [|signal_name [name entry] l signals Hentry _ IH];
    constructor; [|exact IH].
  exact (signal_entry_built _ _ _ _ _ Hentry).
Qed.

(** One step of the summary loop on such an entry: it does not raise and
    leaves [weaknesses] as it was. *)
Lemma summary_step_keeps_weaknesses strengths weaknesses name entry :
  built_delta entry ->
  exists strengths',
    summary_step (strengths, weaknesses) (name, entry)
    = Py.Ok (strengths', weaknesses).
Proof.
  intros (value & all_values & Hdelta). unfold summary_step.
  destruct (vs_peers entry) as [delta|]; cbn [default from_option id].
  - destruct (strength_test_total _ _ _ Hdelta) as [b ->].
    cbn [mbind Py.result_bind]. destruct b; [eauto|].
    rewrite (weakness_never_detected _ _ _ Hdelta). eauto.
  - eexists. reflexivity.
Qed.

Lemma summary_loop_keeps_weaknesses signals strengths weaknesses :
  Forall (fun item => built_delta (snd item)) signals ->
  exists strengths',
    Py.for_each summary_step signals (strengths, weaknesses)
    = Py.Ok (strengths', weaknesses).
Proof.
  intros Hall. revert strengths.
  induction Hall as [|[name entry] signals Hentry _ IH]; intros strengths.
  - eexists. reflexivity.
  - destruct (summary_step_keeps_weaknesses strengths weaknesses name entry Hentry)
      as [strengths' Hstep].
    cbn [Py.for_each]. rewrite Hstep. cbn [mbind Py.result_bind]. apply IH.
Qed.

(** On the signals of the second pass the summary never lists a weakness:
    it is built from strengths alone or is the description of the weather
    state. *)
Theorem summary_never_lists_weakness all_scores company signals weather :
  signals_of all_scores company = Py.Ok signals ->
  exists strengths,
    generate_summary signals weather company
    = Py.Ok (summary_text strengths [] weather).
Proof.
  intros Hsignals.
  destruct (summary_loop_keeps_weaknesses signals [] [] (signals_built _ _ _ Hsignals))
    as [strengths Hloop].
  exists strengths. unfold generate_summary. rewrite Hloop. reflexivity.
Qed.

(** C1, evaluated.  In the sample roster the sentiment of one
    organisation lies 0.15 below its peers and no signal of it is a
    strength: the delta is not taken for a weakness and the summary falls
    back to the description of the weather state. *)
Theorem weakness_not_reported :
  exists entry,
    forecast_of Samples.roster_scores "openai" = Py.Ok entry
    /\ In ("sentiment", {| value := Some (Py.round2 0.5);
                           vs_peers := Some "-0.15" |})
          (fc_signals entry)
    /\ is_weakness "-0.15" = Py.Ok false
    /\ fc_summary entry = "Concerning trends emerging"
    /\ fc_summary entry <> "Challenges in sentiment".
Proof.
  eexists. split; [vm_compute; reflexivity|].
  split; [left; reflexivity|].
  split; [reflexivity|].
  split; [reflexivity|discriminate].
Qed.

End SummaryFacts.

(** ** The rolling mood history *)

Module HistoryFacts.

Import BackfillHistory.

(** A loop that appends one computed value per item: when the computation
    never raises, the loop returns one value per item, each computed from
    the values before it. *)
Lemma append_loop {A B} (f : list A -> B -> Py.result A) (l : list B)
  (h0 : list A) :
  (forall h d, exists v, f h d = Py.Ok v) ->
  exists h,
    Py.for_each (fun h d => v ← f h d; Py.Ok (h ++ [v])%list) l h0
    = Py.Ok (h0 ++ h)%list
    /\ List.length h = List.length l
    /\ forall j d, nth_error l j = Some d ->
                   exists v, nth_error h j = Some v
                             /\ f (h0 ++ firstn j h)%list d = Py.Ok v.
Proof.
  intros Htotal. revert h0. induction l as [|d l IH]; intros h0.
  - exists []. cbn [Py.for_each]. rewrite app_nil_r.
    split; [reflexivity|]. split; [reflexivity|].
    intros [|j] d' Hd'; discriminate Hd'.
  - destruct (Htotal h0 d) as [v Hv].
    destruct (IH (h0 ++ [v])%list) as (h & Hrun & Hlen & Hnth).
    exists (v :: h). cbn [Py.for_each]. rewrite Hv.
    cbn [mbind Py.result_bind]. rewrite Hrun, <- app_assoc.
    split; [reflexivity|]. split; [simpl; rewrite Hlen; reflexivity|].
    intros [|j] d' Hd'.
    + injection Hd' as <-. exists v. split; [reflexivity|].
      cbn [firstn]. rewrite app_nil_r. exact Hv.
    + destruct (Hnth j d' Hd') as (v' & Hv' & Hf).
      exists v'. split; [exact Hv'|].
      cbn [firstn]. rewrite <- app_assoc in Hf. exact Hf.
Qed.

(** Sorting keeps every post. *)
Lemma insert_by_date_length (p : post) (l : list post) :
  List.length (insert_by_date p l) = S (List.length l).
Proof.
  induction l as [|q l IH]; [reflexivity|].
  cbn [insert_by_date]. destruct (key p <=? key q)%Z; simpl; congruence.
Qed.

Lemma sort_by_date_length (l : list post) :
  List.length (sort_by_date l) = List.length l.
Proof.
  induction l as [|p l IH]; [reflexivity|].
  cbn [sort_by_date fold_right]. fold (sort_by_date l).
  rewrite insert_by_date_length, IH. reflexivity.
Qed.

(** The mean sentiment of at least one post is defined. *)
Lemma mean_sentiment_ok (ps : list post) :
  ps <> [] ->
  mean_sentiment ps
  = Py.Ok (Py.sum (map (fun p => default 0 (p_sentiment p)) ps) / Py.len ps).
Proof.
  intros Hne. destruct ps as [|p ps]; [contradiction|].
  unfold mean_sentiment. apply PyFacts.div_pos, PyFacts.len_pos.
Qed.

Lemma truthy_nonempty {A} (l : list A) : Py.truthy l = true <-> l <> [].
Proof. destruct l; simpl; split; congruence. Qed.

(** Rounding to three decimals is idempotent. *)
Lemma round_half_even_Z (z : Z) : Py.round_half_even (inject_Z z) = z.
Proof.
  unfold Py.round_half_even. rewrite Qfloor_Z.
  assert (E : Qcompare (inject_Z z - inject_Z z) (1 # 2) = Lt)
    by (rewrite <- Qlt_alt; lra).
  rewrite E. reflexivity.
Qed.

Lemma round3_idempotent (q : Q) : Py.round3 (Py.round3 q) = Py.round3 q.
Proof.
  unfold Py.round3 at 1 3.
  rewrite (FormatFacts.round_half_even_comp
             (Py.round3 q * 1000)
             (inject_Z (Py.round_half_even (q * 1000)))).
  - rewrite round_half_even_Z. reflexivity.
  - unfold Py.round3, Qeq. simpl. lia.
Qed.

(** One day's value never raises once a dated post exists, and is
    rounded. *)
Lemma day_value_ok today dated_posts history day_offset :
  dated_posts <> [] ->
  exists v, day_value today dated_posts history day_offset = Py.Ok v
            /\ Py.round3 v = v.
Proof.
  intros Hdated. unfold day_value.
  assert (Havg : exists avg,
             (if Py.truthy (window_posts today dated_posts day_offset)
              then mean_sentiment (window_posts today dated_posts day_offset)
              else if Py.truthy history then Py.last_item history
                   else mean_sentiment dated_posts) = Py.Ok avg).
  { destruct (Py.truthy (window_posts today dated_posts day_offset)) eqn:Ew.
    - rewrite mean_sentiment_ok by (apply truthy_nonempty, Ew). eauto.
    - destruct (Py.truthy history) eqn:Eh.
      + rewrite (PyFacts.last_item_ok history 0) by (apply truthy_nonempty, Eh).
        eauto.
      + rewrite mean_sentiment_ok by exact Hdated. eauto. }
  destruct Havg as [avg ->]. cbn [mbind Py.result_bind].
  eexists. split; [reflexivity|]. apply round3_idempotent.
Qed.

Lemma nth_error_rev_seq (n i : nat) :
  (i < n)%nat -> nth_error (rev (seq 0 n)) i = Some (n - 1 - i)%nat.
Proof.
  intros Hi. rewrite nth_error_rev; rewrite length_seq.
  - destruct (Nat.ltb_spec i n) as [_|?]; [|lia].
    rewrite nth_error_seq.
    destruct (Nat.ltb_spec (n - S i) n) as [_|?]; [|lia].
    f_equal. lia.
Qed.

Lemma firstn_snoc {A} (l : list A) (i : nat) (x : A) :
  nth_error l i = Some x -> firstn (S i) l = (firstn i l ++ [x])%list.
Proof.
  revert i. induction l as [|y l IH]; intros [|i] Hx; try discriminate Hx.
  - injection Hx as ->. reflexivity.
  - cbn [firstn app]. rewrite <- (IH i Hx). reflexivity.
Qed.

Lemma last_item_snoc {A} (l : list A) (x : A) :
  Py.last_item (l ++ [x]) = Py.Ok x.
Proof.
  rewrite (PyFacts.last_item_ok _ x) by (destruct l; discriminate).
  rewrite last_last. reflexivity.
Qed.

(** A day whose window is empty repeats the rounded value before it. *)
Lemma day_value_carry today dated_posts history previous day_offset :
  window_posts today dated_posts day_offset = [] ->
  Py.round3 previous = previous ->
  day_value today dated_posts (history ++ [previous]) day_offset
  = Py.Ok previous.
Proof.
  intros Hw Hr. unfold day_value. rewrite Hw. cbn [Py.truthy].
  assert (Ht : Py.truthy (history ++ [previous]) = true)
    by (destruct history; reflexivity).
  rewrite Ht, last_item_snoc. cbn [mbind Py.result_bind]. rewrite Hr.
  reflexivity.
Qed.

(** C5 as stated fails: without posts the builder returns no point. *)
Lemma no_posts_no_history :
  ~ (exists history,
        build_mood_history Samples.today [] 30 = Py.Ok history
        /\ List.length history = 30%nat).
Proof. intros (history & [= <-] & Hlen). discriminate Hlen. Qed.

(** Posts without a date give seven points, whatever length is asked
    beyond seven. *)
Lemma undated_posts_seven_points :
  exists history,
    build_mood_history Samples.today
      [ {| p_title := "post"; p_datetime := None; p_sentiment := Some 0.9 |} ] 30
    = Py.Ok history
    /\ List.length history = 7%nat.
Proof. eexists. split; [vm_compute; reflexivity|reflexivity]. Qed.

(** The loop of the builder on posts of which at least one is dated: one
    point per day, each computed from the points before it. *)
Lemma history_loop
  (today : Datetime.datetime) (posts : list post) (days : nat) :
  (exists p, In p posts /\ is_Some (p_datetime p)) ->
  let dated_posts :=
    sort_by_date
      (List.filter (fun p => bool_decide (is_Some (p_datetime p))) posts) in
  dated_posts <> []
  /\ exists history,
      build_mood_history today posts days = Py.Ok history
      /\ List.length history = days
      /\ (forall i, (i < days)%nat ->
            exists v,
              nth_error history i = Some v
              /\ day_value today dated_posts (firstn i history) (days - 1 - i)
                 = Py.Ok v).
Proof.
  intros (p & Hp & Hdate) dated_posts.
  assert (Hposts : Py.truthy posts = true)
    by (destruct posts; [destruct Hp|reflexivity]).
  set (dated := List.filter (fun p => bool_decide (is_Some (p_datetime p))) posts)
    in *.
  assert (Hdated : dated <> []).
  { intros E. assert (Hin : In p dated).
    { apply filter_In. split; [exact Hp|]. apply bool_decide_eq_true_2, Hdate. }
    rewrite E in Hin. destruct Hin. }
  assert (Hsorted : dated_posts <> []).
  { intros E. apply Hdated. apply length_zero_iff_nil.
    rewrite <- sort_by_date_length. fold dated_posts. rewrite E. reflexivity. }
  split; [exact Hsorted|].
  destruct (append_loop (day_value today dated_posts) (rev (seq 0 days)) [])
    as (history & Hrun & Hlen & Hnth).
  { intros h d. destruct (day_value_ok today dated_posts h d Hsorted) as (v & Hv & _).
    eauto. }
  rewrite length_rev, length_seq in Hlen.
  exists history. split.
  { unfold build_mood_history. rewrite Hposts. cbn [negb]. fold dated.
    rewrite (proj2 (truthy_nonempty dated) Hdated). cbn [negb].
    fold dated_posts. exact Hrun. }
  split; [exact Hlen|].
  intros i Hi. apply (Hnth i), nth_error_rev_seq, Hi.
Qed.

(** C5, amended.  For posts of which at least one is dated, the builder
    returns exactly [days] points; point [i] is the value of the day
    [days - 1 - i] days back, computed from the points before it, so the
    oldest day comes first; every point is rounded to three decimals; and
    a day whose window is empty repeats the point before it.  Without
    posts the builder returns no point; with posts of which none is dated
    it returns [min(7, days)] copies of the mean sentiment of all posts,
    rounded to three decimals. *)
Theorem mood_history_points
  (today : Datetime.datetime) (posts : list post) (days : nat) :
  let overall_mean :=
    Py.sum (map (fun p => default 0 (p_sentiment p)) posts) / Py.len posts in
  let dated_posts :=
    sort_by_date
      (List.filter (fun p => bool_decide (is_Some (p_datetime p))) posts) in
  (posts = [] -> build_mood_history today posts days = Py.Ok [])
  /\ (posts <> [] ->
      (forall p, In p posts -> p_datetime p = None) ->
      build_mood_history today posts days
      = Py.Ok (repeat (Py.round3 overall_mean) (Nat.min 7 days)))
  /\ ((exists p, In p posts /\ is_Some (p_datetime p)) ->
      exists history,
        build_mood_history today posts days = Py.Ok history
        /\ List.length history = days
        /\ (forall i, (i < days)%nat ->
              exists v,
                nth_error history i = Some v
                /\ day_value today dated_posts (firstn i history) (days - 1 - i)
                   = Py.Ok v)
        /\ Forall (fun v => Py.round3 v = v) history
        /\ (forall i previous,
              (S i < days)%nat ->
              window_posts today dated_posts (days - 1 - S i) = [] ->
              nth_error history i = Some previous ->
              nth_error history (S i) = Some previous)).
Proof.
  intros overall_mean dated_posts. split; [|split].
  - intros ->. reflexivity.
  - intros Hne Hundated. unfold build_mood_history.
    rewrite (proj2 (truthy_nonempty posts) Hne). cbn [negb].
    assert (Hnone : List.filter
                      (fun p => bool_decide (is_Some (p_datetime p))) posts
                    = []).
    { clear -Hundated. induction posts as [|p posts IH]; [reflexivity|].
      cbn [List.filter]. rewrite (Hundated p (or_introl eq_refl)).
      rewrite bool_decide_eq_false_2 by (intros [d Hd]; discriminate Hd).
      apply IH. intros q Hq. apply Hundated. right. exact Hq. }
    rewrite Hnone. cbn [Py.truthy negb].
    rewrite mean_sentiment_ok by exact Hne. reflexivity.
  - intros Hdated.
    destruct (history_loop today posts days Hdated)
      as (Hsorted & history & Hrun & Hlen & Hpoint).
    fold dated_posts in Hsorted, Hpoint.
    assert (Hrounded : Forall (fun v => Py.round3 v = v) history).
    { apply List.Forall_forall. intros v Hv.
      apply In_nth_error in Hv as [i Hi].
      assert (Hlt : (i < days)%nat)
        by (rewrite <- Hlen; apply nth_error_Some; congruence).
      destruct (Hpoint i Hlt) as (v' & Hv' & Hday).
      rewrite Hi in Hv'. injection Hv' as <-.
      destruct (day_value_ok today dated_posts (firstn i history) (days - 1 - i)
                  Hsorted) as (v'' & Hv'' & Hr).
      rewrite Hday in Hv''. injection Hv'' as <-. exact Hr. }
    exists history.
    split; [exact Hrun|]. split; [exact Hlen|]. split; [exact Hpoint|].
    split; [exact Hrounded|].
    intros i previous Hi Hw Hprev.
    destruct (Hpoint (S i) Hi) as (v & Hv & Hday).
    rewrite (firstn_snoc history i previous Hprev) in Hday.
    rewrite day_value_carry in Hday; [congruence|exact Hw|].
    apply (proj1 (List.Forall_forall _ history) Hrounded).
    apply nth_error_In with i. exact Hprev.
Qed.

Lemma mood_history_points_witness :
  exists history,
    build_mood_history Samples.today Samples.posts 30 = Py.Ok history
    /\ List.length history = 30%nat.
Proof.
  destruct (mood_history_points Samples.today Samples.posts 30)
    as (_ & _ & Hdated).
  destruct Hdated as (history & Hrun & Hlen & _).
  - eexists. split; [left; reflexivity|]. eexists. reflexivity.
  - exists history. split; assumption.
Defined.

(** The sample history, oldest day first: the overall mean before any
    window holds a post, the mean of each window that holds one, and that
    mean carried over the days whose window is empty. *)
Example sample_history :
  build_mood_history Samples.today Samples.posts 30
  = Py.Ok [ 0.107; 0.107; 0.107; 0.107; 0.107; 0.107; 0.107; 0.107; 0.107;
            -0.200; -0.200; -0.200; -0.200; -0.200; -0.200; -0.200; -0.200;
            -0.200; -0.200; -0.200; -0.200; -0.200; -0.200; -0.200; -0.200;
            0.120; 0.260; 0.260; 0.260; 0.260 ].
Proof. vm_compute. reflexivity. Qed.

(** The builder never raises, and the number of points it returns: none
    without posts, [min(7, days)] when no post is dated, [days]
    otherwise. *)
Theorem mood_history_length
  (today : Datetime.datetime) (posts : list post) (days : nat) :
  exists history,
    build_mood_history today posts days = Py.Ok history
    /\ List.length history
       = match posts with
         | [] => 0%nat
         | _ :: _ =>
             if Py.truthy
                  (List.filter (fun p => bool_decide (is_Some (p_datetime p)))
                     posts)
             then days else Nat.min 7 days
         end.
Proof.
  destruct posts as [|p0 posts]; [exists []; split; reflexivity|].
  destruct (Py.truthy (List.filter _ (p0 :: posts))) eqn:Ed.
  - apply truthy_nonempty in Ed.
    assert (Hdated : exists p, In p (p0 :: posts) /\ is_Some (p_datetime p)).
    { destruct (List.filter _ (p0 :: posts)) as [|p l] eqn:Ef; [contradiction|].
      assert (Hin : In p (List.filter
                            (fun p => bool_decide (is_Some (p_datetime p)))
                            (p0 :: posts)))
        by (rewrite Ef; left; reflexivity).
      apply filter_In in Hin as [Hin Hp]. exists p. split; [exact Hin|].
      apply bool_decide_eq_true_1 in Hp. exact Hp. }
    destruct (history_loop today (p0 :: posts) days Hdated)
      as (_ & history & Hrun & Hlen & _).
    exists history. split; assumption.
  - unfold build_mood_history. cbn [Py.truthy negb]. rewrite Ed. cbn [negb].
    rewrite mean_sentiment_ok by discriminate. cbn [mbind Py.result_bind].
    eexists. split; [reflexivity|]. apply repeat_length.
Qed.

End HistoryFacts.

(** ** No scorer raises *)

Module TotalityFacts.

Import CalculateWeather.

Lemma mean_or_none_total (scores : list Q) :
  exists r, mean_or_none scores = Py.Ok r.
Proof.
  unfold mean_or_none. destruct scores as [|x scores]; cbn [Py.truthy].
  - eauto.
  - rewrite (PyFacts.div_pos _ _ (PyFacts.len_pos x scores)). eauto.
Qed.

Lemma sentiment_total mood_data buzz_data company_id :
  exists r, calculate_sentiment_score mood_data buzz_data company_id = Py.Ok r.
Proof. unfold calculate_sentiment_score. apply mean_or_none_total. Qed.

Lemma shipping_total pulse_data company_id :
  exists r, calculate_shipping_score pulse_data company_id = Py.Ok r.
Proof.
  unfold calculate_shipping_score.
  destruct (pulse_data ≫= pd_companies) as [companies|]; [|eauto].
  generalize (default [] (pc_activity (default no_pulse (companies !! company_id)))).
  intros activity. destruct (Py.truthy activity) eqn:Ea; cbn [negb]; [|eauto].
  match goal with
  | |- context [Py.truthy ?l] =>
      destruct l as [|x recent]; cbn [Py.truthy mbind Py.result_bind]
  end.
  - eexists. reflexivity.
  - rewrite (PyFacts.div_pos _ _ (PyFacts.len_pos x recent)).
    eexists. reflexivity.
Qed.

Lemma market_total stocks_data company_id :
  exists r, calculate_market_score stocks_data company_id = Py.Ok r.
Proof.
  destruct (Nat.ltb_spec
              (List.length (Spec.price_samples stocks_data company_id)) 10)
    as [Hlt|Hge].
  - rewrite ScorerFacts.market_score_absent by (right; exact Hlt). eauto.
  - rewrite (ScorerFacts.market_score_tracked stocks_data company_id Hge).
    destruct (Py.eq _ 0) eqn:E; [eauto|].
    rewrite PyFacts.div_ok by (apply PyFacts.eq_false, E).
    eexists. reflexivity.
Qed.

Lemma max_list_total (l : list Q) :
  exists m, (if Py.truthy l then Py.max_list l else Py.Ok 1) = Py.Ok m.
Proof. destruct l; cbn [Py.truthy Py.max_list]; eauto. Qed.

Lemma ratio_total (scores : list Q) (a m : Q) :
  exists scores',
    (if Py.gt m 0
     then r ← Py.div a m; Py.Ok (scores ++ [r])%list
     else Py.Ok scores) = Py.Ok scores'.
Proof.
  destruct (Py.gt m 0) eqn:E; [|eauto].
  apply PyFacts.gt_true in E. rewrite (PyFacts.div_pos _ _ E).
  eexists. reflexivity.
Qed.

Lemma bind_total {A B} (m : Py.result A) (k : A -> Py.result B) :
  (exists x, m = Py.Ok x) ->
  (forall x, exists r, k x = Py.Ok r) ->
  exists r, m ≫= k = Py.Ok r.
Proof. intros [x ->] Hk. apply Hk. Qed.

Lemma competitive_total buzz_data pulse_data company_id all_companies :
  exists r,
    calculate_competitive_score buzz_data pulse_data company_id all_companies
    = Py.Ok r.
Proof.
  unfold calculate_competitive_score.
  destruct (negb (buzz_truthy buzz_data) || negb (pulse_truthy pulse_data));
    [eauto|].
  cbv zeta.
  apply bind_total; [apply max_list_total|intros max_points].
  apply bind_total; [apply ratio_total|intros scores].
  apply bind_total; [apply max_list_total|intros max_activity].
  apply bind_total; [apply ratio_total|intros scores'].
  apply mean_or_none_total.
Qed.

(** The first pass returns a snapshot. *)
Theorem first_pass_total mood_data pulse_data stocks_data buzz_data :
  exists all_scores,
    first_pass mood_data pulse_data stocks_data buzz_data = Py.Ok all_scores
    /\ complete all_scores.
Proof.
  assert (Hrow : forall company,
             exists row,
               company_scores mood_data pulse_data stocks_data buzz_data company
               = Py.Ok row).
  { intros company. unfold company_scores.
    destruct (sentiment_total (mjoin (mood_data !! company)) buzz_data company)
      as [r1 ->].
    destruct (shipping_total pulse_data company) as [r2 ->].
    destruct (market_total stocks_data company) as [r3 ->].
    destruct (competitive_total buzz_data pulse_data company all_companies)
      as [r4 ->].
    eexists. reflexivity. }
  assert (Hrun : exists all_scores,
             first_pass mood_data pulse_data stocks_data buzz_data
             = Py.Ok all_scores).
  { unfold first_pass, all_companies. cbn [Py.for_each].
    destruct (Hrow "anthropic") as [r1 ->]. cbn [mbind Py.result_bind].
    destruct (Hrow "openai") as [r2 ->]. cbn [mbind Py.result_bind].
    destruct (Hrow "google") as [r3 ->]. cbn [mbind Py.result_bind].
    destruct (Hrow "meta") as [r4 ->]. cbn [mbind Py.result_bind].
    eexists. reflexivity. }
  destruct Hrun as [all_scores Hrun]. exists all_scores.
  split; [exact Hrun|]. exact (ForecastFacts.first_pass_complete _ _ _ _ _ Hrun).
Qed.

(** *** The second pass does not raise *)

Lemma vs_peers_total value all_values :
  exists r, calculate_vs_peers value all_values = Py.Ok r.
Proof.
  unfold calculate_vs_peers. destruct value as [v|]; [|eauto].
  destruct (negb (Py.truthy all_values)); [eauto|].
  destruct (omap id all_values) as [|w valid]; cbn [Py.truthy negb]; [eauto|].
  rewrite (PyFacts.div_pos _ _ (PyFacts.len_pos w valid)).
  eexists. reflexivity.
Qed.

Lemma signal_entry_total all_scores company signal_name :
  complete all_scores ->
  In company all_companies -> In signal_name signal_names ->
  exists r, signal_entry all_scores company signal_name = Py.Ok r.
Proof.
  intros Hcomplete Hc Hs. unfold signal_entry.
  apply bind_total; [apply Hcomplete; assumption|intros value].
  apply bind_total.
  { destruct (ForecastFacts.all_values_ok all_scores signal_name Hcomplete Hs)
      as (all_values & Hv & _). eauto. }
  intros all_values.
  apply bind_total; [apply vs_peers_total|intros delta]. eauto.
Qed.

Lemma composite_total all_scores company :
  complete all_scores -> In company all_companies ->
  exists r, composite_score all_scores company = Py.Ok r.
Proof.
  intros Hcomplete Hc. unfold composite_score.
  assert (Hrow : exists scores,
             Py.getitem all_scores company = Py.Ok scores
             /\ forall k, In k (map fst WEIGHTS) -> is_Some (scores !! k)).
  { destruct (Hcomplete company "sentiment" Hc ltac:(simpl; tauto)) as [v Hv].
    unfold score_of in Hv.
    destruct (Py.getitem all_scores company) as [scores|] eqn:E;
      [|discriminate Hv].
    exists scores. split; [reflexivity|]. intros k Hk.
    destruct (Hcomplete company k Hc Hk) as [v' Hv'].
    unfold score_of in Hv'. rewrite E in Hv'. cbn [mbind Py.result_bind] in Hv'.
    unfold Py.getitem in Hv'. destruct (scores !! k); [eauto|discriminate Hv']. }
  destruct Hrow as (scores & -> & Hkeys). cbn [mbind Py.result_bind].
  destruct (CompositeFacts.loop_accumulates scores WEIGHTS 0 0 Hkeys)
    as (x & y & Hrun & _).
  unfold composite_of, composite_loop. rewrite Hrun.
  cbn [mbind Py.result_bind].
  destruct (Py.gt y 0) eqn:E; [|eauto].
  apply PyFacts.gt_true in E. rewrite (PyFacts.div_pos _ _ E).
  eexists. reflexivity.
Qed.

(** Over a complete snapshot the second pass returns a forecast entry for
    every organisation of the roster. *)
Theorem forecast_total all_scores company :
  complete all_scores -> In company all_companies ->
  exists entry, forecast_of all_scores company = Py.Ok entry.
Proof.
  intros Hcomplete Hc. unfold forecast_of.
  assert (Hsignals : exists signals, signals_of all_scores company = Py.Ok signals).
  { destruct (ForecastFacts.comprehension_ok
                (signal_entry all_scores company) signal_names)
      as (signals & Hrun & _); [|eauto].
    intros s Hs. apply signal_entry_total; assumption. }
  destruct Hsignals as [signals Hsignals]. rewrite Hsignals.
  cbn [mbind Py.result_bind].
  destruct (composite_total all_scores company Hcomplete Hc) as [c ->].
  cbn [mbind Py.result_bind].
  destruct (SummaryFacts.summary_never_lists_weakness
              all_scores company signals (determine_weather c) Hsignals)
    as [strengths ->].
  eexists. reflexivity.
Qed.

(** [main] returns a forecast, whatever documents it is given. *)
Theorem main_total mood_data pulse_data stocks_data buzz_data :
  exists forecast, main mood_data pulse_data stocks_data buzz_data = Py.Ok forecast.
Proof.
  unfold main.
  destruct (first_pass_total mood_data pulse_data stocks_data buzz_data)
    as (all_scores & -> & Hcomplete).
  cbn [mbind Py.result_bind].
  destruct (ForecastFacts.comprehension_ok
              (fun company =>
                 f ← forecast_of all_scores company; Py.Ok (company, f))
              all_companies) as (forecast & Hrun & _); [|eauto].
  intros company Hc.
  destruct (forecast_total all_scores company Hcomplete Hc) as [entry ->].
  eexists. reflexivity.
Qed.

End TotalityFacts.

(** ** Ranges of the scores *)

Module RangeFacts.

Import CalculateWeather.

(** Rounding does not pass an integer bound from above. *)
Lemma round_half_even_ge (x : Q) (k : Z) :
  inject_Z k <= x -> (k <= Py.round_half_even x)%Z.
Proof.
  intros Hx. unfold Py.round_half_even.
  assert (Hf : (k <= Qfloor x)%Z)
    by (rewrite <- (Qfloor_Z k); apply Qfloor_resp_le, Hx).
  destruct (Qcompare _ _); [destruct (Z.even _)|..]; lia.
Qed.

(** [max(0, min(1, x))] lies in the unit interval, and is [x] there. *)
Lemma clamp_range (x : Q) : 0 <= Py.max 0 (Py.min 1 x) <= 1.
Proof.
  unfold Py.max, Py.min.
  destruct (Py.lt x 1) eqn:E1.
  - apply PyFacts.lt_true in E1.
    destruct (Py.gt x 0) eqn:E2.
    + apply PyFacts.gt_true in E2. lra.
    + lra.
  - destruct (Py.gt 1 0) eqn:E2; lra.
Qed.

Lemma clamp_inside (x : Q) : 0 <= x <= 1 -> Py.max 0 (Py.min 1 x) == x.
Proof.
  intros Hx. unfold Py.max, Py.min.
  destruct (Py.lt x 1) eqn:E1.
  - destruct (Py.gt x 0) eqn:E2; [reflexivity|].
    apply PyFacts.gt_false in E2. lra.
  - apply PyFacts.lt_false in E1.
    destruct (Py.gt 1 0) eqn:E2; [lra|].
    apply PyFacts.gt_false in E2. lra.
Qed.

(** A quotient by a positive number keeps the order. *)
Lemma ratio_bounds (n d lo hi : Q) :
  0 < d -> lo * d <= n <= hi * d -> lo <= n / d <= hi.
Proof.
  intros Hd [Hlo Hhi]. split.
  - apply Qle_shift_div_l; assumption.
  - apply Qle_shift_div_r; assumption.
Qed.

Lemma len_cons {A} (x : A) (l : list A) : Py.len (x :: l) == 1 + Py.len l.
Proof.
  unfold Py.len. cbn [List.length].
  rewrite Nat2Z.inj_succ, <- Z.add_1_l, inject_Z_plus. reflexivity.
Qed.

(** The sum of a list of numbers of an interval. *)
Lemma sum_bounds (l : list Q) (lo hi : Q) :
  Forall (fun x => lo <= x <= hi) l ->
  lo * Py.len l <= Py.sum l <= hi * Py.len l.
Proof.
  induction 1 as [|x l Hx _ IH].
  - rewrite PyFacts.sum_nil. change (Py.len (@nil Q)) with 0. lra.
  - rewrite PyFacts.sum_cons, len_cons. lra.
Qed.

Lemma sum_nonneg (l : list Q) : Forall (fun a => 0 <= a) l -> 0 <= Py.sum l.
Proof.
  induction 1 as [|x l Hx _ IH].
  - rewrite PyFacts.sum_nil. lra.
  - rewrite PyFacts.sum_cons. lra.
Qed.

(** The mean of a non-empty list of numbers of an interval lies in the
    interval. *)
Lemma mean_bounds (l : list Q) (lo hi : Q) :
  l <> [] -> Forall (fun x => lo <= x <= hi) l ->
  lo <= Py.sum l / Py.len l <= hi.
Proof.
  intros Hne Hl. apply ratio_bounds; [|apply sum_bounds, Hl].
  destruct l as [|x l]; [congruence|apply PyFacts.len_pos].
Qed.

Lemma mean_or_none_bounds (scores : list Q) (lo hi : Q) :
  Forall (fun x => lo <= x <= hi) scores ->
  exists r, mean_or_none scores = Py.Ok r
            /\ forall s, r = Some s -> lo <= s <= hi.
Proof.
  intros Hl. unfold mean_or_none.
  destruct scores as [|x scores]; cbn [Py.truthy].
  - eexists. split; [reflexivity|]. intros s Hs. discriminate Hs.
  - rewrite (PyFacts.div_pos _ _ (PyFacts.len_pos x scores)).
    eexists. split; [reflexivity|]. intros s Hs. injection Hs as <-.
    apply mean_bounds; [discriminate|exact Hl].
Qed.

(** X1.  [normalize_score] never raises and its result lies between 0 and
    1: it is 0.5 when the two bounds coincide, and the position of the
    value between the bounds when the value lies between them. *)
Theorem normalize_score_range (value min_val max_val : Q) :
  exists r,
    normalize_score value min_val max_val = Py.Ok r
    /\ 0 <= r <= 1
    /\ (max_val == min_val -> r == 0.5)
    /\ (min_val < max_val -> min_val <= value <= max_val ->
        r == (value - min_val) / (max_val - min_val)).
Proof.
  unfold normalize_score. destruct (Py.eq max_val min_val) eqn:E.
  - exists 0.5. split; [reflexivity|]. split; [lra|].
    split; [reflexivity|]. intros Hlt _.
    apply PyFacts.eq_true in E. lra.
  - apply PyFacts.eq_false in E.
    rewrite PyFacts.div_ok by lra. cbn [mbind Py.result_bind].
    eexists. split; [reflexivity|]. split; [apply clamp_range|].
    split; [intros Heq; contradiction|].
    intros Hlt Hv. apply clamp_inside.
    apply (ratio_bounds _ _ 0 1); lra.
Qed.

(** *** Sentiment score *)

(** A polarity of [[-1, 1]], rescaled, lies in the unit interval. *)
Lemma rescaled_range (p : Q) : -1 <= p <= 1 -> 0 <= (p + 1) / 2 <= 1.
Proof. intros Hp. apply ratio_bounds; lra. Qed.

(** The list that [calculate_sentiment_score] averages. *)
Lemma sentiment_scores_listed
  (mood_data : option mood_doc) (buzz_data : option buzz_doc)
  (company_id : string) :
  (forall p, Spec.blog_polarity mood_data = Some p -> -1 <= p <= 1) ->
  (forall p, Spec.forum_polarity buzz_data company_id = Some p ->
             -1 <= p <= 1) ->
  exists scores,
    calculate_sentiment_score mood_data buzz_data company_id
    = mean_or_none scores
    /\ Forall (fun x => 0 <= x <= 1) scores.
Proof.
  intros Hblog Hforum. unfold calculate_sentiment_score.
  eexists. split; [reflexivity|]. cbv zeta.
  assert (Hb : forall sentiment,
             mood_data ≫= md_sentiment = Some sentiment ->
             0 <= (default 0 (ms_score sentiment) + 1) / 2 <= 1).
  { intros sentiment Hs. apply rescaled_range.
    destruct (ms_score sentiment) as [p|] eqn:Ep;
      cbn [default from_option id]; [|lra].
    apply Hblog. unfold Spec.blog_polarity. rewrite Hs. exact Ep. }
  assert (Hf : forall companies,
             buzz_data ≫= bd_companies = Some companies ->
             0 <= (default 0
                     (bc_sentiment (default no_buzz (companies !! company_id)))
                   + 1) / 2 <= 1).
  { intros companies Hc. apply rescaled_range.
    destruct (companies !! company_id) as [b|] eqn:Eb;
      cbn [default from_option id no_buzz bc_sentiment]; [|lra].
    destruct (bc_sentiment b) as [p|] eqn:Ep;
      cbn [default from_option id]; [|lra].
    apply Hforum. unfold Spec.forum_polarity. rewrite Hc.
    cbn [mbind option_bind]. rewrite Eb. exact Ep. }
  destruct (mood_data ≫= md_sentiment) as [sentiment|];
    destruct (buzz_data ≫= bd_companies) as [companies|];
    cbn [app]; repeat apply Forall_cons; try apply Forall_nil; auto.
Qed.

(** X2.  With the blog polarity and the forum polarity of an organisation
    between -1 and 1 wherever they are stored, the sentiment score, when
    present, lies between 0 and 1. *)
Theorem sentiment_score_range
  (mood_data : option mood_doc) (buzz_data : option buzz_doc)
  (company_id : string) :
  (forall p, Spec.blog_polarity mood_data = Some p -> -1 <= p <= 1) ->
  (forall p, Spec.forum_polarity buzz_data company_id = Some p ->
             -1 <= p <= 1) ->
  exists r,
    calculate_sentiment_score mood_data buzz_data company_id = Py.Ok r
    /\ forall s, r = Some s -> 0 <= s <= 1.
Proof.
  intros Hblog Hforum.
  destruct (sentiment_scores_listed mood_data buzz_data company_id
              Hblog Hforum) as (scores & -> & Hscores).
  apply mean_or_none_bounds, Hscores.
Qed.

Lemma sentiment_score_range_witness :
  exists r,
    calculate_sentiment_score None (Some Samples.buzz_openai_only) "openai"
    = Py.Ok r
    /\ forall s, r = Some s -> 0 <= s <= 1.
Proof.
  apply sentiment_score_range.
  - intros p Hp. discriminate Hp.
  - intros p Hp. vm_compute in Hp. injection Hp as <-. lra.
Defined.

(** *** Shipping score *)

(** The average that [calculate_shipping_score] divides by three. *)
Lemma shipping_average (pulse_data : option pulse_doc) (company_id : string) :
  Forall (fun a => 0 <= a) (Spec.weekly_activity pulse_data company_id) ->
  calculate_shipping_score pulse_data company_id = Py.Ok None
  \/ exists avg_recent,
       0 <= avg_recent
       /\ calculate_shipping_score pulse_data company_id
          = Py.Ok (Some (Py.min 1.0 (avg_recent / 3.0))).
Proof.
  unfold Spec.weekly_activity, calculate_shipping_score.
  destruct (pulse_data ≫= pd_companies) as [companies|];
    cbn [default from_option id]; [|left; reflexivity].
  generalize (from_option id []
                (pc_activity (from_option id no_pulse (companies !! company_id)))).
  intros activity Hnn.
  destruct (Py.truthy activity) eqn:Ea; cbn [negb]; [|left; reflexivity].
  assert (Hrecent :
            exists x recent,
              (if (7 <=? List.length activity)%nat then Py.slice_to 7 activity
               else activity) = x :: recent
              /\ Forall (fun a => 0 <= a) (x :: recent)).
  { destruct activity as [|x activity]; [discriminate Ea|].
    destruct (7 <=? List.length (x :: activity))%nat.
    - unfold Py.slice_to. cbn [firstn]. eexists _, _. split; [reflexivity|].
      change (x :: firstn 6 activity) with (firstn 7 (x :: activity)).
      apply (Forall_take _ 7), Hnn.
    - eexists _, _. split; [reflexivity|exact Hnn]. }
  destruct Hrecent as (x & recent & -> & Hrec). cbn [Py.truthy].
  rewrite (PyFacts.div_pos _ _ (PyFacts.len_pos x recent)).
  cbn [mbind Py.result_bind].
  rewrite PyFacts.div_ok by lra. cbn [mbind Py.result_bind].
  right. eexists. split; [|reflexivity].
  apply Qle_shift_div_l; [apply PyFacts.len_pos|].
  rewrite Qmult_0_l. apply sum_nonneg, Hrec.
Qed.

Lemma capped_range (avg_recent : Q) :
  0 <= avg_recent -> 0 <= Py.min 1.0 (avg_recent / 3.0) <= 1.
Proof.
  intros Havg. unfold Py.min. destruct (Py.lt _ 1.0) eqn:E.
  - apply PyFacts.lt_true in E. split; [|lra].
    apply Qle_shift_div_l; lra.
  - lra.
Qed.

(** X3.  With no negative entry in the weekly series of an organisation,
    the shipping score, when present, lies between 0 and 1. *)
Theorem shipping_score_range
  (pulse_data : option pulse_doc) (company_id : string) :
  Forall (fun a => 0 <= a) (Spec.weekly_activity pulse_data company_id) ->
  exists r,
    calculate_shipping_score pulse_data company_id = Py.Ok r
    /\ forall s, r = Some s -> 0 <= s <= 1.
Proof.
  intros Hnn.
  destruct (shipping_average pulse_data company_id Hnn)
    as [->|(avg_recent & Havg & ->)];
    (eexists; split; [reflexivity|]); intros s Hs.
  - discriminate Hs.
  - injection Hs as <-. apply capped_range, Havg.
Qed.

Lemma shipping_score_range_witness :
  exists r,
    calculate_shipping_score
      (Some (Samples.pulse_of "openai" [0; 2; 5; 1; 0; 3; 4; 9]%Z)) "openai"
    = Py.Ok r
    /\ forall s, r = Some s -> 0 <= s <= 1.
Proof.
  apply shipping_score_range. vm_compute.
  repeat constructor; discriminate.
Defined.

(** *** Market score *)

(** The three shapes of a market score. *)
Lemma market_clamped (stocks_data : option stocks_doc) (company_id : string) :
  calculate_market_score stocks_data company_id = Py.Ok None
  \/ calculate_market_score stocks_data company_id = Py.Ok (Some 0.5)
  \/ exists r,
       calculate_market_score stocks_data company_id
       = Py.Ok (Some (Py.max 0 (Py.min 1 r))).
Proof.
  destruct (Nat.ltb_spec
              (List.length (Spec.price_samples stocks_data company_id)) 10)
    as [Hlt|Hge].
  - left. apply ScorerFacts.market_score_absent. right. exact Hlt.
  - right. rewrite (ScorerFacts.market_score_tracked stocks_data company_id Hge).
    destruct (Py.eq _ 0) eqn:E; [left; reflexivity|right].
    rewrite PyFacts.div_ok by (apply PyFacts.eq_false, E).
    cbn [mbind Py.result_bind]. eexists. reflexivity.
Qed.

(** X4.  The market score, when present, lies between 0 and 1, whatever
    closes are stored. *)
Theorem market_score_range
  (stocks_data : option stocks_doc) (company_id : string) :
  exists r,
    calculate_market_score stocks_data company_id = Py.Ok r
    /\ forall s, r = Some s -> 0 <= s <= 1.
Proof.
  destruct (market_clamped stocks_data company_id) as [->|[->|[r ->]]];
    (eexists; split; [reflexivity|]); intros s Hs.
  - discriminate Hs.
  - injection Hs as <-. lra.
  - injection Hs as <-. apply clamp_range.
Qed.

(** *** Competitive score *)

Lemma max_upper (a b : Q) : a <= Py.max a b /\ b <= Py.max a b.
Proof.
  unfold Py.max. destruct (Py.gt b a) eqn:E.
  - apply PyFacts.gt_true in E. lra.
  - apply PyFacts.gt_false in E. lra.
Qed.

Lemma fold_max_upper (l : list Q) (a : Q) :
  a <= fold_left Py.max l a /\ Forall (fun x => x <= fold_left Py.max l a) l.
Proof.
  revert a. induction l as [|x l IH]; intros a; cbn [fold_left].
  - split; [lra|constructor].
  - destruct (IH (Py.max a x)) as [Ha Hl].
    destruct (max_upper a x) as [H1 H2].
    split; [lra|]. constructor; [lra|exact Hl].
Qed.

(** [max(l)] is an upper bound of [l]. *)
Lemma max_list_upper (l : list Q) (x : Q) :
  In x l ->
  exists m,
    (if Py.truthy l then Py.max_list l else Py.Ok 1) = Py.Ok m /\ x <= m.
Proof.
  destruct l as [|y l]; [intros []|]. intros Hin.
  cbn [Py.truthy Py.max_list]. eexists. split; [reflexivity|].
  destruct (fold_max_upper l y) as [Hy Hl].
  destruct Hin as [->|Hin]; [exact Hy|].
  rewrite List.Forall_forall in Hl. apply Hl, Hin.
Qed.

(** One of the two ratios of the competitive score. *)
Lemma ratio_in_range (scores : list Q) (a m : Q) :
  0 <= a <= m ->
  Forall (fun x => 0 <= x <= 1) scores ->
  exists scores',
    (if Py.gt m 0
     then r ← Py.div a m; Py.Ok (scores ++ [r])%list
     else Py.Ok scores) = Py.Ok scores'
    /\ Forall (fun x => 0 <= x <= 1) scores'.
Proof.
  intros Ha Hs. destruct (Py.gt m 0) eqn:E; [|eauto].
  apply PyFacts.gt_true in E. rewrite (PyFacts.div_pos _ _ E).
  cbn [mbind Py.result_bind]. eexists. split; [reflexivity|].
  apply Forall_app. split; [exact Hs|]. constructor; [|constructor].
  apply ratio_bounds; [exact E|lra].
Qed.

(** The steps of [calculate_competitive_score], over the stored point
    totals and weekly series. *)
Lemma competitive_score_steps
  (buzz_data : option buzz_doc) (pulse_data : option pulse_doc)
  (company_id : string) (roster : list string) :
  calculate_competitive_score buzz_data pulse_data company_id roster
  = if negb (buzz_truthy buzz_data) || negb (pulse_truthy pulse_data)
    then Py.Ok None
    else
      let points := Spec.forum_points buzz_data in
      let activity :=
        fun c => Py.sum (Py.slice_to 7 (Spec.weekly_activity pulse_data c)) in
      max_points ←
        (if Py.truthy (map points roster) then Py.max_list (map points roster)
         else Py.Ok 1);
      scores ←
        (if Py.gt max_points 0
         then r ← Py.div (points company_id) max_points; Py.Ok ([] ++ [r])%list
         else Py.Ok []);
      max_activity ←
        (if Py.truthy (map activity roster)
         then Py.max_list (map activity roster) else Py.Ok 1);
      scores ←
        (if Py.gt max_activity 0
         then r ← Py.div (activity company_id) max_activity;
              Py.Ok (scores ++ [r])%list
         else Py.Ok scores);
      mean_or_none scores.
Proof. reflexivity. Qed.

(** The list that [calculate_competitive_score] averages. *)
Lemma competitive_scores_listed
  (buzz_data : option buzz_doc) (pulse_data : option pulse_doc)
  (company_id : string) (roster : list string) :
  In company_id roster ->
  0 <= Spec.forum_points buzz_data company_id ->
  Forall (fun a => 0 <= a) (Spec.weekly_activity pulse_data company_id) ->
  exists scores,
    calculate_competitive_score buzz_data pulse_data company_id roster
    = mean_or_none scores
    /\ Forall (fun x => 0 <= x <= 1) scores.
Proof.
  intros Hin Hpoints Hactivity. rewrite competitive_score_steps.
  destruct (negb (buzz_truthy buzz_data) || negb (pulse_truthy pulse_data)).
  { exists []. split; [reflexivity|constructor]. }
  cbv zeta.
  destruct (max_list_upper (map (Spec.forum_points buzz_data) roster)
              (Spec.forum_points buzz_data company_id))
    as (max_points & -> & Hmp); [apply in_map, Hin|].
  cbn [mbind Py.result_bind].
  destruct (ratio_in_range [] (Spec.forum_points buzz_data company_id)
              max_points) as (scores & -> & Hscores);
    [split; assumption|constructor|].
  cbn [mbind Py.result_bind].
  pose (activity :=
          fun c => Py.sum (Py.slice_to 7 (Spec.weekly_activity pulse_data c))).
  destruct (max_list_upper (map activity roster) (activity company_id))
    as (max_activity & Hrun & Hma); [apply in_map, Hin|].
  subst activity. cbv beta in Hrun, Hma. rewrite Hrun.
  cbn [mbind Py.result_bind].
  destruct (ratio_in_range scores
              (Py.sum (Py.slice_to 7 (Spec.weekly_activity pulse_data company_id)))
              max_activity)
    as (scores' & -> & Hscores'); [|exact Hscores|].
  { split; [|exact Hma]. apply sum_nonneg, (Forall_take _ 7), Hactivity. }
  cbn [mbind Py.result_bind]. exists scores'. split; [reflexivity|exact Hscores'].
Qed.

(** X5.  For an organisation of the roster whose stored point total and
    weekly entries are not negative, the competitive score, when present,
    lies between 0 and 1. *)
Theorem competitive_score_range
  (buzz_data : option buzz_doc) (pulse_data : option pulse_doc)
  (company_id : string) (roster : list string) :
  In company_id roster ->
  0 <= Spec.forum_points buzz_data company_id ->
  Forall (fun a => 0 <= a) (Spec.weekly_activity pulse_data company_id) ->
  exists r,
    calculate_competitive_score buzz_data pulse_data company_id roster
    = Py.Ok r
    /\ forall s, r = Some s -> 0 <= s <= 1.
Proof.
  intros Hin Hpoints Hactivity.
  destruct (competitive_scores_listed buzz_data pulse_data company_id roster
              Hin Hpoints Hactivity) as (scores & -> & Hscores).
  apply mean_or_none_bounds, Hscores.
Qed.

Lemma competitive_score_range_witness :
  exists r,
    calculate_competitive_score
      (Some Samples.buzz_openai_only)
      (Some (Samples.pulse_of "openai" [0; 2; 5; 1; 0; 3; 4; 9]%Z))
      "openai" all_companies
    = Py.Ok r
    /\ forall s, r = Some s -> 0 <= s <= 1.
Proof.
  apply competitive_score_range.
  - simpl. tauto.
  - vm_compute. discriminate.
  - vm_compute. repeat constructor; discriminate.
Defined.

(** *** Composite score *)

Lemma present_bounds (weights : list (string * Q))
  (scores : gmap string (option Q)) (lo hi : Q) :
  Forall (fun e => 0 < snd e) weights ->
  (forall k v, In k (map fst weights) -> scores !! k = Some (Some v) ->
               lo <= v <= hi) ->
  let present := Spec.present_signals weights scores in
  lo * Py.sum (map snd present)
  <= Py.sum (map (fun '(v, w) => v * w) present)
  <= hi * Py.sum (map snd present).
Proof.
  intros Hpos. cbv zeta. induction weights as [|[k w] ws IH]; intros Hv.
  - change (Spec.present_signals [] scores) with (@nil (Q * Q)).
    cbn [map]. rewrite PyFacts.sum_nil. lra.
  - inversion Hpos as [|? ? Hw Hpos']; subst. simpl in Hw.
    assert (IH' := IH Hpos' (fun k' v' Hk' => Hv k' v' (or_intror Hk'))).
    unfold Spec.present_signals in *. cbn [omap list_omap].
    destruct (scores !! k) as [[v|]|] eqn:Ek;
      cbn [mjoin option_join fmap option_fmap option_map]; try exact IH'.
    cbn [map snd]. rewrite !PyFacts.sum_cons.
    destruct (Hv k v (or_introl eq_refl) Ek) as [Hlo Hhi].
    assert (H1 : lo * w <= v * w) by (apply Qmult_le_compat_r; lra).
    assert (H2 : v * w <= hi * w) by (apply Qmult_le_compat_r; lra).
    lra.
Qed.

(** The composite of a row lies between bounds of its present scores. *)
Lemma composite_of_bounds (scores : gmap string (option Q)) (lo hi : Q) :
  (forall signal_name, In signal_name signal_names ->
                       is_Some (scores !! signal_name)) ->
  (forall signal_name v, In signal_name signal_names ->
                         scores !! signal_name = Some (Some v) ->
                         lo <= v <= hi) ->
  exists r,
    composite_of WEIGHTS scores = Py.Ok r
    /\ forall c, r = Some c -> lo <= c <= hi.
Proof.
  intros Hkeys Hrange.
  destruct (CompositeFacts.loop_accumulates scores WEIGHTS 0 0 Hkeys)
    as (x & y & Hrun & Hx & Hy).
  unfold composite_of, composite_loop. rewrite Hrun.
  cbn [mbind Py.result_bind].
  destruct (Py.gt y 0) eqn:E.
  2:{ eexists. split; [reflexivity|]. intros c Hc. discriminate Hc. }
  apply PyFacts.gt_true in E. rewrite (PyFacts.div_pos _ _ E).
  cbn [mbind Py.result_bind].
  eexists. split; [reflexivity|]. intros c Hc. injection Hc as <-.
  apply ratio_bounds; [exact E|].
  pose proof (present_bounds WEIGHTS scores lo hi
                CompositeFacts.weights_positive Hrange) as Hb.
  cbv zeta in Hb. rewrite Hx, Hy, !Qplus_0_l. exact Hb.
Qed.



End RangeFacts.

(** ** Order of the weather states *)

Module WeatherFacts.

Import CalculateWeather.

Lemma threshold_stormy : WEATHER_THRESHOLDS !!! "stormy" = -1.0.
Proof. reflexivity. Qed.

(** The state of a present score and the band of its adjusted value. *)
Lemma weather_band (score : Q) :
  let adjusted := score * 2 - 1 in
  let threshold := WEATHER_THRESHOLDS !!! determine_weather (Some score) in
  (threshold == 0.6 /\ 0.6 < adjusted)
  \/ (threshold == 0.3 /\ 0.3 < adjusted <= 0.6)
  \/ (threshold == 0.0 /\ 0.0 < adjusted <= 0.3)
  \/ (threshold == -0.3 /\ -0.3 < adjusted <= 0.0)
  \/ (threshold == -1.0 /\ adjusted <= -0.3).
Proof.
  cbv zeta.
  destruct (ClassifierFacts.determine_weather_bands score)
    as (Hsunny & Hpartly & Hcloudy & Hrainy & Hstormy).
  cbv zeta in Hsunny, Hpartly, Hcloudy, Hrainy, Hstormy.
  destruct (Qlt_le_dec 0.6 (score * 2 - 1)) as [H1|H1].
  { left. rewrite Hsunny by exact H1.
    rewrite ClassifierFacts.threshold_sunny. split; [reflexivity|exact H1]. }
  destruct (Qlt_le_dec 0.3 (score * 2 - 1)) as [H2|H2].
  { right; left. rewrite Hpartly by (split; assumption).
    rewrite ClassifierFacts.threshold_partly_cloudy.
    split; [reflexivity|split; assumption]. }
  destruct (Qlt_le_dec 0.0 (score * 2 - 1)) as [H3|H3].
  { right; right; left. rewrite Hcloudy by (split; assumption).
    rewrite ClassifierFacts.threshold_cloudy.
    split; [reflexivity|split; assumption]. }
  destruct (Qlt_le_dec (-0.3) (score * 2 - 1)) as [H4|H4].
  { right; right; right; left. rewrite Hrainy by (split; assumption).
    rewrite ClassifierFacts.threshold_rainy.
    split; [reflexivity|split; assumption]. }
  right; right; right; right. rewrite Hstormy by exact H4.
  rewrite threshold_stormy. split; [reflexivity|exact H4].
Qed.

(** X7.  The classifier is monotone: a higher composite score never gets a
    state with a lower threshold. *)
Theorem determine_weather_monotone (s1 s2 : Q) :
  s1 <= s2 ->
  WEATHER_THRESHOLDS !!! determine_weather (Some s1)
  <= WEATHER_THRESHOLDS !!! determine_weather (Some s2).
Proof.
  intros Hle.
  pose proof (weather_band s1) as B1. pose proof (weather_band s2) as B2.
  cbv zeta in B1, B2.
  destruct B1 as [[E1 H1]|[[E1 H1]|[[E1 H1]|[[E1 H1]|[E1 H1]]]]];
    destruct B2 as [[E2 H2]|[[E2 H2]|[[E2 H2]|[[E2 H2]|[E2 H2]]]]];
    rewrite E1, E2; lra.
Qed.

Lemma determine_weather_monotone_witness :
  WEATHER_THRESHOLDS !!! determine_weather (Some 0.3)
  <= WEATHER_THRESHOLDS !!! determine_weather (Some 0.9).
Proof. apply determine_weather_monotone. lra. Defined.

End WeatherFacts.

(** ** Peer deltas *)

Module PeerFacts.

Import CalculateWeather.













End PeerFacts.

(** ** The forecast written by [main] *)

Module OutputFacts.

Import CalculateWeather.

(** Rounding to two decimals stays inside the unit interval. *)
Lemma round2_unit (q : Q) : 0 <= q <= 1 -> 0 <= Py.round2 q <= 1.
Proof.
  intros [Hlo Hhi]. unfold Py.round2.
  assert (H0 : (0 <= Py.round_half_even (q * 100))%Z)
    by (apply FormatFacts.round_half_even_nonneg; lra).
  assert (H1 : (Py.round_half_even (q * 100) <= 100)%Z).
  { apply FormatFacts.round_half_even_le. change (inject_Z 100) with 100. lra. }
  unfold Qle. cbn [Qnum Qden]. lia.
Qed.

(** From an element-wise relation to a property of the results. *)
Lemma Forall2_results {A B} (R : A -> B -> Prop) (P : B -> Prop)
  (l : list A) (ys : list B) :
  Forall2 R l ys -> (forall x y, In x l -> R x y -> P y) -> Forall P ys.
Proof.
  induction 1 as [|x y l ys Hxy _ IH]; intros HP; constructor.
  - apply (HP x y); [left; reflexivity|exact Hxy].
  - apply IH. intros x' y' Hin. apply HP. right. exact Hin.
Qed.

Lemma Forall2_with_In {A B} (R : A -> B -> Prop) (l : list A) (ys : list B) :
  Forall2 R l ys -> Forall2 (fun x y => In x l /\ R x y) l ys.
Proof.
  induction 1 as [|x y l ys Hxy _ IH]; constructor.
  - split; [left; reflexivity|exact Hxy].
  - eapply Forall2_impl; [exact IH|].
    intros a b [Ha Hab]. split; [right; exact Ha|exact Hab].
Qed.

Lemma Forall2_keys {A B} (R : A -> A * B -> Prop) (l : list A)
  (ys : list (A * B)) :
  Forall2 R l ys -> (forall x y, R x y -> fst y = x) -> map fst ys = l.
Proof.
  induction 1 as [|x y l ys Hxy _ IH]; intros HR; [reflexivity|].
  cbn [map]. rewrite (HR x y Hxy), (IH HR). reflexivity.
Qed.

(** A [signals] entry carries the name of its signal and the rounded
    score of the snapshot. *)
Lemma signal_entry_inv all_scores company signal_name item :
  signal_entry all_scores company signal_name = Py.Ok item ->
  fst item = signal_name
  /\ exists v, score_of all_scores company signal_name = Py.Ok v
               /\ value (snd item) = Py.round2 <$> v.
Proof.
  unfold signal_entry.
  destruct (score_of all_scores company signal_name) as [v|]; [|discriminate].
  cbn [mbind Py.result_bind].
  destruct (Py.comprehension _ _) as [all_values|]; [|discriminate].
  cbn [mbind Py.result_bind].
  destruct (calculate_vs_peers v all_values) as [delta|]; [|discriminate].
  cbn [mbind Py.result_bind]. intros [= <-].
  split; [reflexivity|]. exists v. split; reflexivity.
Qed.

(** Every state that the classifier returns has an entry in
    [WEATHER_INFO]. *)
Lemma weather_info_listed (score : option Q) :
  is_Some (WEATHER_INFO !! determine_weather score).
Proof.
  destruct score as [score|]; [|eexists; reflexivity].
  unfold determine_weather.
  repeat (destruct (Py.gt _ _); [eexists; reflexivity|]).
  eexists. reflexivity.
Qed.

(** The forecast entry of an organisation, field by field. *)
Lemma forecast_of_entry all_scores company :
  complete all_scores -> In company all_companies ->
  exists entry composite,
    forecast_of all_scores company = Py.Ok entry
    /\ composite_score all_scores company = Py.Ok composite
    /\ fc_weather entry = determine_weather composite
    /\ WEATHER_INFO !! fc_weather entry = Some (fc_weather_info entry)
    /\ fc_score entry = Py.round2 <$> composite
    /\ Forall2 (fun signal_name item =>
                  signal_entry all_scores company signal_name = Py.Ok item)
               signal_names (fc_signals entry).
Proof.
  intros Hcomplete Hc. unfold forecast_of.
  destruct (ForecastFacts.comprehension_ok
              (signal_entry all_scores company) signal_names)
    as (signals & Hsignals & Hitems).
  { intros s Hs. apply TotalityFacts.signal_entry_total; assumption. }
  fold (signals_of all_scores company) in Hsignals. rewrite Hsignals.
  cbn [mbind Py.result_bind].
  destruct (TotalityFacts.composite_total all_scores company Hcomplete Hc)
    as [composite Hcomposite].
  rewrite Hcomposite. cbn [mbind Py.result_bind].
  destruct (SummaryFacts.summary_never_lists_weakness
              all_scores company signals (determine_weather composite) Hsignals)
    as [strengths ->].
  cbn [mbind Py.result_bind]. eexists _, composite.
  split; [reflexivity|]. split; [reflexivity|]. cbn [fc_weather fc_weather_info
    fc_score fc_signals].
  split; [reflexivity|].
  destruct (weather_info_listed composite) as [info Hinfo].
  rewrite Hinfo. cbn [default from_option id].
  split; [reflexivity|]. split; [reflexivity|exact Hitems].
Qed.

(** The entries of [main] are those of [forecast_of], in roster order. *)
Lemma main_entries mood_data pulse_data stocks_data buzz_data :
  exists all_scores forecast,
    first_pass mood_data pulse_data stocks_data buzz_data = Py.Ok all_scores
    /\ complete all_scores
    /\ main mood_data pulse_data stocks_data buzz_data = Py.Ok forecast
    /\ Forall2 (fun company item =>
                  In company all_companies
                  /\ fst item = company
                  /\ forecast_of all_scores company = Py.Ok (snd item))
               all_companies forecast.
Proof.
  destruct (TotalityFacts.first_pass_total
              mood_data pulse_data stocks_data buzz_data)
    as (all_scores & Hfirst & Hcomplete).
  exists all_scores. unfold main. rewrite Hfirst. cbn [mbind Py.result_bind].
  destruct (ForecastFacts.comprehension_ok
              (fun company =>
                 f ← forecast_of all_scores company; Py.Ok (company, f))
              all_companies) as (forecast & Hrun & Hitems).
  { intros company Hc.
    destruct (TotalityFacts.forecast_total all_scores company Hcomplete Hc)
      as [entry ->].
    eexists. reflexivity. }
  exists forecast. split; [reflexivity|]. split; [exact Hcomplete|].
  split; [exact Hrun|].
  apply Forall2_with_In in Hitems.
  eapply Forall2_impl; [exact Hitems|]. intros company item [Hc Hxy].
  cbv beta in Hxy.
  destruct (forecast_of all_scores company) as [entry|]; [|discriminate Hxy].
  cbn [mbind Py.result_bind] in Hxy. injection Hxy as <-.
  split; [exact Hc|]. split; reflexivity.
Qed.

(** X10.  Whatever documents it is given, [main] returns a forecast: one
    entry per organisation of the roster, in roster order, each with the
    four signals in order, with the [WEATHER_INFO] record of its own state
    (the fallback record is never needed), and with an absent score
    exactly when its state is [foggy]. *)
Theorem main_forecast_shape mood_data pulse_data stocks_data buzz_data :
  exists forecast,
    main mood_data pulse_data stocks_data buzz_data = Py.Ok forecast
    /\ map fst forecast = all_companies
    /\ Forall (fun item =>
                 map fst (fc_signals (snd item)) = signal_names
                 /\ WEATHER_INFO !! fc_weather (snd item)
                    = Some (fc_weather_info (snd item))
                 /\ (fc_score (snd item) = None
                     <-> fc_weather (snd item) = "foggy"))
              forecast.
Proof.
  destruct (main_entries mood_data pulse_data stocks_data buzz_data)
    as (all_scores & forecast & _ & Hcomplete & Hmain & Hitems).
  exists forecast. split; [exact Hmain|]. split.
  { apply (Forall2_keys _ _ _ Hitems). intros x y (_ & Hy & _). exact Hy. }
  apply (Forall2_results _ _ _ _ Hitems).
  intros company item _ (Hc & _ & Hentry).
  destruct (forecast_of_entry all_scores company Hcomplete Hc)
    as (entry & composite & Hrun & _ & Hweather & Hinfo & Hscore & Hsignals).
  rewrite Hentry in Hrun. injection Hrun as <-.
  split; [|split; [exact Hinfo|]].
  - apply (Forall2_keys _ _ _ Hsignals). intros x y Hy.
    apply (signal_entry_inv _ _ _ _ Hy).
  - rewrite Hscore, Hweather. destruct composite as [c|]; cbn.
    + split; [discriminate|]. intros H.
      destruct (ClassifierFacts.determine_weather_present c H).
    + split; reflexivity.
Qed.

(** *** Ranges of the numbers of the forecast *)

(** The rows of the snapshot are those of [company_scores]. *)
Lemma first_pass_rows mood_data pulse_data stocks_data buzz_data all_scores :
  first_pass mood_data pulse_data stocks_data buzz_data = Py.Ok all_scores ->
  forall company, In company all_companies ->
    exists row,
      all_scores !! company = Some row
      /\ company_scores mood_data pulse_data stocks_data buzz_data company
         = Py.Ok row.
Proof.
  unfold first_pass, all_companies. cbn [Py.for_each].
  destruct (company_scores _ _ _ _ "anthropic") as [r1|] eqn:E1; [|discriminate].
  destruct (company_scores _ _ _ _ "openai") as [r2|] eqn:E2; [|discriminate].
  destruct (company_scores _ _ _ _ "google") as [r3|] eqn:E3; [|discriminate].
  destruct (company_scores _ _ _ _ "meta") as [r4|] eqn:E4; [|discriminate].
  cbn [mbind Py.result_bind]. intros [= <-] company Hc.
  destruct Hc as [<-|[<-|[<-|[<-|[]]]]]; simplify_map_eq; eauto.
Qed.

(** With the stored polarities between -1 and 1 and no negative point
    total or weekly entry, the four scores of a row lie between 0 and
    1. *)
Lemma company_scores_bounded
  mood_data pulse_data stocks_data buzz_data company row :
  In company all_companies ->
  (forall p, Spec.blog_polarity (mjoin (mood_data !! company)) = Some p ->
             -1 <= p <= 1) ->
  (forall p, Spec.forum_polarity buzz_data company = Some p -> -1 <= p <= 1) ->
  0 <= Spec.forum_points buzz_data company ->
  Forall (fun a => 0 <= a) (Spec.weekly_activity pulse_data company) ->
  company_scores mood_data pulse_data stocks_data buzz_data company
  = Py.Ok row ->
  forall signal_name, In signal_name signal_names ->
    is_Some (row !! signal_name)
    /\ forall v, row !! signal_name = Some (Some v) -> 0 <= v <= 1.
Proof.
  intros Hc Hblog Hforum Hpoints Hactivity. unfold company_scores.
  destruct (RangeFacts.sentiment_scores_listed
              (mjoin (mood_data !! company)) buzz_data company Hblog Hforum)
    as (l1 & -> & Hl1).
  destruct (RangeFacts.mean_or_none_bounds l1 0 1 Hl1) as (r1 & -> & B1).
  cbn [mbind Py.result_bind].
  assert (S2 : exists r2,
             calculate_shipping_score pulse_data company = Py.Ok r2
             /\ forall s, r2 = Some s -> 0 <= s <= 1).
  { destruct (RangeFacts.shipping_average pulse_data company Hactivity)
      as [->|(avg_recent & Havg & ->)];
      (eexists; split; [reflexivity|]); intros s Hs;
      [discriminate Hs|].
    injection Hs as <-. apply RangeFacts.capped_range, Havg. }
  destruct S2 as (r2 & -> & B2). cbn [mbind Py.result_bind].
  assert (S3 : exists r3,
             calculate_market_score stocks_data company = Py.Ok r3
             /\ forall s, r3 = Some s -> 0 <= s <= 1).
  { destruct (RangeFacts.market_clamped stocks_data company)
      as [->|[->|[r ->]]];
      (eexists; split; [reflexivity|]); intros s Hs;
      [discriminate Hs|injection Hs as <-; lra|].
    injection Hs as <-. apply RangeFacts.clamp_range. }
  destruct S3 as (r3 & -> & B3). cbn [mbind Py.result_bind].
  destruct (RangeFacts.competitive_scores_listed
              buzz_data pulse_data company all_companies Hc Hpoints Hactivity)
    as (l4 & -> & Hl4).
  destruct (RangeFacts.mean_or_none_bounds l4 0 1 Hl4) as (r4 & -> & B4).
  cbn [mbind Py.result_bind]. intros [= <-] signal_name Hs.
  destruct Hs as [<-|[<-|[<-|[<-|[]]]]];
    (split; [eexists; simplify_map_eq; reflexivity|]);
    intros v Hv; simplify_map_eq; auto.
Qed.

(** X11.  With every stored polarity between -1 and 1 and no negative
    point total or weekly entry, every number of the forecast that [main]
    returns lies between 0 and 1: the composite score of each
    organisation and the value of each of its signals. *)
Theorem main_scores_in_unit_interval
  mood_data pulse_data stocks_data buzz_data :
  (forall company p,
      In company all_companies ->
      Spec.blog_polarity (mjoin (mood_data !! company)) = Some p ->
      -1 <= p <= 1) ->
  (forall company p,
      In company all_companies ->
      Spec.forum_polarity buzz_data company = Some p -> -1 <= p <= 1) ->
  (forall company,
      In company all_companies -> 0 <= Spec.forum_points buzz_data company) ->
  (forall company,
      In company all_companies ->
      Forall (fun a => 0 <= a) (Spec.weekly_activity pulse_data company)) ->
  exists forecast,
    main mood_data pulse_data stocks_data buzz_data = Py.Ok forecast
    /\ Forall (fun item =>
                 (forall c, fc_score (snd item) = Some c -> 0 <= c <= 1)
                 /\ Forall (fun signal =>
                              forall v, value (snd signal) = Some v ->
                                        0 <= v <= 1)
                           (fc_signals (snd item)))
              forecast.
Proof.
  intros Hblog Hforum Hpoints Hactivity.
  destruct (main_entries mood_data pulse_data stocks_data buzz_data)
    as (all_scores & forecast & Hfirst & Hcomplete & Hmain & Hitems).
  exists forecast. split; [exact Hmain|].
  apply (Forall2_results _ _ _ _ Hitems).
  intros company item _ (Hc & _ & Hentry).
  destruct (first_pass_rows _ _ _ _ _ Hfirst company Hc)
    as (row & Hrow & Hscores).
  pose proof (company_scores_bounded _ _ _ _ company row Hc
                (fun p => Hblog company p Hc) (fun p => Hforum company p Hc)
                (Hpoints company Hc) (Hactivity company Hc) Hscores) as Hb.
  destruct (forecast_of_entry all_scores company Hcomplete Hc)
    as (entry & composite & Hrun & Hcomp & _ & _ & Hscore & Hsignals).
  rewrite Hentry in Hrun. injection Hrun as <-. split.
  - intros c Hfc. rewrite Hscore in Hfc.
    destruct composite as [q|]; [|discriminate Hfc].
    injection Hfc as <-. apply round2_unit.
    unfold composite_score, Py.getitem in Hcomp. rewrite Hrow in Hcomp.
    cbn [mbind Py.result_bind] in Hcomp.
    destruct (RangeFacts.composite_of_bounds row 0 1
                (fun s Hs => proj1 (Hb s Hs)) (fun s v Hs => proj2 (Hb s Hs) v))
      as (r & Hr & Hbr).
    rewrite Hcomp in Hr. injection Hr as <-. apply Hbr. reflexivity.
  - apply (Forall2_results _ _ _ _ Hsignals).
    intros s signal Hs Hsignal.
    destruct (signal_entry_inv _ _ _ _ Hsignal) as (_ & v & Hv & Hval).
    intros q Hq. rewrite Hval in Hq.
    destruct v as [x|]; [|discriminate Hq]. injection Hq as <-.
    apply round2_unit.
    unfold score_of, Py.getitem in Hv. rewrite Hrow in Hv.
    cbn [mbind Py.result_bind] in Hv.
    destruct (row !! s) as [o|] eqn:E; [|discriminate Hv].
    injection Hv as ->. apply (proj2 (Hb s Hs)). exact E.
Qed.

Lemma main_scores_in_unit_interval_witness :
  exists forecast,
    main Samples.mood_files
         (Some (Samples.pulse_of "openai" Samples.weekly_counts))
         (Some (Samples.stocks_of "MSFT" Samples.falling_closes))
         (Some Samples.buzz_openai_only)
    = Py.Ok forecast
    /\ Forall (fun item =>
                 (forall c, fc_score (snd item) = Some c -> 0 <= c <= 1)
                 /\ Forall (fun signal =>
                              forall v, value (snd signal) = Some v ->
                                        0 <= v <= 1)
                           (fc_signals (snd item)))
              forecast.
Proof.
  apply main_scores_in_unit_interval.
  - intros company p [<-|[<-|[<-|[<-|[]]]]] Hp; vm_compute in Hp;
      try discriminate Hp; injection Hp as <-; lra.
  - intros company p [<-|[<-|[<-|[<-|[]]]]] Hp; vm_compute in Hp;
      try discriminate Hp; injection Hp as <-; lra.
  - intros company [<-|[<-|[<-|[<-|[]]]]]; vm_compute; discriminate.
  - intros company [<-|[<-|[<-|[<-|[]]]]]; vm_compute;
      repeat constructor; discriminate.
Defined.

(** *** The state and the score of an entry *)

Lemma round2_ge (k : Z) (q : Q) :
  inject_Z k <= q * 100 -> k # 100 <= Py.round2 q.
Proof.
  intros Hq. unfold Py.round2.
  pose proof (RangeFacts.round_half_even_ge _ _ Hq).
  unfold Qle. cbn [Qnum Qden]. lia.
Qed.

Lemma round2_le (k : Z) (q : Q) :
  q * 100 <= inject_Z k -> Py.round2 q <= k # 100.
Proof.
  intros Hq. unfold Py.round2.
  pose proof (FormatFacts.round_half_even_le _ _ Hq).
  unfold Qle. cbn [Qnum Qden]. lia.
Qed.

(** The state of a composite and the composite rounded to two decimals:
    rounding can bring the score onto the boundary of its band, not
    across it. *)
Lemma state_of_rounded (composite : Q) :
  let weather := determine_weather (Some composite) in
  let score := Py.round2 composite in
  (weather = "sunny" /\ 0.8 <= score)
  \/ (weather = "partly_cloudy" /\ 0.65 <= score <= 0.8)
  \/ (weather = "cloudy" /\ 0.5 <= score <= 0.65)
  \/ (weather = "rainy" /\ 0.35 <= score <= 0.5)
  \/ (weather = "stormy" /\ score <= 0.35).
Proof.
  cbv zeta.
  destruct (ClassifierFacts.determine_weather_bands composite)
    as (Hsunny & Hpartly & Hcloudy & Hrainy & Hstormy).
  cbv zeta in Hsunny, Hpartly, Hcloudy, Hrainy, Hstormy.
  pose proof (round2_ge 80 composite) as G80.
  pose proof (round2_le 80 composite) as L80.
  pose proof (round2_ge 65 composite) as G65.
  pose proof (round2_le 65 composite) as L65.
  pose proof (round2_ge 50 composite) as G50.
  pose proof (round2_le 50 composite) as L50.
  pose proof (round2_ge 35 composite) as G35.
  pose proof (round2_le 35 composite) as L35.
  change (inject_Z 80) with 80 in G80, L80.
  change (inject_Z 65) with 65 in G65, L65.
  change (inject_Z 50) with 50 in G50, L50.
  change (inject_Z 35) with 35 in G35, L35.
  destruct (Qlt_le_dec 0.6 (composite * 2 - 1)) as [H1|H1].
  { left. split; [apply Hsunny, H1|].
    apply Qle_trans with (80 # 100); [lra|apply G80; lra]. }
  destruct (Qlt_le_dec 0.3 (composite * 2 - 1)) as [H2|H2].
  { right; left. split; [apply Hpartly; split; assumption|]. split.
    - apply Qle_trans with (65 # 100); [lra|apply G65; lra].
    - apply Qle_trans with (80 # 100); [apply L80; lra|lra]. }
  destruct (Qlt_le_dec 0.0 (composite * 2 - 1)) as [H3|H3].
  { right; right; left. split; [apply Hcloudy; split; assumption|]. split.
    - apply Qle_trans with (50 # 100); [lra|apply G50; lra].
    - apply Qle_trans with (65 # 100); [apply L65; lra|lra]. }
  destruct (Qlt_le_dec (-0.3) (composite * 2 - 1)) as [H4|H4].
  { right; right; right; left. split; [apply Hrainy; split; assumption|]. split.
    - apply Qle_trans with (35 # 100); [lra|apply G35; lra].
    - apply Qle_trans with (50 # 100); [apply L50; lra|lra]. }
  right; right; right; right. split; [apply Hstormy, H4|].
  apply Qle_trans with (35 # 100); [apply L35; lra|lra].
Qed.

(** X12.  In every entry of the forecast that [main] returns, the state
    agrees with the score printed next to it up to the band boundaries:
    [sunny] comes with a score of at least 0.80, [partly_cloudy] with a
    score from 0.65 to 0.80, [cloudy] from 0.50 to 0.65, [rainy] from
    0.35 to 0.50 and [stormy] with a score of at most 0.35.  The state is
    taken from the composite before rounding, so a score printed on a
    boundary can carry either neighbouring state. *)
Theorem forecast_state_matches_score
  mood_data pulse_data stocks_data buzz_data :
  exists forecast,
    main mood_data pulse_data stocks_data buzz_data = Py.Ok forecast
    /\ Forall (fun item =>
                 forall score,
                   fc_score (snd item) = Some score ->
                   let weather := fc_weather (snd item) in
                   (weather = "sunny" /\ 0.8 <= score)
                   \/ (weather = "partly_cloudy" /\ 0.65 <= score <= 0.8)
                   \/ (weather = "cloudy" /\ 0.5 <= score <= 0.65)
                   \/ (weather = "rainy" /\ 0.35 <= score <= 0.5)
                   \/ (weather = "stormy" /\ score <= 0.35))
              forecast.
Proof.
  destruct (main_entries mood_data pulse_data stocks_data buzz_data)
    as (all_scores & forecast & _ & Hcomplete & Hmain & Hitems).
  exists forecast. split; [exact Hmain|].
  apply (Forall2_results _ _ _ _ Hitems).
  intros company item _ (Hc & _ & Hentry).
  destruct (forecast_of_entry all_scores company Hcomplete Hc)
    as (entry & composite & Hrun & _ & Hweather & _ & Hscore & _).
  rewrite Hentry in Hrun. injection Hrun as <-.
  intros score Hfc. cbv zeta. rewrite Hweather. rewrite Hscore in Hfc.
  destruct composite as [c|]; [|discriminate Hfc].
  injection Hfc as <-. apply state_of_rounded.
Qed.

End OutputFacts.

(** ** The weekly counters *)

Module ActivityFacts.

(** A counting loop returns the number of items that pass its test. *)
Lemma count_loop {R} (test : R -> bool) (step : Z -> R -> Z) (l : list R)
  (count : Z) :
  (forall c r, step c r = if test r then (c + 1)%Z else c) ->
  fold_left step l count = (count + Windows.tally test l)%Z.
Proof.
  intros Hstep. unfold Windows.tally. revert count.
  induction l as [|r l IH]; intros count; cbn [fold_left List.filter].
  - cbn. lia.
  - rewrite IH, Hstep. destruct (test r); cbn [List.length]; lia.
Qed.

(** The inner loops of the two scripts count the releases of a week. *)
Lemma changelog_count_week strptime_ymd now releases week :
  FetchChangelogs.count_week strptime_ymd now releases week
  = Windows.tally
      (Windows.in_week (Windows.changelog_date strptime_ymd) now week) releases.
Proof.
  unfold FetchChangelogs.count_week. rewrite (count_loop
    (Windows.in_week (Windows.changelog_date strptime_ymd) now week)).
  - lia.
  - intros c r. unfold Windows.in_week, Windows.changelog_date.
    destruct (Py.truthy_str (FetchChangelogs.date r)); [|reflexivity].
    destruct (strptime_ymd (FetchChangelogs.date r)); reflexivity.
Qed.

Lemma backfill_count_week today releases week :
  BackfillHistory.count_week today releases week
  = Windows.tally (Windows.in_week BackfillHistory.r_datetime today week)
      releases.
Proof.
  unfold BackfillHistory.count_week. rewrite (count_loop
    (Windows.in_week BackfillHistory.r_datetime today week)).
  - lia.
  - intros c r. unfold Windows.in_week.
    destruct (BackfillHistory.r_datetime r) as [d|]; [|reflexivity].
    replace (today - Datetime.timedelta_days (Z.of_nat week * 7)
             - Datetime.timedelta_days 7)%Z
      with (today - Datetime.timedelta_days ((Z.of_nat week + 1) * 7))%Z
      by (unfold Datetime.timedelta_days; lia).
    reflexivity.
Qed.

(** The weeks are disjoint and fill the span that they cover: an item
    dated in the last [n + 1] weeks is dated either in the last [n] weeks
    or in week [n]. *)
Lemma week_split {R} (dated : R -> option Datetime.datetime) now n (l : list R) :
  Windows.tally (Windows.in_last_weeks dated now (S n)) l
  = (Windows.tally (Windows.in_last_weeks dated now n) l
     + Windows.tally (Windows.in_week dated now n) l)%Z.
Proof.
  unfold Windows.tally. induction l as [|r l IH]; [reflexivity|].
  cbn [List.filter].
  assert (Hr : (Windows.in_last_weeks dated now (S n) r = true
                /\ ((Windows.in_last_weeks dated now n r = true
                     /\ Windows.in_week dated now n r = false)
                    \/ (Windows.in_last_weeks dated now n r = false
                        /\ Windows.in_week dated now n r = true)))
               \/ (Windows.in_last_weeks dated now (S n) r = false
                   /\ Windows.in_last_weeks dated now n r = false
                   /\ Windows.in_week dated now n r = false)).
  { unfold Windows.in_last_weeks, Windows.in_week, Datetime.within,
      Datetime.timedelta_days.
    destruct (dated r) as [d|]; [|right; auto].
    rewrite Nat2Z.inj_succ.
    repeat match goal with
           | |- context [(?a <=? ?b)%Z] => destruct (Z.leb_spec a b)
           | |- context [(?a <? ?b)%Z] => destruct (Z.ltb_spec a b)
           end; cbn [andb]; first [lia|auto 6]. }
  destruct Hr as [(-> & [[-> ->]|[-> ->]])|(-> & -> & ->)];
    cbn [List.length]; lia.
Qed.

Lemma total_app (a b : list Z) :
  Windows.total (a ++ b) = (Windows.total a + Windows.total b)%Z.
Proof.
  unfold Windows.total. induction a as [|x a IH]; cbn [app fold_right]; lia.
Qed.

Lemma total_rev (a : list Z) : Windows.total (rev a) = Windows.total a.
Proof.
  induction a as [|x a IH]; [reflexivity|].
  cbn [rev]. rewrite total_app, IH. unfold Windows.total. cbn [fold_right]. lia.
Qed.

(** The counts of the first [n] weeks add up to the number of items
    dated in the last [n] weeks. *)
Lemma weeks_total {R} (dated : R -> option Datetime.datetime) now (l : list R)
  (n : nat) :
  Windows.total
    (map (fun week => Windows.tally (Windows.in_week dated now week) l)
         (seq 0 n))
  = Windows.tally (Windows.in_last_weeks dated now n) l.
Proof.
  induction n as [|n IH].
  - cbn [seq map Windows.total fold_right]. unfold Windows.tally.
    replace (List.filter (Windows.in_last_weeks dated now 0) l) with (@nil R);
      [reflexivity|].
    symmetry. induction l as [|r l IHl]; [reflexivity|].
    cbn [List.filter].
    replace (Windows.in_last_weeks dated now 0 r) with false; [exact IHl|].
    unfold Windows.in_last_weeks, Datetime.within, Datetime.timedelta_days.
    destruct (dated r) as [d|]; [|reflexivity].
    repeat match goal with
           | |- context [(?a <=? ?b)%Z] => destruct (Z.leb_spec a b)
           | |- context [(?a <? ?b)%Z] => destruct (Z.ltb_spec a b)
           end; cbn [andb]; first [reflexivity|lia].
  - rewrite seq_S, map_app, total_app, IH, week_split. cbn [map Nat.add].
    unfold Windows.total. cbn [fold_right]. lia.
Qed.

Lemma tally_nonneg {R} (test : R -> bool) (l : list R) :
  (0 <= Windows.tally test l)%Z.
Proof. unfold Windows.tally. lia. Qed.

(** X13.  [calculate_real_activity] returns one count per week, none
    negative, and counts every release once: the counts add up to the
    number of releases dated in the [weeks] weeks that end at the moment
    of the run; a release without a date, or dated outside that span, is
    not counted at all. *)
Theorem real_activity_counts_once
  (today : Datetime.datetime) (releases : list BackfillHistory.release)
  (weeks : nat) :
  let activity := BackfillHistory.calculate_real_activity today releases weeks in
  List.length activity = weeks
  /\ Forall (fun count => (0 <= count)%Z) activity
  /\ Windows.total activity
     = Windows.tally
         (Windows.in_last_weeks BackfillHistory.r_datetime today weeks)
         releases.
Proof.
  cbv zeta. rewrite ScorerFacts.calculate_real_activity_oldest_first.
  split; [|split].
  - rewrite length_map, length_rev, length_seq. reflexivity.
  - apply List.Forall_forall. intros count Hin.
    apply in_map_iff in Hin. destruct Hin as (week & <- & _).
    rewrite backfill_count_week. apply tally_nonneg.
  - rewrite map_rev, total_rev.
    rewrite <- (weeks_total BackfillHistory.r_datetime today releases weeks).
    f_equal. apply map_ext. intros week. apply backfill_count_week.
Qed.

(** X14.  [calculate_activity] returns fourteen counts, none negative,
    that add up to the number of releases whose [date] is not empty,
    parses, and falls in the 98 days that end at the moment of the run:
    each such release is counted once, every other release not at all. *)
Theorem activity_counts_once
  (strptime_ymd : string -> option Datetime.datetime)
  (now : Datetime.datetime) (releases : list FetchChangelogs.release) :
  let activity := FetchChangelogs.calculate_activity strptime_ymd now releases in
  List.length activity = 14%nat
  /\ Forall (fun count => (0 <= count)%Z) activity
  /\ Windows.total activity
     = Windows.tally
         (fun r =>
            match Windows.changelog_date strptime_ymd r with
            | Some d =>
                Datetime.within (now - Datetime.timedelta_days 98)%Z d now
            | None => false
            end)
         releases.
Proof.
  cbv zeta. rewrite ScorerFacts.calculate_activity_oldest_first.
  split; [|split].
  - reflexivity.
  - apply List.Forall_forall. intros count Hin.
    apply in_map_iff in Hin. destruct Hin as (week & <- & _).
    rewrite changelog_count_week. apply tally_nonneg.
  - rewrite map_rev, total_rev.
    change (fun r => match Windows.changelog_date strptime_ymd r with
                     | Some d =>
                         Datetime.within
                           (now - Datetime.timedelta_days 98)%Z d now
                     | None => false
                     end)
      with (Windows.in_last_weeks
              (Windows.changelog_date strptime_ymd) now 14).
    rewrite <- (weeks_total (Windows.changelog_date strptime_ymd) now
                  releases 14).
    f_equal. apply map_ext. intros week. apply changelog_count_week.
Qed.




End ActivityFacts.

(** ** Mood files *)

Module MoodFacts.

Lemma round3_ge (k : Z) (q : Q) :
  inject_Z k <= q * 1000 -> k # 1000 <= Py.round3 q.
Proof.
  intros Hq. unfold Py.round3.
  pose proof (RangeFacts.round_half_even_ge _ _ Hq).
  unfold Qle. cbn [Qnum Qden]. lia.
Qed.

Lemma round3_le (k : Z) (q : Q) :
  q * 1000 <= inject_Z k -> Py.round3 q <= k # 1000.
Proof.
  intros Hq. unfold Py.round3.
  pose proof (FormatFacts.round_half_even_le _ _ Hq).
  unfold Qle. cbn [Qnum Qden]. lia.
Qed.

(** [round(q, 3)] of a polarity is a polarity. *)
Lemma round3_polarity (q : Q) : -1 <= q <= 1 -> -1 <= Py.round3 q <= 1.
Proof.
  intros [Hlo Hhi].
  pose proof (round3_ge (-1000) q) as H1. pose proof (round3_le 1000 q) as H2.
  change (inject_Z (-1000)) with (-1000) in H1.
  change (inject_Z 1000) with 1000 in H2.
  split; [apply Qle_trans with (-1000 # 1000)|apply Qle_trans with (1000 # 1000)];
    first [apply H1; lra|apply H2; lra|lra].
Qed.

(** *** The rolling history of [backfill-history.py] *)

Section History.

Import BackfillHistory.

Lemma insert_by_date_In (p q : post) (l : list post) :
  In q (insert_by_date p l) -> q = p \/ In q l.
Proof.
  induction l as [|x l IH]; cbn [insert_by_date].
  - intros [<-|[]]. left. reflexivity.
  - destruct (key p <=? key x)%Z.
    + intros [<-|H]; [left; reflexivity|right; exact H].
    + intros [<-|H]; [right; left; reflexivity|].
      destruct (IH H) as [->|H']; [left; reflexivity|right; right; exact H'].
Qed.

Lemma sort_by_date_In (q : post) (l : list post) :
  In q (sort_by_date l) -> In q l.
Proof.
  induction l as [|p l IH]; [intros []|].
  cbn [sort_by_date fold_right]. fold (sort_by_date l). intros H.
  destruct (insert_by_date_In _ _ _ H) as [->|H']; [left; reflexivity|].
  right. apply IH, H'.
Qed.

(** The mean sentiment of posts whose sentiments are polarities. *)
Lemma mean_sentiment_polarity (ps : list post) :
  ps <> [] ->
  (forall p s, In p ps -> p_sentiment p = Some s -> -1 <= s <= 1) ->
  exists m, mean_sentiment ps = Py.Ok m /\ -1 <= m <= 1.
Proof.
  intros Hne Hps. rewrite HistoryFacts.mean_sentiment_ok by exact Hne.
  eexists. split; [reflexivity|].
  assert (Hlen : Py.len ps
                 = Py.len (map (fun p => default 0 (p_sentiment p)) ps))
    by (unfold Py.len; rewrite length_map; reflexivity).
  rewrite Hlen. apply RangeFacts.mean_bounds.
  - destruct ps; [congruence|discriminate].
  - apply List.Forall_forall. intros x Hx.
    apply in_map_iff in Hx. destruct Hx as (p & <- & Hp).
    destruct (p_sentiment p) as [s|] eqn:Es; cbn [default from_option id];
      [exact (Hps p s Hp Es)|lra].
Qed.

Lemma last_item_In {A} (l : list A) (x : A) :
  Py.last_item l = Py.Ok x -> In x l.
Proof.
  unfold Py.last_item. induction l as [|y l IH]; [discriminate|].
  destruct l as [|z l].
  - cbn. intros [= <-]. left. reflexivity.
  - intros H. right. apply IH. exact H.
Qed.

(** A loop that keeps a property of its accumulator. *)
Lemma for_each_invariant {A B} (P : A -> Prop) (body : A -> B -> Py.result A)
  (l : list B) (acc : A) :
  P acc ->
  (forall a x, P a -> exists a', body a x = Py.Ok a' /\ P a') ->
  exists r, Py.for_each body l acc = Py.Ok r /\ P r.
Proof.
  intros Hacc Hbody. revert acc Hacc.
  induction l as [|x l IH]; intros acc Hacc; cbn [Py.for_each].
  - eauto.
  - destruct (Hbody acc x Hacc) as (a' & -> & Ha').
    cbn [mbind Py.result_bind]. apply IH, Ha'.
Qed.

(** X16.  With the sentiment of every post between -1 and 1, the rolling
    history is built without an exception and each of its points lies
    between -1 and 1. *)
Theorem mood_history_range
  (today : Datetime.datetime) (posts : list post) (days : nat) :
  (forall p s, In p posts -> p_sentiment p = Some s -> -1 <= s <= 1) ->
  exists history,
    build_mood_history today posts days = Py.Ok history
    /\ Forall (fun v => -1 <= v <= 1) history.
Proof.
  intros Hposts. unfold build_mood_history.
  destruct posts as [|p0 posts']; cbn [Py.truthy negb].
  { exists []. split; [reflexivity|constructor]. }
  set (posts := p0 :: posts') in *.
  set (dated := List.filter (fun p => bool_decide (is_Some (p_datetime p))) posts).
  destruct (Py.truthy dated) eqn:Ed; cbn [negb].
  - assert (Hne : sort_by_date dated <> []).
    { intros E. apply (f_equal (@List.length post)) in E.
      rewrite HistoryFacts.sort_by_date_length in E.
      destruct dated; [discriminate Ed|discriminate E]. }
    assert (Hdated : forall p s, In p (sort_by_date dated) ->
                                 p_sentiment p = Some s -> -1 <= s <= 1).
    { intros p s Hp. apply Hposts.
      apply sort_by_date_In in Hp. apply filter_In in Hp. apply Hp. }
    apply (for_each_invariant (Forall (fun v => -1 <= v <= 1)));
      [constructor|].
    intros history day_offset Hhistory. unfold day_value.
    assert (Havg : exists avg,
               (if Py.truthy (window_posts today (sort_by_date dated) day_offset)
                then mean_sentiment
                       (window_posts today (sort_by_date dated) day_offset)
                else if Py.truthy history then Py.last_item history
                     else mean_sentiment (sort_by_date dated)) = Py.Ok avg
               /\ -1 <= avg <= 1).
    { destruct (Py.truthy (window_posts _ _ _)) eqn:Ew.
      - apply mean_sentiment_polarity.
        + apply HistoryFacts.truthy_nonempty, Ew.
        + intros p s Hp. apply Hdated.
          unfold window_posts in Hp. apply filter_In in Hp. apply Hp.
      - destruct (Py.truthy history) eqn:Eh.
        + destruct history as [|h history]; [discriminate Eh|].
          rewrite (PyFacts.last_item_ok _ 0) by discriminate.
          eexists. split; [reflexivity|].
          rewrite List.Forall_forall in Hhistory. apply Hhistory.
          apply last_item_In. apply PyFacts.last_item_ok. discriminate.
        + apply mean_sentiment_polarity; assumption. }
    destruct Havg as (avg & -> & Havg). cbn [mbind Py.result_bind].
    eexists. split; [reflexivity|].
    apply Forall_app. split; [exact Hhistory|].
    constructor; [apply round3_polarity, Havg|constructor].
  - destruct (mean_sentiment_polarity posts) as (avg & -> & Havg);
      [discriminate|exact Hposts|].
    cbn [mbind Py.result_bind]. eexists. split; [reflexivity|].
    apply List.Forall_forall. intros v Hv. apply repeat_spec in Hv. subst v.
    apply round3_polarity, Havg.
Qed.

Lemma mood_history_range_witness :
  exists history,
    build_mood_history Samples.today Samples.posts 30 = Py.Ok history
    /\ Forall (fun v => -1 <= v <= 1) history.
Proof.
  apply mood_history_range. intros p s Hp Hs.
  destruct Hp as [<-|[<-|[<-|[<-|[]]]]]; injection Hs as <-; lra.
Defined.

End History.

(** *** The update of [analyze-sentiment.py] *)

Section Update.

Import CalculateWeather AnalyzeSentiment.

Variable analyze_sentiment : string -> Q.
Variable strip : string -> string.

(** The label of a mean and the mean rounded to three decimals: rounding
    can bring the stored score onto a threshold, not across it. *)
Lemma label_of_rounded (avg_score : Q) :
  (get_mood_label avg_score = "confident" /\ 0.1 <= Py.round3 avg_score)
  \/ (get_mood_label avg_score = "defensive" /\ Py.round3 avg_score <= -0.1)
  \/ (get_mood_label avg_score = "cautious"
      /\ -0.1 <= Py.round3 avg_score <= 0.1).
Proof.
  unfold get_mood_label.
  pose proof (MoodFacts.round3_ge 100 avg_score) as Hge.
  pose proof (MoodFacts.round3_le 100 avg_score) as Hle.
  pose proof (MoodFacts.round3_ge (-100) avg_score) as Hge'.
  pose proof (MoodFacts.round3_le (-100) avg_score) as Hle'.
  change (inject_Z 100) with 100 in Hge, Hle.
  change (inject_Z (-100)) with (-100) in Hge', Hle'.
  destruct (Py.gt avg_score 0.1) eqn:E1.
  - apply PyFacts.gt_true in E1. left. split; [reflexivity|].
    apply Qle_trans with (100 # 1000); [lra|apply Hge; lra].
  - apply PyFacts.gt_false in E1. right.
    destruct (Py.lt avg_score (-0.1)) eqn:E2.
    + apply PyFacts.lt_true in E2. left. split; [reflexivity|].
      apply Qle_trans with (-100 # 1000); [apply Hle'; lra|lra].
    + apply PyFacts.lt_false in E2. right. split; [reflexivity|]. split.
      * apply Qle_trans with (-100 # 1000); [lra|apply Hge'; lra].
      * apply Qle_trans with (100 # 1000); [apply Hle; lra|lra].
Qed.

(** The three outcomes of [update_mood_file]: nothing is written; the
    file is written with its sentiment and history as they were; or a new
    mean is stored and appended. *)
Lemma update_outcome (data : mood_file) :
  let posts := default [] (mf_posts data) in
  let scores := omap snd (map (analyze_post analyze_sentiment strip) posts) in
  let avg_score := Py.sum scores / Py.len scores in
  update_mood_file analyze_sentiment strip data = Py.Ok None
  \/ (exists data',
        update_mood_file analyze_sentiment strip data = Py.Ok (Some data')
        /\ mf_sentiment data' = mf_sentiment data
        /\ mf_history data' = mf_history data)
  \/ (exists data',
        update_mood_file analyze_sentiment strip data = Py.Ok (Some data')
        /\ scores <> []
        /\ mf_sentiment data'
           = Some {| ms_score := Some (Py.round3 avg_score);
                     ms_label := Some (get_mood_label avg_score) |}
        /\ mf_history data'
           = Some (Py.slice_last 30
                     (default [] (mf_history data) ++ [Py.round3 avg_score]))).
Proof.
  cbv zeta. unfold update_mood_file.
  destruct (Py.truthy (default [] (mf_posts data))); cbn [negb];
    [|left; reflexivity].
  right.
  destruct (omap snd (map (analyze_post analyze_sentiment strip)
                          (default [] (mf_posts data))))
    as [|score scores] eqn:E; cbn [Py.truthy].
  - left. eexists. split; [reflexivity|]. split; reflexivity.
  - right. rewrite (PyFacts.div_pos _ _ (PyFacts.len_pos score scores)).
    cbn [mbind Py.result_bind]. eexists. split; [reflexivity|].
    split; [discriminate|]. split; reflexivity.
Qed.




(** X18.  The label that [update_mood_file] stores agrees with the score
    stored next to it up to the thresholds: [confident] comes with a
    score of at least 0.1, [defensive] with a score of at most -0.1, and
    [cautious] with a score between -0.1 and 0.1.  The label is taken
    from the mean before rounding, so a stored score of exactly 0.1 or
    -0.1 can carry either label. *)
Theorem label_matches_stored_score (data : mood_file) :
  exists written,
    update_mood_file analyze_sentiment strip data = Py.Ok written
    /\ forall data', written = Some data' ->
         mf_sentiment data' = mf_sentiment data
         \/ exists score label,
              mf_sentiment data'
              = Some {| ms_score := Some score; ms_label := Some label |}
              /\ ((label = "confident" /\ 0.1 <= score)
                  \/ (label = "defensive" /\ score <= -0.1)
                  \/ (label = "cautious" /\ -0.1 <= score <= 0.1)).
Proof.
  destruct (update_outcome data)
    as [->|[(data' & -> & Hs & Hh)|(data' & -> & _ & Hs & Hh)]];
    (eexists; split; [reflexivity|]); intros d Hd.
  - discriminate Hd.
  - injection Hd as <-. left. exact Hs.
  - injection Hd as <-. right. eexists _, _. split; [exact Hs|].
    apply label_of_rounded.
Qed.

(** The scores that the loop collects are values of the analyser. *)
Lemma analysed_scores (posts : list post) (P : Q -> Prop) :
  (forall text, P (analyze_sentiment text)) ->
  Forall P (omap snd (map (analyze_post analyze_sentiment strip) posts)).
Proof.
  intros HP. induction posts as [|p posts IH]; [constructor|].
  cbn [map omap list_omap]. unfold analyze_post at 1.
  destruct (Py.truthy_str (strip (post_text p))); cbn [snd]; [|exact IH].
  constructor; [apply HP|exact IH].
Qed.

(** X19.  With an analyser whose polarities lie between -1 and 1,
    [update_mood_file] keeps a mood file within the range that the
    sentiment score of [calculate-weather.py] relies on: if the stored
    polarity and the history points lay between -1 and 1 before the
    update, they do so after it. *)
Theorem update_keeps_polarities (data : mood_file) :
  (forall text, -1 <= analyze_sentiment text <= 1) ->
  (forall p, Spec.blog_polarity (Some (as_mood_doc data)) = Some p ->
             -1 <= p <= 1) ->
  Forall (fun v => -1 <= v <= 1) (default [] (mf_history data)) ->
  exists written,
    update_mood_file analyze_sentiment strip data = Py.Ok written
    /\ forall data', written = Some data' ->
         (forall p, Spec.blog_polarity (Some (as_mood_doc data')) = Some p ->
                    -1 <= p <= 1)
         /\ Forall (fun v => -1 <= v <= 1) (default [] (mf_history data')).
Proof.
  intros Hanalyser Hpolarity Hhistory.
  destruct (update_outcome data)
    as [->|[(data' & -> & Hs & Hh)|(data' & -> & Hne & Hs & Hh)]];
    (eexists; split; [reflexivity|]); intros d Hd.
  - discriminate Hd.
  - injection Hd as <-. unfold Spec.blog_polarity, as_mood_doc in *.
    cbn [mbind option_bind md_sentiment] in *. rewrite Hs, Hh.
    split; assumption.
  - injection Hd as <-.
    assert (Havg : -1 <= Py.round3
                           (Py.sum (omap snd (map (analyze_post analyze_sentiment strip)
                                                  (default [] (mf_posts data))))
                            / Py.len (omap snd (map (analyze_post analyze_sentiment strip)
                                                    (default [] (mf_posts data)))))
                   <= 1).
    { apply MoodFacts.round3_polarity, RangeFacts.mean_bounds; [exact Hne|].
      apply analysed_scores, Hanalyser. }
    split.
    + intros p. unfold Spec.blog_polarity, as_mood_doc.
      cbn [mbind option_bind md_sentiment]. rewrite Hs.
      cbn [ms_score]. intros [= <-]. exact Havg.
    + rewrite Hh. cbn [default from_option id]. unfold Py.slice_last.
      apply Forall_drop, Forall_app. split; [exact Hhistory|].
      constructor; [exact Havg|constructor].
Qed.

End Update.

Lemma update_keeps_polarities_witness :
  exists written,
    AnalyzeSentiment.update_mood_file
      (fun _ => 0.25) Samples.strip_sample Samples.mood_file
    = Py.Ok written
    /\ forall data', written = Some data' ->
         (forall p,
             Spec.blog_polarity (Some (AnalyzeSentiment.as_mood_doc data'))
             = Some p ->
             -1 <= p <= 1)
         /\ Forall (fun v => -1 <= v <= 1)
                   (default [] (AnalyzeSentiment.mf_history data')).
Proof.
  apply (update_keeps_polarities (fun _ => 0.25) Samples.strip_sample
           Samples.mood_file).
  - intros _. lra.
  - intros p Hp. discriminate Hp.
  - repeat constructor; cbn; lra.
Defined.

End MoodFacts.

(** ** The buzz data of [fetch-hackernews.py] *)

Module BuzzFacts.

Import FetchHackernews.

(** [sum(1 for x in l if test(x))] is the number of items that pass. *)
Lemma count_if_len {A} (test : A -> bool) (l : list A) :
  count_if test l == Py.len (List.filter test l).
Proof.
  unfold count_if. induction (List.filter test l) as [|x f IH].
  - reflexivity.
  - cbn [map]. rewrite PyFacts.sum_cons, RangeFacts.len_cons, IH. reflexivity.
Qed.

Lemma len_le {A} (a b : list A) :
  (List.length a <= List.length b)%nat -> Py.len a <= Py.len b.
Proof. intros H. unfold Py.len. rewrite <- Zle_Qle. lia. Qed.

Lemma count_if_range {A} (test : A -> bool) (l : list A) :
  0 <= count_if test l <= Py.len l.
Proof.
  rewrite count_if_len. split.
  - unfold Py.len. change 0 with (inject_Z 0). rewrite <- Zle_Qle. lia.
  - apply len_le, filter_length_le.
Qed.

Section Sentiment.

Variable words_of : string -> list string.

(** The two counts of [calculate_title_sentiment], and the share that
    it returns. *)
Lemma title_sentiment_steps (title : option string) :
  exists positive_count negative_count,
    0 <= positive_count /\ 0 <= negative_count
    /\ calculate_title_sentiment words_of title
       = (if Py.eq (positive_count + negative_count) 0 then Py.Ok 0.0
          else Py.div (positive_count - negative_count)
                      (positive_count + negative_count)).
Proof.
  unfold calculate_title_sentiment.
  destruct (Py.truthy_str (default EmptyString title)); cbn [negb].
  - cbv zeta. eexists _, _. split; [|split; [|reflexivity]];
      apply count_if_range.
  - exists 0, 0. split; [lra|]. split; [lra|reflexivity].
Qed.

Lemma signed_share_range (positive_count negative_count : Q) :
  0 <= positive_count -> 0 <= negative_count ->
  exists s,
    (if Py.eq (positive_count + negative_count) 0 then Py.Ok 0.0
     else Py.div (positive_count - negative_count)
                 (positive_count + negative_count)) = Py.Ok s
    /\ -1 <= s <= 1.
Proof.
  intros Hp Hn. destruct (Py.eq _ 0) eqn:E.
  { eexists. split; [reflexivity|lra]. }
  apply PyFacts.eq_false in E. rewrite PyFacts.div_ok by exact E.
  eexists. split; [reflexivity|]. apply RangeFacts.ratio_bounds; lra.
Qed.

(** X20.  [calculate_title_sentiment] never raises and returns a number
    between -1 and 1, whatever the title and however it is split into
    words. *)
Theorem title_sentiment_range (title : option string) :
  exists s,
    calculate_title_sentiment words_of title = Py.Ok s /\ -1 <= s <= 1.
Proof.
  destruct (title_sentiment_steps title) as (p & n & Hp & Hn & ->).
  apply signed_share_range; assumption.
Qed.

(** *** Stories are kept once *)

Lemma existsb_eqb (x : string) (l : list string) :
  existsb (String.eqb x) l = true <-> In x l.
Proof.
  split.
  - intros H. apply List.existsb_exists in H. destruct H as (y & Hy & E).
    apply String.eqb_eq in E. subst y. exact Hy.
  - intros H. apply List.existsb_exists. exists x.
    split; [exact H|apply String.eqb_refl].
Qed.

(** The two loops run over the stories of all searches in turn. *)
Lemma collect_stories_flat (fetched : list (list story)) :
  collect_stories fetched = fold_left add_story (concat fetched) [].
Proof.
  unfold collect_stories. generalize (@nil (string * story)).
  induction fetched as [|stories fetched IH]; intros acc; [reflexivity|].
  cbn [fold_left concat]. rewrite fold_left_app. apply IH.
Qed.

(** What the loop adds to [all_stories]. *)
Lemma add_stories_spec (l : list story) (acc : list (string * story)) :
  NoDup (map fst acc) ->
  let all_stories := fold_left add_story l acc in
  NoDup (map fst all_stories)
  /\ (forall story_id,
         In story_id (map fst all_stories)
         <-> In story_id (map fst acc)
             \/ (story_id <> EmptyString
                 /\ exists s, In s l /\ objectID s = Some story_id))
  /\ (forall entry,
         In entry all_stories ->
         In entry acc
         \/ (objectID (snd entry) = Some (fst entry) /\ In (snd entry) l)).
Proof.
  cbv zeta. revert acc. induction l as [|x l IH]; intros acc Hnd.
  - cbn [fold_left]. split; [exact Hnd|]. split.
    + intros story_id. split; [auto|].
      intros [H|(_ & s & [] & _)]. exact H.
    + auto.
  - cbn [fold_left].
    assert (Hstep :
              NoDup (map fst (add_story acc x))
              /\ (forall story_id,
                     In story_id (map fst (add_story acc x))
                     <-> In story_id (map fst acc)
                         \/ (story_id <> EmptyString
                             /\ objectID x = Some story_id))
              /\ (forall entry,
                     In entry (add_story acc x) ->
                     In entry acc
                     \/ (objectID (snd entry) = Some (fst entry)
                         /\ snd entry = x))).
    { unfold add_story.
      destruct (objectID x) as [i|] eqn:Ei; cbn [default from_option id].
      - destruct (Py.truthy_str i) eqn:Et; cbn [andb].
        + destruct (existsb (String.eqb i) (map fst acc)) eqn:Ex; cbn [negb].
          * apply existsb_eqb in Ex. split; [exact Hnd|]. split; [|auto].
            intros story_id. split; [auto|].
            intros [H|[_ [= <-]]]; [exact H|exact Ex].
          * assert (Hni : ~ In i (map fst acc)).
            { intros H. apply existsb_eqb in H. congruence. }
            rewrite map_app. cbn [map fst]. split; [|split].
            -- apply NoDup_app. split; [exact Hnd|]. split.
               ++ intros y Hy Hy'. apply list_elem_of_In in Hy.
                  apply list_elem_of_In in Hy'. destruct Hy' as [<-|[]]. exact (Hni Hy).
               ++ apply NoDup_singleton.
            -- intros story_id. rewrite in_app_iff. cbn [In]. split.
               ++ intros [H|[<-|[]]]; [left; exact H|right].
                  split; [|reflexivity]. intros ->. discriminate Et.
               ++ intros [H|[_ [= <-]]]; [left; exact H|right; left; reflexivity].
            -- intros entry Hentry. apply in_app_iff in Hentry.
               destruct Hentry as [H|[<-|[]]]; [left; exact H|right].
               split; [exact Ei|reflexivity].
        + split; [exact Hnd|]. split; [|auto].
          intros story_id. split; [auto|].
          intros [H|[Hne [= <-]]]; [exact H|].
          destruct i; [contradiction|discriminate Et].
      - cbn [Py.truthy_str andb]. split; [exact Hnd|]. split; [|auto].
        intros story_id. split; [auto|].
        intros [H|[_ E]]; [exact H|discriminate E]. }
    destruct Hstep as (Hnd' & Hids & Hentries).
    destruct (IH (add_story acc x) Hnd') as (Hnd'' & Hids' & Hentries').
    split; [exact Hnd''|]. split.
    + intros story_id. rewrite Hids', Hids. split.
      * intros [[H|(Hne & Hx)]|(Hne & s & Hs & Es)].
        -- left. exact H.
        -- right. split; [exact Hne|]. exists x. split; [left; reflexivity|exact Hx].
        -- right. split; [exact Hne|]. exists s. split; [right; exact Hs|exact Es].
      * intros [H|(Hne & s & [<-|Hs] & Es)].
        -- left. left. exact H.
        -- left. right. split; assumption.
        -- right. split; [exact Hne|]. exists s. split; assumption.
    + intros entry Hentry.
      destruct (Hentries' entry Hentry) as [H|(Ho & Hs)].
      * destruct (Hentries entry H) as [H'|(Ho & Hs)]; [left; exact H'|right].
        split; [exact Ho|]. left. symmetry. exact Hs.
      * right. split; [exact Ho|right; exact Hs].
Qed.

(** X21.  [fetch_company_data] keeps every story once: no [objectID]
    occurs twice among the stories it aggregates, the identifiers kept
    are exactly the non-empty identifiers of the stories returned by the
    searches, and every story kept is one of these, filed under its own
    identifier. *)
Theorem stories_kept_once (fetched : list (list story)) :
  let all_stories := collect_stories fetched in
  NoDup (map fst all_stories)
  /\ (forall story_id,
         In story_id (map fst all_stories)
         <-> story_id <> EmptyString
             /\ exists stories s,
                  In stories fetched /\ In s stories
                  /\ objectID s = Some story_id)
  /\ (forall entry,
         In entry all_stories ->
         objectID (snd entry) = Some (fst entry)
         /\ exists stories, In stories fetched /\ In (snd entry) stories).
Proof.
  cbv zeta. rewrite collect_stories_flat.
  destruct (add_stories_spec (concat fetched) [] NoDup_nil_2)
    as (Hnd & Hids & Hentries).
  split; [exact Hnd|]. split.
  - intros story_id. rewrite Hids. split.
    + intros [[]|(Hne & s & Hs & Es)]. split; [exact Hne|].
      apply in_concat in Hs. destruct Hs as (stories & H1 & H2).
      exists stories, s. auto.
    + intros (Hne & stories & s & H1 & H2 & Es). right. split; [exact Hne|].
      exists s. split; [|exact Es]. apply in_concat. exists stories. auto.
  - intros entry Hentry. destruct (Hentries entry Hentry) as [[]|(Ho & Hs)].
    split; [exact Ho|]. apply in_concat in Hs. exact Hs.
Qed.

(** *** The aggregated metrics *)

(** The title sentiments of a list of stories. *)
Lemma sentiments_listed (stories : list story) :
  exists sentiments,
    Py.comprehension
      (fun s => calculate_title_sentiment words_of (story_title s)) stories
    = Py.Ok sentiments
    /\ Forall (fun x => -1 <= x <= 1) sentiments.
Proof.
  induction stories as [|s stories IH]; cbn [Py.comprehension].
  - exists []. split; [reflexivity|constructor].
  - destruct (title_sentiment_steps (story_title s)) as (p & n & Hp & Hn & ->).
    destruct (signed_share_range p n Hp Hn) as (x & -> & Hx).
    destruct IH as (sentiments & -> & Hs).
    cbn [mbind Py.result_bind]. eexists. split; [reflexivity|].
    constructor; assumption.
Qed.

(** The record that [fetch_company_data] returns. *)
Lemma company_data_fields (fetched : list (list story)) :
  let stories_list := map snd (collect_stories fetched) in
  exists avg_sentiment,
    -1 <= avg_sentiment <= 1
    /\ fetch_company_data words_of fetched
       = Py.Ok {| stories_7d := Py.len stories_list;
                  total_points := Py.sum (map points_of stories_list);
                  total_comments := Py.sum (map comments_of stories_list);
                  frontpage_hits :=
                    count_if (fun s => Py.ge (points_of s) 100) stories_list;
                  sentiment := Py.round3 avg_sentiment;
                  top_stories := Py.slice_to 5 (sort_by_points stories_list) |}.
Proof.
  cbv zeta. unfold fetch_company_data.
  destruct (sentiments_listed (map snd (collect_stories fetched)))
    as (sentiments & -> & Hs).
  cbn [mbind Py.result_bind].
  destruct sentiments as [|x sentiments]; cbn [Py.truthy].
  - cbn [mbind Py.result_bind]. exists 0.0. split; [lra|reflexivity].
  - rewrite (PyFacts.div_pos _ _ (PyFacts.len_pos x sentiments)).
    cbn [mbind Py.result_bind]. eexists. split; [|reflexivity].
    apply RangeFacts.mean_bounds; [discriminate|exact Hs].
Qed.


(** *** The top stories *)

Lemma insert_by_points_perm (s : story) (l : list story) :
  Permutation (insert_by_points s l) (s :: l).
Proof.
  induction l as [|q l IH]; cbn [insert_by_points]; [reflexivity|].
  destruct (Py.ge (points_of s) (points_of q)); [reflexivity|].
  rewrite IH. apply perm_swap.
Qed.

Lemma sort_by_points_perm (l : list story) : Permutation (sort_by_points l) l.
Proof.
  induction l as [|s l IH]; [reflexivity|].
  cbn [sort_by_points fold_right]. fold (sort_by_points l).
  rewrite insert_by_points_perm, IH. reflexivity.
Qed.

Lemma insert_by_points_sorted (s : story) (l : list story) :
  StronglySorted (fun a b => points_of b <= points_of a) l ->
  StronglySorted (fun a b => points_of b <= points_of a)
                 (insert_by_points s l).
Proof.
  induction 1 as [|q l Hl IH Hq]; cbn [insert_by_points].
  - constructor; constructor.
  - destruct (Py.ge (points_of s) (points_of q)) eqn:E.
    + apply PyFacts.ge_true in E. constructor.
      * constructor; assumption.
      * constructor; [exact E|].
        rewrite List.Forall_forall in Hq |- *. intros x Hx.
        specialize (Hq x Hx). lra.
    + assert (Hlt : points_of s < points_of q).
      { unfold Py.ge in E. apply Bool.negb_false_iff in E.
        apply PyFacts.lt_true, E. }
      constructor; [exact IH|].
      apply List.Forall_forall. intros x Hx.
      apply (Permutation_in _ (insert_by_points_perm s l)) in Hx.
      destruct Hx as [<-|Hx]; [lra|].
      rewrite List.Forall_forall in Hq. apply Hq, Hx.
Qed.

Lemma sort_by_points_sorted (l : list story) :
  StronglySorted (fun a b => points_of b <= points_of a) (sort_by_points l).
Proof.
  induction l as [|s l IH]; [constructor|].
  cbn [sort_by_points fold_right]. fold (sort_by_points l).
  apply insert_by_points_sorted, IH.
Qed.

Lemma sorted_split {A} (R : A -> A -> Prop) (a b : list A) :
  StronglySorted R (a ++ b) ->
  StronglySorted R a /\ forall x y, In x a -> In y b -> R x y.
Proof.
  induction a as [|h a IH]; cbn [app]; intros H.
  - split; [constructor|]. intros x y [].
  - inversion H as [|? ? Hs Hh]; subst. destruct (IH Hs) as [Ha Hab].
    rewrite List.Forall_forall in Hh. split.
    + constructor; [exact Ha|]. apply List.Forall_forall. intros x Hx.
      apply Hh, in_or_app. left. exact Hx.
    + intros x y [<-|Hx] Hy; [|exact (Hab x y Hx Hy)].
      apply Hh, in_or_app. right. exact Hy.
Qed.

(** X23.  The top stories are the five highest-scoring stories kept, or
    all of them when fewer are kept, in descending order of points: no
    story left out has more points than a story listed. *)
Theorem top_stories_are_highest (fetched : list (list story)) :
  exists data rest,
    fetch_company_data words_of fetched = Py.Ok data
    /\ Permutation (top_stories data ++ rest)
                   (map snd (collect_stories fetched))
    /\ List.length (top_stories data)
       = Nat.min 5 (List.length (collect_stories fetched))
    /\ StronglySorted (fun a b => points_of b <= points_of a)
                      (top_stories data)
    /\ (forall t r, In t (top_stories data) -> In r rest ->
                    points_of r <= points_of t).
Proof.
  destruct (company_data_fields fetched) as (avg_sentiment & _ & ->).
  set (stories_list := map snd (collect_stories fetched)).
  exists {| stories_7d := Py.len stories_list;
            total_points := Py.sum (map points_of stories_list);
            total_comments := Py.sum (map comments_of stories_list);
            frontpage_hits :=
              count_if (fun s => Py.ge (points_of s) 100) stories_list;
            sentiment := Py.round3 avg_sentiment;
            top_stories := Py.slice_to 5 (sort_by_points stories_list) |},
         (skipn 5 (sort_by_points stories_list)).
  split; [reflexivity|]. cbn [top_stories]. unfold Py.slice_to.
  pose proof (sort_by_points_sorted stories_list) as Hsorted.
  rewrite <- (firstn_skipn 5 (sort_by_points stories_list)) in Hsorted.
  destruct (sorted_split _ _ _ Hsorted) as [Htop Hrest].
  split; [rewrite firstn_skipn; apply sort_by_points_perm|].
  split; [|split; [exact Htop|exact Hrest]].
  rewrite length_firstn, (Permutation_length (sort_by_points_perm stories_list)).
  unfold stories_list. rewrite length_map. reflexivity.
Qed.

(** *** Points and front-page hits *)

Lemma hits_cost_points (stories : list story) :
  Forall (fun s => 0 <= points_of s) stories ->
  0 <= count_if (fun s => Py.ge (points_of s) 100) stories
  /\ 100 * count_if (fun s => Py.ge (points_of s) 100) stories
     <= Py.sum (map points_of stories).
Proof.
  unfold count_if. induction 1 as [|s stories Hs _ IH].
  - cbn [List.filter map]. rewrite PyFacts.sum_nil. lra.
  - cbn [List.filter map]. rewrite PyFacts.sum_cons.
    destruct (Py.ge (points_of s) 100) eqn:E.
    + apply PyFacts.ge_true in E. cbn [map]. rewrite PyFacts.sum_cons. lra.
    + lra.
Qed.

(** X24.  When no story has negative points, the point total that
    [fetch_company_data] reports is not negative and is at least 100
    times the number of front-page hits. *)
Theorem points_cover_frontpage_hits (fetched : list (list story)) :
  (forall stories s, In stories fetched -> In s stories -> 0 <= points_of s) ->
  exists data,
    fetch_company_data words_of fetched = Py.Ok data
    /\ 0 <= 100 * frontpage_hits data <= total_points data.
Proof.
  intros Hpoints.
  destruct (company_data_fields fetched) as (avg_sentiment & _ & ->).
  eexists. split; [reflexivity|]. cbn [frontpage_hits total_points].
  assert (Hkept : Forall (fun s => 0 <= points_of s)
                         (map snd (collect_stories fetched))).
  { apply List.Forall_forall. intros s Hs.
    apply in_map_iff in Hs. destruct Hs as (entry & <- & Hentry).
    rewrite collect_stories_flat in Hentry.
    destruct (add_stories_spec (concat fetched) [] NoDup_nil_2)
      as (_ & _ & Hentries).
    destruct (Hentries entry Hentry) as [[]|(_ & Hin)].
    apply in_concat in Hin. destruct Hin as (stories & H1 & H2).
    exact (Hpoints stories (snd entry) H1 H2). }
  destruct (hits_cost_points _ Hkept) as [H0 H100]. lra.
Qed.

End Sentiment.

Lemma points_cover_frontpage_hits_witness :
  exists data,
    FetchHackernews.fetch_company_data
      Samples.words_sample Samples.fetched_stories
    = Py.Ok data
    /\ 0 <= 100 * FetchHackernews.frontpage_hits data
       <= FetchHackernews.total_points data.
Proof.
  apply points_cover_frontpage_hits.
  intros stories s [<-|[<-|[]]] [<-|[<-|[]]]; vm_compute; discriminate.
Defined.

End BuzzFacts.

(** ** Which weeks the scores read *)

Module SeriesFacts.

Import CalculateWeather.

(** [calculate_shipping_score] over the first seven entries of the
    stored series. *)
Lemma shipping_score_steps (pulse_data : option pulse_doc) (company_id : string) :
  calculate_shipping_score pulse_data company_id
  = match pulse_data ≫= pd_companies with
    | None => Py.Ok None
    | Some _ =>
        let recent_activity :=
          Py.slice_to 7 (Spec.weekly_activity pulse_data company_id) in
        if negb (Py.truthy recent_activity) then Py.Ok None
        else
          avg_recent ←
            Py.div (Py.sum recent_activity) (Py.len recent_activity);
          r ← Py.div avg_recent 3.0;
          Py.Ok (Some (Py.min 1.0 r))
    end.
Proof.
  unfold calculate_shipping_score, Spec.weekly_activity.
  destruct (pulse_data ≫= pd_companies) as [companies|];
    cbn [default from_option id]; [|reflexivity].
  generalize (from_option id []
                (pc_activity (from_option id no_pulse (companies !! company_id)))).
  intros activity. cbv zeta.
  destruct activity as [|x activity]; [reflexivity|].
  cbn [Py.truthy negb].
  destruct (7 <=? List.length (x :: activity))%nat eqn:E.
  - reflexivity.
  - apply Nat.leb_gt in E. unfold Py.slice_to.
    rewrite firstn_all2 by lia. reflexivity.
Qed.

(** X25.  The shipping score reads nothing but the first seven entries
    of the stored series: two pulse documents that both hold a
    [companies] table (or both lack it) and agree on those seven entries
    give the same score, whatever weeks follow. *)
Theorem shipping_reads_first_seven
  (pulse1 pulse2 : option pulse_doc) (company_id : string) :
  (is_Some (pulse1 ≫= pd_companies) <-> is_Some (pulse2 ≫= pd_companies)) ->
  Py.slice_to 7 (Spec.weekly_activity pulse1 company_id)
  = Py.slice_to 7 (Spec.weekly_activity pulse2 company_id) ->
  calculate_shipping_score pulse1 company_id
  = calculate_shipping_score pulse2 company_id.
Proof.
  intros Htable Hseven. rewrite !shipping_score_steps. cbv zeta.
  rewrite Hseven.
  destruct (pulse1 ≫= pd_companies) as [c1|];
    destruct (pulse2 ≫= pd_companies) as [c2|]; try reflexivity.
  - destruct Htable as [H _]. destruct (H ltac:(eauto)) as [? [=]].
  - destruct Htable as [_ H]. destruct (H ltac:(eauto)) as [? [=]].
Qed.

Lemma shipping_reads_first_seven_witness :
  calculate_shipping_score
    (Some (Samples.pulse_of "openai" [3; 0; 1; 2; 0; 0; 1]%Z)) "openai"
  = calculate_shipping_score
      (Some (Samples.pulse_of "openai" [3; 0; 1; 2; 0; 0; 1; 9; 9; 9]%Z))
      "openai".
Proof.
  apply shipping_reads_first_seven.
  - split; intros _; eexists; reflexivity.
  - reflexivity.
Defined.

(** X26.  The competitive score reads nothing but the first seven
    entries of each stored series: two pulse documents that are both
    empty or both not, and agree on those seven entries for the
    organisation and for the roster, give the same score with the same
    buzz document. *)
Theorem competitive_reads_first_seven
  (buzz_data : option buzz_doc) (pulse1 pulse2 : option pulse_doc)
  (company_id : string) (roster : list string) :
  pulse_truthy pulse1 = pulse_truthy pulse2 ->
  (forall c, In c (company_id :: roster) ->
             Py.slice_to 7 (Spec.weekly_activity pulse1 c)
             = Py.slice_to 7 (Spec.weekly_activity pulse2 c)) ->
  calculate_competitive_score buzz_data pulse1 company_id roster
  = calculate_competitive_score buzz_data pulse2 company_id roster.
Proof.
  intros Htruthy Hseven. rewrite !RangeFacts.competitive_score_steps.
  rewrite Htruthy. cbv beta zeta.
  rewrite (Hseven company_id (or_introl eq_refl)).
  rewrite (map_ext_in
             (fun c => Py.sum (Py.slice_to 7 (Spec.weekly_activity pulse1 c)))
             (fun c => Py.sum (Py.slice_to 7 (Spec.weekly_activity pulse2 c)))
             roster);
    [reflexivity|].
  intros c Hc. rewrite (Hseven c (or_intror Hc)). reflexivity.
Qed.

Lemma competitive_reads_first_seven_witness :
  calculate_competitive_score
    (Some Samples.buzz_openai_only)
    (Some (Samples.pulse_of "openai" [3; 0; 1; 2; 0; 0; 1]%Z))
    "openai" all_companies
  = calculate_competitive_score
      (Some Samples.buzz_openai_only)
      (Some (Samples.pulse_of "openai" [3; 0; 1; 2; 0; 0; 1; 9; 9; 9]%Z))
      "openai" all_companies.
Proof.
  apply competitive_reads_first_seven.
  - reflexivity.
  - intros c [<-|[<-|[<-|[<-|[<-|[]]]]]]; reflexivity.
Defined.

End SeriesFacts.
